(** * SunPy EVE clients: query predicates, interval normalisation and
      data-source dispatch

    A shallow embedding of
      - [sunpy/net/dataretriever/sources/eve.py] (the five EVE clients), and
      - [sunpy/timeseries/sources/eve.py] (the two [is_datasource_for]
        class methods),
    together with the properties the specification states about them.

    Python values are embedded as follows.  A [str] is a [string] of bytes,
    a [datetime.datetime] is a record of its seven integer fields, a [set]
    of class names is a [gset string], keyword arguments are a
    [gmap string PyValue], and a function that may raise returns a sum or
    an [option].  Each class of the sources is a module that keeps the
    names of its methods.

    The first part holds the embedding and the vocabulary of the
    properties, the second part the lemmas, the theorems C1 to C10 and
    the further properties X1 to X16. *)

From Stdlib Require Import ZArith Ascii String List Bool Lia Permutation.
From stdpp Require Import base decidable option list gmap strings sets pretty.

Local Open Scope string_scope.
Local Open Scope Z_scope.

(** ** Python strings *)

Module PyStr.

(** [str.lower()] on a byte string: [A-Z] is mapped to [a-z], every other
    byte is left alone. *)
Definition lower_ascii (c : ascii) : ascii :=
  let n := nat_of_ascii c in
  if ((65 <=? n) && (n <=? 90))%nat then ascii_of_nat (n + 32) else c.

Fixpoint lower (s : string) : string :=
  match s with
  | EmptyString => EmptyString
  | String c s' => String (lower_ascii c) (lower s')
  end.

(** [s.startswith(p)] *)
Definition startswith (s p : string) : bool := String.prefix p s.

(** [sub in s] *)
Fixpoint contains (sub s : string) : bool :=
  String.prefix sub s
  || match s with
     | EmptyString => false
     | String _ s' => contains sub s'
     end.

(** [s.replace(a, b)] for single characters [a] and [b]. *)
Fixpoint replace_char (a b : ascii) (s : string) : string :=
  match s with
  | EmptyString => EmptyString
  | String c s' =>
      String (if Ascii.eqb c a then b else c) (replace_char a b s')
  end.

(** [s.split(sep)] for a single character [sep]: the pieces between the
    occurrences of [sep], at least one piece. *)
Fixpoint split (sep : ascii) (s : string) : list string :=
  match s with
  | EmptyString => [EmptyString]
  | String c s' =>
      if Ascii.eqb c sep then EmptyString :: split sep s'
      else match split sep s' with
           | piece :: pieces => String c piece :: pieces
           | [] => [String c EmptyString]
           end
  end.

(** [s.split(sep, 1)]: cut at the first occurrence of [sep] only. *)
Fixpoint split1 (sep : ascii) (s : string) : list string :=
  match s with
  | EmptyString => [EmptyString]
  | String c s' =>
      if Ascii.eqb c sep then [EmptyString; s']
      else match split1 sep s' with
           | piece :: pieces => String c piece :: pieces
           | [] => [String c EmptyString]
           end
  end.

(** The characters [str.strip()] removes from a text decoded as ASCII:
    tab to carriage return, the four separators 28 to 31, and the blank. *)
Definition is_space (c : ascii) : bool :=
  let n := nat_of_ascii c in
  ((9 <=? n) && (n <=? 13) || (28 <=? n) && (n <=? 32))%nat.

Fixpoint lstrip (s : string) : string :=
  match s with
  | EmptyString => EmptyString
  | String c s' => if is_space c then lstrip s' else s
  end.

Fixpoint rstrip (s : string) : string :=
  match s with
  | EmptyString => EmptyString
  | String c s' =>
      match rstrip s' with
      | EmptyString => if is_space c then EmptyString else String c EmptyString
      | r => String c r
      end
  end.

(** [s.strip()] *)
Definition strip (s : string) : string := lstrip (rstrip s).

End PyStr.

(** ** Python values carried by attributes and keyword arguments *)

Inductive PyValue : Type :=
| VInt (n : Z)
| VStr (s : string).

(** [isinstance(v, int)] and [isinstance(v, str)]. *)
Definition isinstance_int (v : PyValue) : bool :=
  match v with VInt _ => true | VStr _ => false end.

Definition isinstance_str (v : PyValue) : bool :=
  match v with VStr _ => true | VInt _ => false end.

(** [v == w]: an [int] never equals a [str]. *)
Definition py_eq (v w : PyValue) : bool :=
  match v, w with
  | VInt a, VInt b => a =? b
  | VStr a, VStr b => String.eqb a b
  | _, _ => false
  end.

(** [v.lower() == s], used only behind a guard that makes [v] a [str]. *)
Definition lower_eq (v : PyValue) (s : string) : bool :=
  match v with
  | VStr a => String.eqb (PyStr.lower a) s
  | VInt _ => false
  end.

(** [bool(v)]: the empty string and zero are falsy. *)
Definition truthy (v : PyValue) : bool :=
  match v with
  | VStr s => negb (String.eqb s "")
  | VInt n => negb (n =? 0)
  end.

(** ** [datetime.datetime] *)

Record datetime : Type := mkDatetime {
  year : Z; month : Z; day : Z;
  hour : Z; minute : Z; second : Z; microsecond : Z
}.

(** [datetime.datetime(y, m, d)] with the time fields defaulted to zero. *)
Definition datetime_ymd (y m d : Z) : datetime := mkDatetime y m d 0 0 0 0.

Module DT.

Definition is_leap (y : Z) : bool :=
  ((y mod 4 =? 0) && negb (y mod 100 =? 0)) || (y mod 400 =? 0).

Definition days_in_month (y m : Z) : Z :=
  if m =? 2 then (if is_leap y then 29 else 28)
  else if (m =? 4) || (m =? 6) || (m =? 9) || (m =? 11) then 30
  else 31.

(** The values the [datetime] constructor accepts. *)
Definition valid (t : datetime) : bool :=
  (1 <=? year t) && (year t <=? 9999) &&
  (1 <=? month t) && (month t <=? 12) &&
  (1 <=? day t) && (day t <=? days_in_month (year t) (month t)) &&
  (0 <=? hour t) && (hour t <? 24) &&
  (0 <=? minute t) && (minute t <? 60) &&
  (0 <=? second t) && (second t <? 60) &&
  (0 <=? microsecond t) && (microsecond t <? 1000000).

(** Naive datetimes compare field by field, most significant first. *)
Definition fields (t : datetime) : list Z :=
  [year t; month t; day t; hour t; minute t; second t; microsecond t].

Fixpoint lex_compare (a b : list Z) : comparison :=
  match a, b with
  | [], [] => Eq
  | [], _ :: _ => Lt
  | _ :: _, [] => Gt
  | x :: a', y :: b' =>
      match x ?= y with
      | Eq => lex_compare a' b'
      | c => c
      end
  end.

Definition compare (a b : datetime) : comparison :=
  lex_compare (fields a) (fields b).

Definition ltb (a b : datetime) : bool :=
  match compare a b with Lt => true | _ => false end.

Definition leb (a b : datetime) : bool :=
  match compare a b with Gt => false | _ => true end.

(** [a >= b] *)
Definition geb (a b : datetime) : bool := leb b a.

End DT.


(** [datetime.date], as returned by [datetime.date.today()]. *)
Record date : Type := mkDate { dyear : Z; dmonth : Z; dday : Z }.

(** Exceptions the embedded code can raise. *)
Inductive exn : Type :=
| NotImplementedError
| AttributeError
| TypeError
| KeyError
| ValueError.

(** ** [strftime] formats used by the clients *)

Module Strftime.

Definition digit_char (d : Z) : ascii := ascii_of_nat (48 + Z.to_nat d).

(** [%m], [%d], [%H]: two digits, zero padded. *)
Definition pad2 (n : Z) : list ascii :=
  [digit_char (n / 10 mod 10); digit_char (n mod 10)].

(** [%Y]: the year as a decimal number, as the C library writes it:
    without padding, so the year 999 is ['999'] and the year 1 is ['1']. *)
Definition year_text (n : Z) : list ascii :=
  if n <? 10 then [digit_char n]
  else if n <? 100 then [digit_char (n / 10); digit_char (n mod 10)]
  else if n <? 1000
  then [digit_char (n / 100); digit_char (n / 10 mod 10); digit_char (n mod 10)]
  else [digit_char (n / 1000 mod 10); digit_char (n / 100 mod 10);
        digit_char (n / 10 mod 10); digit_char (n mod 10)].

(** ['{:%Y-%m-%d}'.format(t)] *)
Definition format_Y_m_d (t : datetime) : string :=
  string_of_list_ascii
    (year_text (year t) ++ ["-"%char] ++ pad2 (month t) ++ ["-"%char] ++ pad2 (day t)).

(** ['{:%Y-%m-%d %H:00}'.format(t)] *)
Definition format_Y_m_d_H00 (t : datetime) : string :=
  string_of_list_ascii
    (year_text (year t) ++ ["-"%char] ++ pad2 (month t) ++ ["-"%char] ++ pad2 (day t)
     ++ [" "%char] ++ pad2 (hour t) ++ [":"%char; "0"%char; "0"%char]).

End Strftime.

(** ** [sunpy.time.parse_time] *)

Module ParseTime.

Definition digit_val (c : ascii) : option Z :=
  let n := nat_of_ascii c in
  if ((48 <=? n) && (n <=? 57))%nat then Some (Z.of_nat (n - 48)) else None.

Fixpoint number_from (acc : Z) (cs : list ascii) : option Z :=
  match cs with
  | [] => Some acc
  | c :: cs' =>
      match digit_val c with
      | Some d => number_from (acc * 10 + d) cs'
      | None => None
      end
  end.

Definition number (cs : list ascii) : option Z := number_from 0 cs.

Definition date_sep (c : ascii) : bool :=
  Ascii.eqb c "-" || Ascii.eqb c "/".

Definition build (y m d h mi : list ascii) : option datetime :=
  y' ← number y;
  m' ← number m;
  d' ← number d;
  h' ← number h;
  mi' ← number mi;
  let t := mkDatetime y' m' d' h' mi' 0 0 in
  if DT.valid t then Some t else None.

(** Modelled from the spec: [sunpy.time.parse_time] is not among the
    sources.  It reads a timestamp back from its text; the forms handed to
    it by the clients are [YYYY-MM-DD], [YYYY/MM/DD] and
    [YYYY-MM-DD HH:MM].  A text that is not a timestamp is refused
    ([None] stands for the [ValueError]). *)
Definition parse_time (s : string) : option datetime :=
  match list_ascii_of_string s with
  | [y1; y2; y3; y4; s1; m1; m2; s2; d1; d2] =>
      if date_sep s1 && Ascii.eqb s1 s2
      then build [y1; y2; y3; y4] [m1; m2] [d1; d2] [] []
      else None
  | [y1; y2; y3; y4; s1; m1; m2; s2; d1; d2; sp; h1; h2; c; mi1; mi2] =>
      if date_sep s1 && Ascii.eqb s1 s2 && Ascii.eqb sp " " && Ascii.eqb c ":"
      then build [y1; y2; y3; y4] [m1; m2] [d1; d2] [h1; h2] [mi1; mi2]
      else None
  | _ => None
  end.

(** [parse_time] of a [datetime.date]: midnight of that day. *)
Definition of_date (d : date) : datetime :=
  datetime_ymd (dyear d) (dmonth d) (dday d).

End ParseTime.

(** ** [sunpy.time.TimeRange] *)

Record TimeRange : Type := mkTimeRange { start : datetime; end_ : datetime }.

Module TR.

(** Modelled from the spec: [sunpy.time.TimeRange] is not among the
    sources.  It is a closed interval of timestamps with the invariant
    start <= end; built from two timestamps, it keeps the earlier one as
    its start. *)
Definition of_datetimes (x y : datetime) : TimeRange :=
  if DT.ltb x y then mkTimeRange x y else mkTimeRange y x.

(** [TimeRange(a, b)] with [a] a text and [b] a [datetime]. *)
Definition of_str (a : string) (b : datetime) : option TimeRange :=
  x ← ParseTime.parse_time a;
  Some (of_datetimes x b).

(** [TimeRange(a, b)] with [a] a text and [b] a [date]. *)
Definition of_str_date (a : string) (b : date) : option TimeRange :=
  of_str a (ParseTime.of_date b).

Definition valid (t : TimeRange) : bool :=
  DT.valid (start t) && DT.valid (end_ t) && DT.leb (start t) (end_ t).

(** [t0 <= t <= t1] *)
Definition contains (r : TimeRange) (t : datetime) : bool :=
  DT.leb (start r) t && DT.leb t (end_ r).

End TR.

(** ** [datetime.timedelta] added to a [datetime] *)

Module Timedelta.

(** [t + datetime.timedelta(days=1)]: the same time of day on the next
    calendar day; past the last day of year 9999 Python raises
    [OverflowError], here [None]. *)
Definition add_day (t : datetime) : option datetime :=
  if day t <? DT.days_in_month (year t) (month t)
  then Some (mkDatetime (year t) (month t) (day t + 1)
               (hour t) (minute t) (second t) (microsecond t))
  else if month t <? 12
  then Some (mkDatetime (year t) (month t + 1) 1
               (hour t) (minute t) (second t) (microsecond t))
  else if year t <? 9999
  then Some (mkDatetime (year t + 1) 1 1
               (hour t) (minute t) (second t) (microsecond t))
  else None.

(** [t + datetime.timedelta(hours=1)] *)
Definition add_hour (t : datetime) : option datetime :=
  if hour t <? 23
  then Some (mkDatetime (year t) (month t) (day t)
               (hour t + 1) (minute t) (second t) (microsecond t))
  else
    t' ← add_day t;
    Some (mkDatetime (year t') (month t') (day t')
            0 (minute t) (second t) (microsecond t)).

End Timedelta.

(** [t.time() != datetime.time(h, mi)]: the time of day of [t] against a
    time of day whose seconds and microseconds are zero. *)
Definition time_ne (t : datetime) (h mi : Z) : bool :=
  negb ((hour t =? h) && (minute t =? mi) && (second t =? 0)
        && (microsecond t =? 0)).

(** ** [str.format] on the URL templates *)

Module Template.

Inductive piece : Type :=
| Lit (s : string)
| Field (name : string)               (* [{name}] *)
| FieldD (name : string) (width : nat) (* [{name:0wd}] *).

Fixpoint zeros (n : nat) : string :=
  match n with
  | O => ""
  | S n' => String "0" (zeros n')
  end.

(** [format(n, '0wd')] for a non-negative [n]. *)
Definition format_d (width : nat) (n : Z) : string :=
  let s := pretty n in
  zeros (width - String.length s) ++ s.

Definition render (kwargs : gmap string PyValue) (p : piece) : exn + string :=
  match p with
  | Lit s => inr s
  | Field name =>
      match kwargs !! name with
      | Some (VStr s) => inr s
      | Some (VInt n) => inr (pretty n)
      | None => inl KeyError
      end
  | FieldD name width =>
      match kwargs !! name with
      | Some (VInt n) => inr (format_d width n)
      | Some (VStr _) => inl ValueError
      | None => inl KeyError
      end
  end.

Fixpoint format (kwargs : gmap string PyValue) (ps : list piece) : exn + string :=
  match ps with
  | [] => inr ""
  | p :: ps' =>
      match render kwargs p with
      | inl e => inl e
      | inr s =>
          match format kwargs ps' with
          | inl e => inl e
          | inr rest => inr (s ++ rest)
          end
      end
  end.

End Template.

(** ** [sunpy.util.scraper.Scraper]

    The scraper is an external collaborator: an object made from a URL
    pattern, which lists the files of a time range and reads the date back
    from a URL. *)

Record Scraper : Type := mkScraper {
  pattern : string;
  filelist : TimeRange -> list string;
  _extractDateURL : string -> option datetime
}.

(** The collaborators the clients are built on: the constructor of
    [Scraper] and the constructor of the base class [GenericClient]. *)
Class Collaborators : Type := {
  (** [Scraper(pattern)] *)
  Scraper_new : string -> Scraper;
  (** [GenericClient.__init__(self, *args, **kwargs)]: the initial [map_],
      or the exception it raised. *)
  GenericClient_init : list PyValue -> gmap string PyValue -> exn + gmap string string
}.

Module SpecScraper.

(** The date a URL without date tokens is read as. *)
Definition sentinel : datetime := datetime_ymd 1900 1 1.

(** Modelled from the spec: [Scraper.filelist] and
    [Scraper._extractDateURL] are not among the sources.  For a pattern
    that holds no date token there is a single file, the pattern itself;
    the date read from it defaults to the sentinel epoch 1900-01-01, and
    the file is listed when that date lies within the requested range. *)
Definition perpetual (pat : string) : Scraper :=
  {| pattern := pat;
     filelist := fun timerange =>
       if TR.contains timerange sentinel then [pat] else [];
     _extractDateURL := fun _ => Some sentinel |}.

End SpecScraper.

(** ** Query terms

    The attributes a search is made of ([sunpy.net.vso.attrs]).  The
    predicates look only at the class name and at [value], [start] and
    [end]. *)

Inductive QueryTerm : Type :=
| Instrument (value : string)
| Level (value : PyValue)
| Time (t_start t_end : datetime)
| Source (value : string)
| Provider (value : string)
| Physobs (value : string).

(** [x.__class__.__name__] *)
Definition class_name (x : QueryTerm) : string :=
  match x with
  | Instrument _ => "Instrument"
  | Level _ => "Level"
  | Time _ _ => "Time"
  | Source _ => "Source"
  | Provider _ => "Provider"
  | Physobs _ => "Physobs"
  end.

(** [x.value]; the predicates read it only from [Instrument] and [Level]
    terms. *)
Definition value_of (x : QueryTerm) : PyValue :=
  match x with
  | Instrument v | Source v | Provider v | Physobs v => VStr v
  | Level v => v
  | Time _ _ => VStr ""
  end.

(** [x.start] and [x.end]; read only from [Time] terms. *)
Definition start_of (x : QueryTerm) : datetime :=
  match x with
  | Time s _ => s
  | _ => datetime_ymd 1 1 1
  end.

Definition end_of (x : QueryTerm) : datetime :=
  match x with
  | Time _ e => e
  | _ => datetime_ymd 1 1 1
  end.

(** ** [EVEClient]: level 0CS, daily files *)

Module EVEClient.

Definition BASEURL : string :=
  "http://lasp.colorado.edu/eve/data_access/evewebdata/quicklook/"
  ++ "L0CS/SpWx/%Y/%Y%m%d_EVE_L0CS_DIODES_1m.txt".

(** The first statement of [_get_url_for_timerange]: a start that is not
    at 00:00 is replaced by its day. *)
Definition normalized (timerange : TimeRange) : option TimeRange :=
  if time_ne (start timerange) 0 0
  then TR.of_str (Strftime.format_Y_m_d (start timerange)) (end_ timerange)
  else Some timerange.

Definition _get_url_for_timerange {C : Collaborators} (timerange : TimeRange)
  : option (list string) :=
  timerange' ← normalized timerange;
  let eve := Scraper_new BASEURL in
  Some (filelist eve timerange').

(** The constructor is the inherited [GenericClient.__init__]. *)
Definition __init__ {C : Collaborators} (args : list PyValue)
    (kwargs : gmap string PyValue) : exn + gmap string string :=
  GenericClient_init args kwargs.

(** [_can_handle_query]: a running counter. *)
Definition step (chk_var : Z) (x : QueryTerm) : Z :=
  if String.eqb (class_name x) "Instrument" && lower_eq (value_of x) "eve"
  then chk_var + 1
  else if String.eqb (class_name x) "Level" && py_eq (value_of x) (VInt 0)
  then chk_var + 1
  else chk_var.

Definition _can_handle_query (query : list QueryTerm) : bool :=
  let chk_var := fold_left step query 0 in
  if chk_var =? 2 then true else false.

(** [_get_time_for_url]: every URL gives the day that starts at the date
    read from it.  [None] stands for the exception of the scraper or of
    the addition. *)
Definition _get_time_for_url {C : Collaborators} (urls : list string)
  : option (list TimeRange) :=
  let eve := Scraper_new BASEURL in
  fold_left
    (fun times url =>
       ts ← times;
       t0 ← _extractDateURL eve url;
       t1 ← Timedelta.add_day t0;
       Some (ts ++ [TR.of_datetimes t0 t1])%list)
    urls (Some []).

(** [_makeimap], on the dictionary [self.map_]. *)
Definition _makeimap (map_ : gmap string string) : gmap string string :=
  <[ "level" := "L0CS" ]>
  (<[ "physobs" := "irradiance" ]>
  (<[ "instrument" := "eve" ]>
  (<[ "provider" := "LASP" ]>
  (<[ "source" := "SDO" ]> map_)))).

End EVEClient.

(** ** [_BaseEVEClient]: the level 2+ clients *)

Record ClassAttrs : Type := mkClassAttrs {
  _HOST_URL : string;
  (** [None] is the [NotImplemented] placeholder. *)
  _PRODUCT_URL : option (list Template.piece);
  _PRODUCT_NAME : string;
  _VERSION : Z;
  _REVISION : Z
}.

Record Client : Type := mkClient {
  map_ : gmap string string;
  _scrapper : Scraper
}.

Module _BaseEVEClient.

Definition cls : ClassAttrs :=
  {| _HOST_URL := "http://lasp.colorado.edu/eve/data_access/evewebdataproducts/";
     _PRODUCT_URL := None;
     _PRODUCT_NAME := "S";
     _VERSION := 6;
     _REVISION := 2 |}.

(** A subclass that rebinds [_PRODUCT_URL] only. *)
Definition subclass (product_url : list Template.piece) : ClassAttrs :=
  {| _HOST_URL := _HOST_URL cls;
     _PRODUCT_URL := Some product_url;
     _PRODUCT_NAME := _PRODUCT_NAME cls;
     _VERSION := _VERSION cls;
     _REVISION := _REVISION cls |}.

Definition __init__ {C : Collaborators} (c : ClassAttrs) (args : list PyValue)
    (kwargs : gmap string PyValue) : exn + Client :=
  match GenericClient_init args kwargs with
  | inl e => inl e
  | inr m =>
      match _PRODUCT_URL c with
      | None => inl NotImplementedError
      | Some product_url =>
          let fields : gmap string PyValue :=
            <[ "product" := VStr (_PRODUCT_NAME c) ]>
            (<[ "version" := VInt (_VERSION c) ]>
            (<[ "revision" := VInt (_REVISION c) ]> ∅)) in
          match Template.format fields (Template.Lit (_HOST_URL c) :: product_url) with
          | inl e => inl e
          | inr p => inr {| map_ := m; _scrapper := Scraper_new p |}
          end
      end
  end.

(** [_makeimap], on the dictionary [self.map_]. *)
Definition _makeimap (map_ : gmap string string) : gmap string string :=
  <[ "physobs" := "irradiance" ]>
  (<[ "instrument" := "eve" ]>
  (<[ "provider" := "LASP" ]>
  (<[ "source" := "SDO" ]> map_))).

End _BaseEVEClient.

(** ** [EVELevel2BClient]: daily files, from 2018-04-20 *)

Module EVELevel2BClient.

Import Template.

Definition cls : ClassAttrs :=
  _BaseEVEClient.subclass
    [Lit "level2b/%Y/%j/EV"; Field "product"; Lit "_L2B_%Y%j_";
     FieldD "version" 3; Lit "_"; FieldD "revision" 2; Lit ".fit.gz"].

Definition normalized (timerange : TimeRange) : option TimeRange :=
  if time_ne (start timerange) 0 0
  then TR.of_str (Strftime.format_Y_m_d (start timerange)) (end_ timerange)
  else Some timerange.

Definition _get_url_for_timerange (self : Client) (timerange : TimeRange)
  : option (list string) :=
  timerange' ← normalized timerange;
  Some (filelist (_scrapper self) timerange').

Definition cutover : datetime := datetime_ymd 2018 4 20.

(** [_can_handle_query]: a set of satisfied class names. *)
Definition step (chk_var : gset string) (x : QueryTerm) : gset string :=
  let name := class_name x in
  if String.eqb name "Instrument" && lower_eq (value_of x) "eve"
  then {[ name ]} ∪ chk_var
  else if String.eqb name "Level" && isinstance_str (value_of x)
          && lower_eq (value_of x) "2b"
  then {[ name ]} ∪ chk_var
  else if String.eqb name "Time" && DT.geb (end_of x) cutover
  then {[ name ]} ∪ chk_var
  else chk_var.

Definition _can_handle_query (query : list QueryTerm) : bool :=
  let chk_var := fold_left step query ∅ in
  Nat.eqb (size chk_var) 3.

(** [_get_time_for_url]: every URL gives the day that starts at the date
    read from it.  [None] stands for the exception of the scraper or of
    the addition. *)
Definition _get_time_for_url (self : Client) (urls : list string)
  : option (list TimeRange) :=
  fold_left
    (fun times url =>
       ts ← times;
       t0 ← _extractDateURL (_scrapper self) url;
       t1 ← Timedelta.add_day t0;
       Some (ts ++ [TR.of_datetimes t0 t1])%list)
    urls (Some []).

(** [_makeimap]: the entries of the base class, then the level. *)
Definition _makeimap (map_ : gmap string string) : gmap string string :=
  <[ "level" := "L2B" ]> (_BaseEVEClient._makeimap map_).

End EVELevel2BClient.

(** ** [EVELevel2Client]: hourly files, before 2018-04-28 *)

Module EVELevel2Client.

Import Template.

Definition cls : ClassAttrs :=
  _BaseEVEClient.subclass
    [Lit "level2/%Y/%j/EV"; Field "product"; Lit "_L2_%Y%j_%H_";
     FieldD "version" 3; Lit "_"; FieldD "revision" 2; Lit ".fit.gz"].

(** Hourly data: a start that is not on the hour is replaced by its
    hour. *)
Definition normalized (timerange : TimeRange) : option TimeRange :=
  if time_ne (start timerange) (hour (start timerange)) 0
  then TR.of_str (Strftime.format_Y_m_d_H00 (start timerange)) (end_ timerange)
  else Some timerange.

Definition _get_url_for_timerange (self : Client) (timerange : TimeRange)
  : option (list string) :=
  timerange' ← normalized timerange;
  Some (filelist (_scrapper self) timerange').

Definition cutover : datetime := datetime_ymd 2018 4 28.

Definition step (chk_var : gset string) (x : QueryTerm) : gset string :=
  let name := class_name x in
  if String.eqb name "Instrument" && lower_eq (value_of x) "eve"
  then {[ name ]} ∪ chk_var
  else if String.eqb name "Level"
          && ((isinstance_int (value_of x) && py_eq (value_of x) (VInt 2))
              || (isinstance_str (value_of x) && py_eq (value_of x) (VStr "2")))
  then {[ name ]} ∪ chk_var
  else if String.eqb name "Time" && DT.ltb (start_of x) cutover
  then {[ name ]} ∪ chk_var
  else chk_var.

Definition _can_handle_query (query : list QueryTerm) : bool :=
  let chk_var := fold_left step query ∅ in
  Nat.eqb (size chk_var) 3.

(** [_get_time_for_url]: every URL gives the hour that starts at the date
    read from it. *)
Definition _get_time_for_url (self : Client) (urls : list string)
  : option (list TimeRange) :=
  fold_left
    (fun times url =>
       ts ← times;
       t0 ← _extractDateURL (_scrapper self) url;
       t1 ← Timedelta.add_hour t0;
       Some (ts ++ [TR.of_datetimes t0 t1])%list)
    urls (Some []).

(** [_makeimap]: the entries of the base class, then the level. *)
Definition _makeimap (map_ : gmap string string) : gmap string string :=
  <[ "level" := "L2" ]> (_BaseEVEClient._makeimap map_).

End EVELevel2Client.

(** ** [EVELevel3Client]: daily files *)

Module EVELevel3Client.

Import Template.

Definition cls : ClassAttrs :=
  _BaseEVEClient.subclass
    [Lit "level3/%Y/EVE_L3_%Y%j_"; FieldD "version" 3; Lit "_";
     FieldD "revision" 2; Lit ".fit"].

Definition normalized (timerange : TimeRange) : option TimeRange :=
  if time_ne (start timerange) 0 0
  then TR.of_str (Strftime.format_Y_m_d (start timerange)) (end_ timerange)
  else Some timerange.

Definition _get_url_for_timerange (self : Client) (timerange : TimeRange)
  : option (list string) :=
  timerange' ← normalized timerange;
  Some (filelist (_scrapper self) timerange').

Definition step (chk_var : gset string) (x : QueryTerm) : gset string :=
  let name := class_name x in
  if String.eqb name "Instrument" && lower_eq (value_of x) "eve"
  then {[ name ]} ∪ chk_var
  else if String.eqb name "Level"
          && ((isinstance_int (value_of x) && py_eq (value_of x) (VInt 3))
              || (isinstance_str (value_of x) && py_eq (value_of x) (VStr "3")))
  then {[ name ]} ∪ chk_var
  else chk_var.

Definition _can_handle_query (query : list QueryTerm) : bool :=
  let chk_var := fold_left step query ∅ in
  Nat.eqb (size chk_var) 2.

(** [_get_time_for_url]: every URL gives the day that starts at the date
    read from it.  [None] stands for the exception of the scraper or of
    the addition. *)
Definition _get_time_for_url (self : Client) (urls : list string)
  : option (list TimeRange) :=
  fold_left
    (fun times url =>
       ts ← times;
       t0 ← _extractDateURL (_scrapper self) url;
       t1 ← Timedelta.add_day t0;
       Some (ts ++ [TR.of_datetimes t0 t1])%list)
    urls (Some []).

(** [_makeimap]: the entries of the base class, then the level. *)
Definition _makeimap (map_ : gmap string string) : gmap string string :=
  <[ "level" := "L3" ]> (_BaseEVEClient._makeimap map_).

End EVELevel3Client.

(** ** [EVELevel3MergedClient]: one full-mission file *)

Module EVELevel3MergedClient.

Import Template.

Definition cls : ClassAttrs :=
  _BaseEVEClient.subclass [Lit "merged/latest_EVE_L3_merged.fit"].

(** The requested range is not used: the scraper reads a URL without a
    date as 1900, so the range passed to it starts there.  [today] is the
    value of [datetime.date.today()] at the call. *)
Definition _get_url_for_timerange (self : Client) (today : date)
    (timerange : TimeRange) : option (list string) :=
  full_timerange ← TR.of_str_date "1900/01/01" today;
  Some (filelist (_scrapper self) full_timerange).

Definition _get_time_for_url (today : date) (urls : list string)
  : option (list TimeRange) :=
  fold_left
    (fun times url =>
       ts ← times;
       t ← TR.of_str_date "1900/01/01" today;
       Some (ts ++ [t])%list)
    urls (Some []).

(** [v.lower() in l] *)
Definition lower_in (v : PyValue) (l : list string) : bool :=
  existsb (lower_eq v) l.

Definition step (chk_var : gset string) (x : QueryTerm) : gset string :=
  let name := class_name x in
  if String.eqb name "Instrument" && lower_eq (value_of x) "eve"
  then {[ name ]} ∪ chk_var
  else if String.eqb name "Level" && isinstance_str (value_of x)
          && lower_in (value_of x) ["3m"; "3merged"]
  then {[ name ]} ∪ chk_var
  else chk_var.

Definition _can_handle_query (query : list QueryTerm) : bool :=
  let chk_var := fold_left step query ∅ in
  Nat.eqb (size chk_var) 2.


(** [_makeimap]: the entries of the base class, then the level. *)
Definition _makeimap (map_ : gmap string string) : gmap string string :=
  <[ "level" := "L3Merged" ]> (_BaseEVEClient._makeimap map_).

End EVELevel3MergedClient.

(** ** Regular expressions, as far as [is_datasource_for] needs them *)

Module Re.

(** A pattern is a sequence of nodes; [re.match] anchors it at the
    beginning of the text. *)
Inductive atom : Type :=
| Chr (c : ascii)          (* a literal character *)
| Cls (cs : list ascii)    (* a character set [[...]] *).

Inductive node : Type :=
| Bol                      (* [^] *)
| Eol                      (* [$] *)
| One (a : atom)
| Opt (a : atom)           (* [a?], greedy *).

Definition newline : ascii := ascii_of_nat 10.

(** With [re.I] both sides are compared in lower case. *)
Definition char_eq (ignorecase : bool) (p c : ascii) : bool :=
  if ignorecase
  then Ascii.eqb (PyStr.lower_ascii c) (PyStr.lower_ascii p)
  else Ascii.eqb c p.

Definition atom_matches (ignorecase : bool) (a : atom) (c : ascii) : bool :=
  match a with
  | Chr p => char_eq ignorecase p c
  | Cls cs => existsb (fun p => char_eq ignorecase p c) cs
  end.

(** [$] holds at the end of the text and just before a newline that ends
    the text. *)
Definition at_eol (s : string) : bool :=
  match s with
  | EmptyString => true
  | String c EmptyString => Ascii.eqb c newline
  | _ => false
  end.

(** The rest [s] of the text at offset [pos] against the rest of the
    pattern: the offset at which the match ends. *)
Fixpoint match_here (ignorecase : bool) (re : list node) (pos : nat)
    (s : string) : option nat :=
  match re with
  | [] => Some pos
  | Bol :: re' =>
      if Nat.eqb pos 0 then match_here ignorecase re' pos s else None
  | Eol :: re' =>
      if at_eol s then match_here ignorecase re' pos s else None
  | One a :: re' =>
      match s with
      | String c s' =>
          if atom_matches ignorecase a c
          then match_here ignorecase re' (S pos) s'
          else None
      | EmptyString => None
      end
  | Opt a :: re' =>
      match s with
      | String c s' =>
          if atom_matches ignorecase a c
          then match match_here ignorecase re' (S pos) s' with
               | Some e => Some e
               | None => match_here ignorecase re' pos s
               end
          else match_here ignorecase re' pos s
      | EmptyString => match_here ignorecase re' pos s
      end
  end.

(** [re.match(pattern, string, flags)]: [Some e] is a match object that
    spans [0..e], [None] is Python's [None]. *)
Definition match_ (re : list node) (s : string) (ignorecase : bool)
  : option nat :=
  match_here ignorecase re 0 s.

(** Whether [re.match] gave a match object. *)
Definition is_match (m : option nat) : bool :=
  match m with Some _ => true | None => false end.

End Re.

(** ** [sunpy.timeseries.sources.eve] *)

(** What [is_datasource_for] hands back: nothing at all, a [bool], or a
    match object. *)
Inductive PyResult : Type :=
| RNone
| RBool (b : bool)
| RMatch (span_end : nat).

(** [kwargs.get(key, default)] *)
Definition kwargs_get (kwargs : gmap string PyValue) (key : string)
    (default_ : PyValue) : PyValue :=
  default default_ (kwargs !! key).

Module EVESpWxTimeSeries.

Definition _source : string := "eve".

Definition is_datasource_for (kwargs : gmap string PyValue) : exn + PyResult :=
  if truthy (kwargs_get kwargs "source" (VStr ""))
  then match kwargs_get kwargs "source" (VStr "") with
       | VStr s => inr (RBool (String.eqb (PyStr.lower s) _source))
       | VInt _ => inl AttributeError
       end
  else inr RNone.

(** A file object: the lines [readline] has still to return, each with
    its line end.  At the end of the file [readline] returns the empty
    text. *)
Definition readline (fp : list string) : string * list string :=
  match fp with
  | [] => ("", [])
  | l :: fp' => (l, fp')
  end.

(** What [_parse_file] does with the rewound file: it hands it to one of
    the two parsers, or falls off its end and returns [None]. *)
Inductive Parser : Type :=
| ParseAverageCsv
| ParseLevel0cs
| ParseNothing.

Definition _parse_file (fp : list string) : Parser :=
  let line1 := fst (readline fp) in
  if PyStr.startswith line1 "Date" then ParseAverageCsv
  else if PyStr.startswith line1 ";" then ParseLevel0cs
  else ParseNothing.

(** *** [_parse_level_0cs]: the header *)

(** The variables of the first loop. *)
Record HeaderRead : Type := mkHeaderRead {
  is_missing_data : bool;
  (** [None] is the initial [np.nan]. *)
  missing_data_val : option string;
  header : list string;
  (** The line read last, which is not part of the header. *)
  line : string;
  (** The rest of the file. *)
  fp_rest : list string
}.

(** [while line.startswith(";")]: [None] stands for the [IndexError] of
    [line.split(':')[1]]. *)
Fixpoint header_loop (fp : list string) (st : HeaderRead) : option HeaderRead :=
  if PyStr.startswith (line st) ";"
  then
    let header' := (header st ++ [line st])%list in
    flags ←
      (if PyStr.contains "; Missing data:" (line st)
       then v ← PyStr.split ":" (line st) !! 1%nat;
            Some (true, Some (PyStr.strip v))
       else Some (is_missing_data st, missing_data_val st));
    match fp with
    | [] => Some (mkHeaderRead (fst flags) (snd flags) header' "" [])
    | l :: fp' =>
        header_loop fp' (mkHeaderRead (fst flags) (snd flags) header' l fp')
    end
  else Some st.

Definition read_header (fp : list string) : option HeaderRead :=
  let '(line0, fp') := readline fp in
  header_loop fp' (mkHeaderRead false None [] line0 fp').

Definition nl : string := String (ascii_of_nat 10) "".

(** One turn of [for hline in header] that fills [meta]: the assignment
    [meta[key] = value] it makes, if any.  The outer [None] stands for the
    [IndexError] of [hline.split(':', 1)[1]]. *)
Definition meta_entry (hline : string) : option (option (string * string)) :=
  if String.eqb hline ("; Format:" ++ nl)
     || String.eqb hline ("; Column descriptions:" ++ nl)
  then Some None
  else if PyStr.contains "Created" hline || PyStr.contains "Source" hline
  then
    v ← PyStr.split1 ":" hline !! 1%nat;
    k ← PyStr.split1 ":" hline !! 0%nat;
    Some (Some (PyStr.strip (PyStr.replace_char ";" " " k), PyStr.strip v))
  else if PyStr.contains ":" hline
  then
    v ← PyStr.split ":" hline !! 1%nat;
    k ← PyStr.split ":" hline !! 0%nat;
    Some (Some (PyStr.strip (PyStr.replace_char ";" " " k), PyStr.strip v))
  else Some None.

(** The assignments to [meta], in the order in which they are made. *)
Definition header_meta (header : list string) : option (list (string * string)) :=
  fold_left
    (fun meta hline =>
       m ← meta;
       e ← meta_entry hline;
       Some (match e with
             | Some kv => (m ++ [kv])%list
             | None => m
             end))
    header (Some []).

(** One turn of the loop that collects the column names. *)
Definition fields_step (st : bool * list string) (hline : string)
  : option (bool * list string) :=
  let '(fieldnames_start, fields) := st in
  let fieldnames_start :=
    if PyStr.startswith hline "; Format:" then false else fieldnames_start in
  fields' ←
    (if fieldnames_start
     then k ← PyStr.split ":" hline !! 0%nat;
          Some (fields ++ [PyStr.strip (PyStr.replace_char ";" " " k)])%list
     else Some fields);
  let fieldnames_start :=
    if PyStr.startswith hline "; Column descriptions:" then true
    else fieldnames_start in
  Some (fieldnames_start, fields').

Definition header_fields (header : list string) : option (list string) :=
  st ← fold_left (fun st hline => s ← st; fields_step s hline)
         header (Some (false, []));
  Some (snd st).

End EVESpWxTimeSeries.

Module EVEScanTimeSeries.

Import Re.

Definition _source : string := "eve_l2b".

(** [r'^eve[_ ]l2b?$'] *)
Definition source_pattern : list node :=
  [Bol; One (Chr "e"); One (Chr "v"); One (Chr "e");
   One (Cls ["_"%char; " "%char]);
   One (Chr "l"); One (Chr "2"); Opt (Chr "b"); Eol].

Definition is_datasource_for (kwargs : gmap string PyValue) : exn + PyResult :=
  if truthy (kwargs_get kwargs "source" (VStr ""))
  then match kwargs !! "source" with
       | Some (VStr s) =>
           match Re.match_ source_pattern s true with
           | Some e => inr (RMatch e)
           | None => inr RNone
           end
       | Some (VInt _) => inl TypeError
       | None => inl KeyError
       end
  else inr RNone.

End EVEScanTimeSeries.



(** ** Vocabulary of the properties *)

(** The shape shared by the four set-based predicates: a term that passes
    the test [hit] contributes its class name. *)
Module KindSet.

Definition kstep (hit : QueryTerm -> bool) (chk_var : gset string)
    (x : QueryTerm) : gset string :=
  if hit x then {[ class_name x ]} ∪ chk_var else chk_var.

(** The names collected from a query. *)
Definition kinds (hit : QueryTerm -> bool) (query : list QueryTerm)
  : gset string :=
  fold_left (kstep hit) query ∅.

End KindSet.

(** The requirements of the variants, one test per kind of term. *)
Module Req.

Definition instrument_eve (x : QueryTerm) : bool :=
  match x with
  | Instrument v => String.eqb (PyStr.lower v) "eve"
  | _ => false
  end.

Definition level_0 (x : QueryTerm) : bool :=
  match x with
  | Level (VInt n) => n =? 0
  | _ => false
  end.

Definition level_2b (x : QueryTerm) : bool :=
  match x with
  | Level (VStr s) => String.eqb (PyStr.lower s) "2b"
  | _ => false
  end.

Definition level_2 (x : QueryTerm) : bool :=
  match x with
  | Level (VInt n) => n =? 2
  | Level (VStr s) => String.eqb s "2"
  | _ => false
  end.

Definition level_3 (x : QueryTerm) : bool :=
  match x with
  | Level (VInt n) => n =? 3
  | Level (VStr s) => String.eqb s "3"
  | _ => false
  end.

Definition level_3m (x : QueryTerm) : bool :=
  match x with
  | Level (VStr s) =>
      String.eqb (PyStr.lower s) "3m" || String.eqb (PyStr.lower s) "3merged"
  | _ => false
  end.

(** A [Time] term whose end is on or after [t]. *)
Definition time_end_from (t : datetime) (x : QueryTerm) : bool :=
  match x with
  | Time _ e => DT.leb t e
  | _ => false
  end.

(** A [Time] term whose start is strictly before [t]. *)
Definition time_start_before (t : datetime) (x : QueryTerm) : bool :=
  match x with
  | Time s _ => DT.ltb s t
  | _ => false
  end.

End Req.

(** The test each set-based variant applies to a term, and the
    requirement it amounts to: every required kind has a satisfying term. *)
Module Variant.

Definition hit_2b (x : QueryTerm) : bool :=
  Req.instrument_eve x || Req.level_2b x
  || Req.time_end_from EVELevel2BClient.cutover x.

Definition hit_2 (x : QueryTerm) : bool :=
  Req.instrument_eve x || Req.level_2 x
  || Req.time_start_before EVELevel2Client.cutover x.

Definition hit_3 (x : QueryTerm) : bool :=
  Req.instrument_eve x || Req.level_3 x.

Definition hit_3m (x : QueryTerm) : bool :=
  Req.instrument_eve x || Req.level_3m x.

Definition covers_2b (query : list QueryTerm) : bool :=
  existsb Req.instrument_eve query && existsb Req.level_2b query
  && existsb (Req.time_end_from EVELevel2BClient.cutover) query.

Definition covers_2 (query : list QueryTerm) : bool :=
  existsb Req.instrument_eve query && existsb Req.level_2 query
  && existsb (Req.time_start_before EVELevel2Client.cutover) query.

Definition covers_3 (query : list QueryTerm) : bool :=
  existsb Req.instrument_eve query && existsb Req.level_3 query.

Definition covers_3m (query : list QueryTerm) : bool :=
  existsb Req.instrument_eve query && existsb Req.level_3m query.

(** Level 0: the number of terms that satisfy one of its two checks. *)
Definition hit_0 (x : QueryTerm) : bool :=
  Req.instrument_eve x || Req.level_0 x.

Definition count_0 (query : list QueryTerm) : nat :=
  length (List.filter hit_0 query).

End Variant.

(** The contract read to the letter: the collection holds exactly the
    required terms, that is, every requirement is met by exactly one term
    and every term meets a requirement. *)
Module Exact.

Definition exactly (reqs : list (QueryTerm -> bool)) (query : list QueryTerm)
  : bool :=
  forallb (fun r => Nat.eqb (length (List.filter r query)) 1) reqs
  && forallb (fun x => existsb (fun r => r x) reqs) query.

Definition reqs_0 : list (QueryTerm -> bool) :=
  [Req.instrument_eve; Req.level_0].

Definition reqs_2b : list (QueryTerm -> bool) :=
  [Req.instrument_eve; Req.level_2b;
   Req.time_end_from EVELevel2BClient.cutover].

Definition reqs_2 : list (QueryTerm -> bool) :=
  [Req.instrument_eve; Req.level_2;
   Req.time_start_before EVELevel2Client.cutover].

Definition reqs_3 : list (QueryTerm -> bool) :=
  [Req.instrument_eve; Req.level_3].

Definition reqs_3m : list (QueryTerm -> bool) :=
  [Req.instrument_eve; Req.level_3m].

End Exact.

(** The boundaries of the file granularities. *)
Module Granularity.

(** Midnight of the calendar day of [t]. *)
Definition floor_day (t : datetime) : datetime :=
  mkDatetime (year t) (month t) (day t) 0 0 0 0.

(** The top of the hour of [t]. *)
Definition floor_hour (t : datetime) : datetime :=
  mkDatetime (year t) (month t) (day t) (hour t) 0 0 0.

End Granularity.

(** The source names [EVEScanTimeSeries] takes, written in lower case:
    "eve", then "_" or a blank, then "l2" and possibly "b"; a single
    newline may follow. *)
Module SourceNames.

Definition names : list string := ["eve_l2b"; "eve_l2"; "eve l2b"; "eve l2"].

Definition with_newline (n : string) : string := n ++ String Re.newline "".

Definition accepted (s : string) : bool :=
  existsb (String.eqb (PyStr.lower s)) (names ++ map with_newline names).

End SourceNames.

(** The span a URL stands for: it starts at the date read from the URL and
    ends one day, or one hour, later. *)
Module Spans.

Definition day_of (scraper : Scraper) (url : string) (r : TimeRange) : Prop :=
  exists t0 t1 : datetime,
    _extractDateURL scraper url = Some t0
    /\ Timedelta.add_day t0 = Some t1
    /\ r = mkTimeRange t0 t1.

Definition hour_of (scraper : Scraper) (url : string) (r : TimeRange) : Prop :=
  exists t0 t1 : datetime,
    _extractDateURL scraper url = Some t0
    /\ Timedelta.add_hour t0 = Some t1
    /\ r = mkTimeRange t0 t1.

(** One turn of the loop of [_get_time_for_url], with the addition [add]
    of the client. *)
Definition span (scraper : Scraper) (add : datetime -> option datetime)
    (url : string) : option TimeRange :=
  t0 ← _extractDateURL scraper url;
  t1 ← add t0;
  Some (TR.of_datetimes t0 t1).

End Spans.

(** The entries every client writes into [map_], with its level. *)
Module Imap.

Definition entries (level : string) : gmap string string :=
  <[ "level" := level ]>
  (<[ "physobs" := "irradiance" ]>
  (<[ "instrument" := "eve" ]>
  (<[ "provider" := "LASP" ]>
  (<[ "source" := "SDO" ]> ∅)))).

End Imap.

(** Words for the header of a level 0CS file. *)
Module Level0cs.

(** A header line that makes the loop over [meta] raise: it is not one of
    the two section titles, it mentions Created or Source, and it holds
    no colon. *)
Definition colonless (hline : string) : bool :=
  negb (String.eqb hline ("; Format:" ++ EVESpWxTimeSeries.nl))
  && negb (String.eqb hline ("; Column descriptions:" ++ EVESpWxTimeSeries.nl))
  && (PyStr.contains "Created" hline || PyStr.contains "Source" hline)
  && negb (PyStr.contains ":" hline).

(** A name as the parser hands it on: nothing to strip, and no semicolon. *)
Definition clean (name : string) : Prop :=
  PyStr.strip name = name /\ ~ In ";"%char (list_ascii_of_string name).

(** The column name a description line gives: the text before its first
    colon, with semicolons blanked and then stripped. *)
Definition name_of (hline : string) : string :=
  PyStr.strip (PyStr.replace_char ";" " " (hd "" (PyStr.split ":" hline))).

Definition opens_columns (hline : string) : bool :=
  PyStr.startswith hline "; Column descriptions:".

Definition opens_format (hline : string) : bool :=
  PyStr.startswith hline "; Format:".

End Level0cs.

(** * Properties *)

(** ** The embedding on the values of the test suite *)

Module TestCanHandleQuery.

Example ans1 :
  EVEClient._can_handle_query
    [Time (datetime_ymd 2012 8 9) (datetime_ymd 2012 8 10);
     Instrument "eve"; Level (VInt 0)] = true.
Proof. reflexivity. Qed.

Example ans2 :
  EVEClient._can_handle_query
    [Time (datetime_ymd 2012 7 7) (datetime_ymd 2012 7 7)] = false.
Proof. reflexivity. Qed.

Example ans3 :
  EVEClient._can_handle_query
    [Time (datetime_ymd 2012 8 9) (datetime_ymd 2012 8 10);
     Instrument "eve"; Source "sdo"] = false.
Proof. reflexivity. Qed.

Example ans4 :
  EVELevel2BClient._can_handle_query
    [Time (datetime_ymd 2018 4 20) (datetime_ymd 2018 4 20);
     Instrument "eve"; Level (VStr "2b")] = true.
Proof. vm_compute. reflexivity. Qed.

Example ans5 :
  EVELevel2BClient._can_handle_query
    [Time (datetime_ymd 2018 4 20) (datetime_ymd 2018 4 20);
     Instrument "eve"; Instrument "eve"] = false.
Proof. vm_compute. reflexivity. Qed.

Example ans6 :
  EVELevel2Client._can_handle_query
    [Time (mkDatetime 2018 1 1 14 0 0 0) (mkDatetime 2018 1 1 14 0 0 0);
     Instrument "eve"; Level (VStr "2")] = true.
Proof. vm_compute. reflexivity. Qed.

Example ans7 :
  EVELevel2Client._can_handle_query
    [Time (mkDatetime 2018 1 1 14 0 0 0) (mkDatetime 2018 1 1 14 0 0 0);
     Instrument "eve"; Level (VInt 2)] = true.
Proof. vm_compute. reflexivity. Qed.

Example ans8 :
  EVELevel2Client._can_handle_query
    [Time (mkDatetime 2018 5 1 14 0 0 0) (mkDatetime 2018 5 1 14 0 0 0);
     Instrument "eve"; Level (VInt 2)] = false.
Proof. vm_compute. reflexivity. Qed.

Example ans9 :
  EVELevel3Client._can_handle_query
    [Time (datetime_ymd 2018 4 20) (datetime_ymd 2018 4 20);
     Instrument "eve"; Level (VStr "3")] = true.
Proof. vm_compute. reflexivity. Qed.

Example ans10 :
  EVELevel3Client._can_handle_query
    [Time (datetime_ymd 2018 4 20) (datetime_ymd 2018 4 20);
     Instrument "eve"; Level (VInt 3)] = true.
Proof. vm_compute. reflexivity. Qed.

Example ans11 :
  EVELevel3MergedClient._can_handle_query
    [Time (datetime_ymd 2018 4 20) (datetime_ymd 2018 4 20);
     Instrument "eve"; Level (VStr "3m")] = true.
Proof. vm_compute. reflexivity. Qed.

End TestCanHandleQuery.

Module Samples.

Example lower_mixed_case : PyStr.lower "EvE_L2b" = "eve_l2b".
Proof. reflexivity. Qed.

Example format_day :
  Strftime.format_Y_m_d (mkDatetime 2018 1 1 14 30 15 0) = "2018-01-01".
Proof. reflexivity. Qed.

Example format_hour :
  Strftime.format_Y_m_d_H00 (mkDatetime 2018 1 1 14 30 15 0)
  = "2018-01-01 14:00".
Proof. reflexivity. Qed.

Example format_day_year_999 :
  Strftime.format_Y_m_d (mkDatetime 999 1 1 5 30 0 0) = "999-01-01".
Proof. reflexivity. Qed.

Example format_hour_year_1 :
  Strftime.format_Y_m_d_H00 (mkDatetime 1 1 1 0 30 0 0) = "1-01-01 00:00".
Proof. reflexivity. Qed.

Example parse_refuses_short_year : ParseTime.parse_time "999-01-01" = None.
Proof. reflexivity. Qed.

Example parse_slashes :
  ParseTime.parse_time "1900/01/01" = Some (datetime_ymd 1900 1 1).
Proof. reflexivity. Qed.

Example parse_refuses_month_13 : ParseTime.parse_time "2018-13-01" = None.
Proof. reflexivity. Qed.

Example parse_refuses_words : ParseTime.parse_time "yesterday" = None.
Proof. reflexivity. Qed.

Example range_orders_endpoints :
  TR.of_datetimes (datetime_ymd 2018 4 21) (datetime_ymd 2018 4 20)
  = mkTimeRange (datetime_ymd 2018 4 20) (datetime_ymd 2018 4 21).
Proof. reflexivity. Qed.

Example format_version : Template.format_d 3 6 = "006".
Proof. reflexivity. Qed.

Example scan_refuses_other_level :
  EVEScanTimeSeries.is_datasource_for {[ "source" := VStr "eve_l3" ]}
  = inr RNone.
Proof. reflexivity. Qed.

Example scan_accepts_final_newline :
  EVEScanTimeSeries.is_datasource_for
    {[ "source" := VStr (SourceNames.with_newline "eve_l2b") ]}
  = inr (RMatch 7).
Proof. reflexivity. Qed.

Example spwx_takes_eve :
  EVESpWxTimeSeries.is_datasource_for {[ "source" := VStr "EVE" ]}
  = inr (RBool true).
Proof. reflexivity. Qed.

Example spwx_number_raises :
  EVESpWxTimeSeries.is_datasource_for {[ "source" := VInt 7 ]}
  = inl AttributeError.
Proof. reflexivity. Qed.

End Samples.

(** ** Order of timestamps *)

Module DTFacts.

Lemma lex_compare_refl (a : list Z) : DT.lex_compare a a = Eq.
Proof.
  induction a as [|x a IH]; simpl; [reflexivity|].
  rewrite Z.compare_refl. exact IH.
Qed.

Lemma lex_compare_eq (a b : list Z) : DT.lex_compare a b = Eq -> a = b.
Proof.
  revert b. induction a as [|x a IH]; intros [|y b]; simpl; try discriminate.
  - reflexivity.
  - destruct (x ?= y) eqn:E; try discriminate.
    apply Z.compare_eq in E. intros H. apply IH in H. congruence.
Qed.

Lemma lex_compare_antisym (a b : list Z) :
  DT.lex_compare b a = CompOpp (DT.lex_compare a b).
Proof.
  revert b. induction a as [|x a IH]; intros [|y b]; simpl; try reflexivity.
  rewrite (Z.compare_antisym x y).
  destruct (x ?= y); simpl; auto.
Qed.

Lemma lex_compare_lt_trans (a b c : list Z) :
  DT.lex_compare a b = Lt -> DT.lex_compare b c = Lt -> DT.lex_compare a c = Lt.
Proof.
  revert b c. induction a as [|x a IH]; intros [|y b] [|z c]; simpl;
    try discriminate; try reflexivity.
  destruct (x ?= y) eqn:Exy; try discriminate;
    destruct (y ?= z) eqn:Eyz; try discriminate.
  - apply Z.compare_eq in Exy, Eyz. subst. rewrite Z.compare_refl. apply IH.
  - apply Z.compare_eq in Exy. subst. rewrite Eyz. reflexivity.
  - apply Z.compare_eq in Eyz. subst. rewrite Exy. reflexivity.
  - intros _ _. rewrite Z.compare_lt_iff in Exy, Eyz.
    assert (H : (x ?= z) = Lt) by (rewrite Z.compare_lt_iff; lia).
    rewrite H. reflexivity.
Qed.

Lemma fields_inj (a b : datetime) : DT.fields a = DT.fields b -> a = b.
Proof. destruct a, b; unfold DT.fields; simpl. congruence. Qed.

Lemma compare_eq (a b : datetime) : DT.compare a b = Eq -> a = b.
Proof. intros H. apply fields_inj, lex_compare_eq, H. Qed.

Lemma leb_refl (a : datetime) : DT.leb a a = true.
Proof. unfold DT.leb, DT.compare. rewrite lex_compare_refl. reflexivity. Qed.

Lemma ltb_leb (a b : datetime) : DT.ltb a b = true -> DT.leb a b = true.
Proof. unfold DT.ltb, DT.leb. destruct (DT.compare a b); congruence. Qed.

Lemma ltb_negb_leb (a b : datetime) : DT.ltb a b = negb (DT.leb b a).
Proof.
  unfold DT.ltb, DT.leb, DT.compare.
  rewrite (lex_compare_antisym (DT.fields a) (DT.fields b)).
  destruct (DT.lex_compare (DT.fields a) (DT.fields b)); reflexivity.
Qed.

Lemma leb_cases (a b : datetime) :
  DT.leb a b = true -> DT.ltb a b = true \/ a = b.
Proof.
  unfold DT.leb, DT.ltb. destruct (DT.compare a b) eqn:E; intros H.
  - right. apply compare_eq, E.
  - left. reflexivity.
  - discriminate.
Qed.

Lemma ltb_trans (a b c : datetime) :
  DT.ltb a b = true -> DT.ltb b c = true -> DT.ltb a c = true.
Proof.
  unfold DT.ltb, DT.compare. intros H1 H2.
  destruct (DT.lex_compare (DT.fields a) (DT.fields b)) eqn:E1; try discriminate.
  destruct (DT.lex_compare (DT.fields b) (DT.fields c)) eqn:E2; try discriminate.
  rewrite (lex_compare_lt_trans _ _ _ E1 E2). reflexivity.
Qed.

Lemma leb_trans (a b c : datetime) :
  DT.leb a b = true -> DT.leb b c = true -> DT.leb a c = true.
Proof.
  intros H1 H2.
  destruct (leb_cases _ _ H1) as [L1| ->]; [|exact H2].
  destruct (leb_cases _ _ H2) as [L2| <-]; [|exact H1].
  apply ltb_leb. eapply ltb_trans; eassumption.
Qed.

Lemma leb_ltb_trans (a b c : datetime) :
  DT.leb a b = true -> DT.ltb b c = true -> DT.ltb a c = true.
Proof.
  intros H1 H2. destruct (leb_cases _ _ H1) as [L1| ->]; [|exact H2].
  eapply ltb_trans; eassumption.
Qed.

End DTFacts.

(** ** The set-based predicates collect the kinds that are satisfied *)

Module KindSetFacts.

Import KindSet.

Section Fold.

Variable hit : QueryTerm -> bool.

Lemma elem_of_fold (query : list QueryTerm) (s : gset string) (n : string) :
  n ∈ fold_left (kstep hit) query s <->
  n ∈ s \/ exists x, In x query /\ hit x = true /\ class_name x = n.
Proof.
  revert s. induction query as [|y query IH]; intros s; simpl.
  - split; [auto | intros [H|(x & [] & _)]; exact H].
  - rewrite IH. unfold kstep at 1. split.
    + intros [H|(x & Hx & Hh & Hn)].
      * destruct (hit y) eqn:E.
        -- apply elem_of_union in H as [H|H]; [|auto].
           apply elem_of_singleton in H. right. exists y. auto.
        -- auto.
      * right. exists x. auto.
    + intros [H|(x & [->|Hx] & Hh & Hn)].
      * left. destruct (hit y); [set_solver | exact H].
      * left. rewrite Hh. set_solver.
      * right. exists x. auto.
Qed.

Lemma elem_of_kinds (query : list QueryTerm) (n : string) :
  n ∈ kinds hit query <->
  exists x, In x query /\ hit x = true /\ class_name x = n.
Proof.
  unfold kinds. rewrite elem_of_fold. split; [|auto].
  intros [H|H]; [|exact H]. set_solver.
Qed.

End Fold.

(** A set of at most the three names has size 3 when it has all three. *)
Lemma size_three (X : gset string) (a b c : string) :
  a <> b -> a <> c -> b <> c ->
  X ⊆ {[ a; b; c ]} ->
  (Nat.eqb (size X) 3 = true <-> a ∈ X /\ b ∈ X /\ c ∈ X).
Proof.
  intros Hab Hac Hbc Hsub.
  assert (Hsz : size ({[ a; b; c ]} : gset string) = 3%nat).
  { rewrite !size_union, !size_singleton by set_solver. reflexivity. }
  rewrite Nat.eqb_eq. split.
  - intros H.
    assert (E : X = {[ a; b; c ]}).
    { apply set_subseteq_size_eq; [exact Hsub | lia]. }
    rewrite E. set_solver.
  - intros (Ha & Hb & Hc).
    assert (E : X = {[ a; b; c ]}) by set_solver.
    rewrite E. exact Hsz.
Qed.

Lemma size_two (X : gset string) (a b : string) :
  a <> b ->
  X ⊆ {[ a; b ]} ->
  (Nat.eqb (size X) 2 = true <-> a ∈ X /\ b ∈ X).
Proof.
  intros Hab Hsub.
  assert (Hsz : size ({[ a; b ]} : gset string) = 2%nat).
  { rewrite !size_union, !size_singleton by set_solver. reflexivity. }
  rewrite Nat.eqb_eq. split.
  - intros H.
    assert (E : X = {[ a; b ]}).
    { apply set_subseteq_size_eq; [exact Hsub | lia]. }
    rewrite E. set_solver.
  - intros (Ha & Hb).
    assert (E : X = {[ a; b ]}) by set_solver.
    rewrite E. exact Hsz.
Qed.

End KindSetFacts.

(** ** What each predicate computes *)

Module PredicateFacts.

Import KindSet KindSetFacts.

Lemma bool_iff (a b : bool) : (a = true <-> b = true) -> a = b.
Proof. destruct a, b; intuition congruence. Qed.

(** Membership of one name in the collected set, as a search of the query. *)
Lemma kinds_name (hit test : QueryTerm -> bool) (n : string)
    (query : list QueryTerm) :
  (forall x, test x = hit x && String.eqb (class_name x) n) ->
  (n ∈ kinds hit query <-> existsb test query = true).
Proof.
  intros Ht. rewrite elem_of_kinds, existsb_exists. split.
  - intros (x & Hx & Hh & Hn). exists x. split; [exact Hx|].
    rewrite Ht, Hh, Hn, String.eqb_refl. reflexivity.
  - intros (x & Hx & H). rewrite Ht in H.
    apply andb_true_iff in H as [Hh Hn]. apply String.eqb_eq in Hn.
    exists x. auto.
Qed.

Lemma kinds_within (hit : QueryTerm -> bool) (S : gset string)
    (query : list QueryTerm) :
  (forall x, hit x = true -> class_name x ∈ S) ->
  kinds hit query ⊆ S.
Proof.
  intros H n Hn. apply elem_of_kinds in Hn as (x & _ & Hh & <-). auto.
Qed.

Ltac by_term :=
  let x := fresh "x" in
  intros x; destruct x as [?|[?|?]|? ?|?|?|?]; simpl;
  rewrite ?andb_false_r, ?orb_false_r, ?andb_true_r; try reflexivity.

Ltac names_within :=
  let x := fresh "x" in
  intros x; destruct x as [?|[?|?]|? ?|?|?|?]; simpl;
  rewrite ?orb_false_r; intros; try discriminate; set_solver.

Ltac by_cases :=
  simpl; rewrite ?orb_false_r, ?andb_true_r;
  repeat match goal with
         | |- context [if ?b then _ else _] => destruct b eqn:?; simpl
         end;
  try reflexivity; try discriminate.

Lemma fold_ext_gen {A B : Type} (f g : A -> B -> A) (l : list B) (a : A) :
  (forall s x, f s x = g s x) -> fold_left f l a = fold_left g l a.
Proof.
  intros H. revert a. induction l as [|y q IH]; intros a; simpl;
    [reflexivity|]. rewrite H. apply IH.
Qed.

Lemma fold_ext {A : Type} (f g : A -> QueryTerm -> A) (query : list QueryTerm) (a : A) :
  (forall s x, f s x = g s x) -> fold_left f query a = fold_left g query a.
Proof.
  intros H. revert a. induction query as [|y q IH]; intros a; simpl;
    [reflexivity|]. rewrite H. apply IH.
Qed.

(** *** Level 2B *)

Lemma step_2b (s : gset string) (x : QueryTerm) :
  EVELevel2BClient.step s x = kstep Variant.hit_2b s x.
Proof.
  unfold EVELevel2BClient.step, kstep, Variant.hit_2b, DT.geb.
  destruct x as [v|[n|v]|t0 t1|v|v|v]; by_cases.
Qed.

Lemma can_handle_2b (query : list QueryTerm) :
  EVELevel2BClient._can_handle_query query = Variant.covers_2b query.
Proof.
  unfold EVELevel2BClient._can_handle_query, Variant.covers_2b.
  rewrite (fold_ext _ _ query ∅ step_2b). fold (kinds Variant.hit_2b query).
  apply bool_iff.
  rewrite (size_three _ "Instrument" "Level" "Time");
    [| discriminate | discriminate | discriminate
     | apply kinds_within; unfold Variant.hit_2b; names_within ].
  rewrite !andb_true_iff.
  rewrite (kinds_name _ Req.instrument_eve) by (unfold Variant.hit_2b; by_term).
  rewrite (kinds_name _ Req.level_2b) by (unfold Variant.hit_2b; by_term).
  rewrite (kinds_name _ (Req.time_end_from EVELevel2BClient.cutover))
    by (unfold Variant.hit_2b; by_term).
  tauto.
Qed.

(** *** Level 2 *)

Lemma step_2 (s : gset string) (x : QueryTerm) :
  EVELevel2Client.step s x = kstep Variant.hit_2 s x.
Proof.
  unfold EVELevel2Client.step, kstep, Variant.hit_2.
  destruct x as [v|[n|v]|t0 t1|v|v|v]; by_cases.
Qed.

Lemma can_handle_2 (query : list QueryTerm) :
  EVELevel2Client._can_handle_query query = Variant.covers_2 query.
Proof.
  unfold EVELevel2Client._can_handle_query, Variant.covers_2.
  rewrite (fold_ext _ _ query ∅ step_2). fold (kinds Variant.hit_2 query).
  apply bool_iff.
  rewrite (size_three _ "Instrument" "Level" "Time");
    [| discriminate | discriminate | discriminate
     | apply kinds_within; unfold Variant.hit_2; names_within ].
  rewrite !andb_true_iff.
  rewrite (kinds_name _ Req.instrument_eve) by (unfold Variant.hit_2; by_term).
  rewrite (kinds_name _ Req.level_2) by (unfold Variant.hit_2; by_term).
  rewrite (kinds_name _ (Req.time_start_before EVELevel2Client.cutover))
    by (unfold Variant.hit_2; by_term).
  tauto.
Qed.

(** *** Level 3 *)

Lemma step_3 (s : gset string) (x : QueryTerm) :
  EVELevel3Client.step s x = kstep Variant.hit_3 s x.
Proof.
  unfold EVELevel3Client.step, kstep, Variant.hit_3.
  destruct x as [v|[n|v]|t0 t1|v|v|v]; by_cases.
Qed.

Lemma can_handle_3 (query : list QueryTerm) :
  EVELevel3Client._can_handle_query query = Variant.covers_3 query.
Proof.
  unfold EVELevel3Client._can_handle_query, Variant.covers_3.
  rewrite (fold_ext _ _ query ∅ step_3). fold (kinds Variant.hit_3 query).
  apply bool_iff.
  rewrite (size_two _ "Instrument" "Level");
    [| discriminate | apply kinds_within; unfold Variant.hit_3; names_within ].
  rewrite !andb_true_iff.
  rewrite (kinds_name _ Req.instrument_eve) by (unfold Variant.hit_3; by_term).
  rewrite (kinds_name _ Req.level_3) by (unfold Variant.hit_3; by_term).
  tauto.
Qed.

(** *** Level 3 merged *)

Lemma step_3m (s : gset string) (x : QueryTerm) :
  EVELevel3MergedClient.step s x = kstep Variant.hit_3m s x.
Proof.
  unfold EVELevel3MergedClient.step, kstep, Variant.hit_3m.
  destruct x as [v|[n|v]|t0 t1|v|v|v]; by_cases.
Qed.

Lemma can_handle_3m (query : list QueryTerm) :
  EVELevel3MergedClient._can_handle_query query = Variant.covers_3m query.
Proof.
  unfold EVELevel3MergedClient._can_handle_query, Variant.covers_3m.
  rewrite (fold_ext _ _ query ∅ step_3m). fold (kinds Variant.hit_3m query).
  apply bool_iff.
  rewrite (size_two _ "Instrument" "Level");
    [| discriminate | apply kinds_within; unfold Variant.hit_3m; names_within ].
  rewrite !andb_true_iff.
  rewrite (kinds_name _ Req.instrument_eve) by (unfold Variant.hit_3m; by_term).
  rewrite (kinds_name _ Req.level_3m) by (unfold Variant.hit_3m; by_term).
  tauto.
Qed.

(** *** Level 0: the counter is the number of satisfying terms *)

Lemma step_0 (n : Z) (x : QueryTerm) :
  EVEClient.step n x = if Variant.hit_0 x then n + 1 else n.
Proof.
  unfold EVEClient.step, Variant.hit_0.
  destruct x as [v|[k|v]|t0 t1|v|v|v]; by_cases.
Qed.

Lemma counter_0 (query : list QueryTerm) (n : Z) :
  fold_left EVEClient.step query n = n + Z.of_nat (Variant.count_0 query).
Proof.
  unfold Variant.count_0. revert n.
  induction query as [|x q IH]; intros n; simpl; [lia|].
  rewrite IH, step_0. destruct (Variant.hit_0 x); simpl length; lia.
Qed.

Lemma can_handle_0 (query : list QueryTerm) :
  EVEClient._can_handle_query query = Nat.eqb (Variant.count_0 query) 2.
Proof.
  unfold EVEClient._can_handle_query. rewrite counter_0.
  destruct (Nat.eqb_spec (Variant.count_0 query) 2) as [E|E].
  - rewrite E. reflexivity.
  - destruct (Z.eqb_spec (0 + Z.of_nat (Variant.count_0 query)) 2); [lia|reflexivity].
Qed.

(** Searching a longer query finds at least as much. *)
Lemma existsb_app_l (f : QueryTerm -> bool) (query extra : list QueryTerm) :
  existsb f query = true -> existsb f (query ++ extra) = true.
Proof. intros H. rewrite existsb_app, H. reflexivity. Qed.

End PredicateFacts.

(** ** The requirements, spelled out on the terms of a query *)

Module ReqFacts.

Lemma has_instrument_eve (query : list QueryTerm) :
  existsb Req.instrument_eve query = true <->
  exists v, In (Instrument v) query /\ PyStr.lower v = "eve".
Proof.
  rewrite existsb_exists. split.
  - intros ([v| | | | |] & Hx & H); try discriminate.
    apply String.eqb_eq in H. eauto.
  - intros (v & Hx & H). exists (Instrument v). split; [exact Hx|].
    simpl. rewrite H. reflexivity.
Qed.

Lemma has_level_2b (query : list QueryTerm) :
  existsb Req.level_2b query = true <->
  exists s, In (Level (VStr s)) query /\ PyStr.lower s = "2b".
Proof.
  rewrite existsb_exists. split.
  - intros ([|[|s]| | | |] & Hx & H); try discriminate.
    apply String.eqb_eq in H. eauto.
  - intros (s & Hx & H). exists (Level (VStr s)). split; [exact Hx|].
    simpl. rewrite H. reflexivity.
Qed.

Lemma has_level_2 (query : list QueryTerm) :
  existsb Req.level_2 query = true <->
  exists lv, In (Level lv) query /\ (lv = VInt 2 \/ lv = VStr "2").
Proof.
  rewrite existsb_exists. split.
  - intros ([|[n|s]| | | |] & Hx & H); try discriminate; simpl in H.
    + apply Z.eqb_eq in H. subst. eauto.
    + apply String.eqb_eq in H. subst. eauto.
  - intros (lv & Hx & Hlv). exists (Level lv). split; [exact Hx|].
    destruct Hlv as [->| ->]; reflexivity.
Qed.

Lemma has_time_end_from (t : datetime) (query : list QueryTerm) :
  existsb (Req.time_end_from t) query = true <->
  exists t0 t1, In (Time t0 t1) query /\ DT.geb t1 t = true.
Proof.
  rewrite existsb_exists. split.
  - intros ([| |t0 t1| | |] & Hx & H); try discriminate. eauto.
  - intros (t0 & t1 & Hx & H). exists (Time t0 t1). auto.
Qed.

Lemma has_time_start_before (t : datetime) (query : list QueryTerm) :
  existsb (Req.time_start_before t) query = true <->
  exists t0 t1, In (Time t0 t1) query /\ DT.ltb t0 t = true.
Proof.
  rewrite existsb_exists. split.
  - intros ([| |t0 t1| | |] & Hx & H); try discriminate. eauto.
  - intros (t0 & t1 & Hx & H). exists (Time t0 t1). auto.
Qed.

End ReqFacts.

(** ** The predicates of the five clients *)

Module Predicates.

Import PredicateFacts ReqFacts.

(** C1.  The Level-2B predicate returns true exactly when the query holds
    an [Instrument] term whose value is "eve" in any case, a [Level] term
    whose value is a string equal to "2b" in any case, and a [Time] term
    whose end is on or after 2018-04-20.  The collection
    {Instrument("eve"), Level("2b"), Time(2018-04-20, 2018-04-20)} is
    accepted; with the [Level] term replaced by a second
    Instrument("eve") it is refused. *)
Theorem level2b_predicate :
  (forall query : list QueryTerm,
      EVELevel2BClient._can_handle_query query = true <->
      (exists v, In (Instrument v) query /\ PyStr.lower v = "eve") /\
      (exists s, In (Level (VStr s)) query /\ PyStr.lower s = "2b") /\
      (exists t0 t1, In (Time t0 t1) query /\
                     DT.geb t1 (datetime_ymd 2018 4 20) = true)) /\
  EVELevel2BClient._can_handle_query
    [Instrument "eve"; Level (VStr "2b");
     Time (datetime_ymd 2018 4 20) (datetime_ymd 2018 4 20)] = true /\
  EVELevel2BClient._can_handle_query
    [Instrument "eve"; Instrument "eve";
     Time (datetime_ymd 2018 4 20) (datetime_ymd 2018 4 20)] = false.
Proof.
  split; [|split].
  - intros query. rewrite can_handle_2b. unfold Variant.covers_2b.
    rewrite !andb_true_iff, has_instrument_eve, has_level_2b,
      has_time_end_from.
    unfold EVELevel2BClient.cutover. tauto.
  - rewrite can_handle_2b. reflexivity.
  - rewrite can_handle_2b. reflexivity.
Qed.

(** The direction of C1 that has premises, at the query of the test
    suite. *)
Lemma level2b_predicate_witness :
  EVELevel2BClient._can_handle_query
    [Time (datetime_ymd 2018 4 20) (datetime_ymd 2018 4 20);
     Instrument "EVE"; Level (VStr "2B")] = true.
Proof.
  apply (proj1 level2b_predicate). split; [|split].
  - exists "EVE". split; [simpl; auto | reflexivity].
  - exists "2B". split; [simpl; auto | reflexivity].
  - exists (datetime_ymd 2018 4 20), (datetime_ymd 2018 4 20).
    split; [simpl; auto | reflexivity].
Defined.

(** C2, as the code has it.  The level requirement of the Level-2
    predicate is met by Level(2) and by Level("2"); the predicate returns
    true exactly when the query holds Instrument "eve" (any case), such a
    [Level] term and a [Time] term whose START is strictly before
    2018-04-28; so a query none of whose [Time] terms starts before
    2018-04-28 is refused. *)
Theorem level2_predicate :
  (forall query : list QueryTerm,
      EVELevel2Client._can_handle_query query = true <->
      (exists v, In (Instrument v) query /\ PyStr.lower v = "eve") /\
      (exists lv, In (Level lv) query /\ (lv = VInt 2 \/ lv = VStr "2")) /\
      (exists t0 t1, In (Time t0 t1) query /\
                     DT.ltb t0 (datetime_ymd 2018 4 28) = true)) /\
  (forall query : list QueryTerm,
      (forall t0 t1, In (Time t0 t1) query ->
                     DT.leb (datetime_ymd 2018 4 28) t0 = true) ->
      EVELevel2Client._can_handle_query query = false) /\
  (forall (v : string) (t0 t1 : datetime),
      PyStr.lower v = "eve" ->
      DT.ltb t0 (datetime_ymd 2018 4 28) = true ->
      EVELevel2Client._can_handle_query
        [Instrument v; Level (VInt 2); Time t0 t1] = true /\
      EVELevel2Client._can_handle_query
        [Instrument v; Level (VStr "2"); Time t0 t1] = true).
Proof.
  assert (Hiff : forall query : list QueryTerm,
      EVELevel2Client._can_handle_query query = true <->
      (exists v, In (Instrument v) query /\ PyStr.lower v = "eve") /\
      (exists lv, In (Level lv) query /\ (lv = VInt 2 \/ lv = VStr "2")) /\
      (exists t0 t1, In (Time t0 t1) query /\
                     DT.ltb t0 (datetime_ymd 2018 4 28) = true)).
  { intros query. rewrite can_handle_2. unfold Variant.covers_2.
    rewrite !andb_true_iff, has_instrument_eve, has_level_2,
      has_time_start_before.
    unfold EVELevel2Client.cutover. tauto. }
  split; [exact Hiff|split].
  - intros query Hall.
    destruct (EVELevel2Client._can_handle_query query) eqn:E; [|reflexivity].
    apply Hiff in E as (_ & _ & t0 & t1 & Hin & Hlt).
    specialize (Hall t0 t1 Hin).
    rewrite DTFacts.ltb_negb_leb, Hall in Hlt. discriminate.
  - intros v t0 t1 Hv Hlt.
    split; apply Hiff;
      (split; [exists v; split; [simpl; auto | exact Hv] |]);
      (split; [| exists t0, t1; split; [simpl; auto | exact Hlt]]).
    + exists (VInt 2). split; [simpl; auto | auto].
    + exists (VStr "2"). split; [simpl; auto | auto].
Qed.

Lemma level2_predicate_witness :
  EVELevel2Client._can_handle_query
    [Time (mkDatetime 2018 5 1 14 0 0 0) (mkDatetime 2018 5 1 14 0 0 0);
     Instrument "eve"; Level (VInt 2)] = false.
Proof.
  apply (proj1 (proj2 level2_predicate)).
  intros t0 t1 [H|[H|[H|[]]]]; try discriminate.
  injection H as <- <-. reflexivity.
Defined.

(** C2 as stated fails: a query with Instrument("eve"), Level(2) and a
    [Time] term that ends after 2018-04-28 but starts before it is
    accepted. *)
Lemma level2_end_after_cutover_accepted :
  DT.ltb (datetime_ymd 2018 4 28) (datetime_ymd 2018 5 1) = true /\
  EVELevel2Client._can_handle_query
    [Instrument "eve"; Level (VInt 2);
     Time (datetime_ymd 2018 4 1) (datetime_ymd 2018 5 1)] = true.
Proof. split; [reflexivity|]. rewrite can_handle_2. reflexivity. Qed.

(** C3.  The Level-0 predicate returns true exactly when the number of
    terms that pass one of its two checks (Instrument "eve" in any case,
    Level equal to 0) is 2; two Instrument("eve") terms without any
    [Level] term are therefore accepted. *)
Theorem level0_counter :
  (forall query : list QueryTerm,
      EVEClient._can_handle_query query = true <->
      length (List.filter
                (fun x => Req.instrument_eve x || Req.level_0 x) query)
      = 2%nat) /\
  EVEClient._can_handle_query [Instrument "eve"; Instrument "eve"] = true.
Proof.
  split; [|reflexivity].
  intros query. rewrite can_handle_0, Nat.eqb_eq. reflexivity.
Qed.

Lemma level0_counter_witness :
  EVEClient._can_handle_query
    [Instrument "EVE"; Source "sdo"; Instrument "eve"] = true.
Proof. apply (proj1 level0_counter). reflexivity. Defined.

End Predicates.

(** ** Order, repetition and extra terms *)

Module CollectionFacts.

Lemma existsb_perm (f : QueryTerm -> bool) (q q' : list QueryTerm) :
  Permutation q q' -> existsb f q = existsb f q'.
Proof.
  induction 1 as [|x l l' _ IH|x y l|l l' l'' _ IH1 _ IH2]; simpl.
  - reflexivity.
  - rewrite IH. reflexivity.
  - destruct (f x), (f y); reflexivity.
  - rewrite IH1. exact IH2.
Qed.

Lemma count_perm (f : QueryTerm -> bool) (q q' : list QueryTerm) :
  Permutation q q' ->
  length (List.filter f q) = length (List.filter f q').
Proof.
  induction 1 as [|x l l' _ IH|x y l|l l' l'' _ IH1 _ IH2]; simpl.
  - reflexivity.
  - destruct (f x); simpl; rewrite IH; reflexivity.
  - destruct (f x), (f y); reflexivity.
  - rewrite IH1. exact IH2.
Qed.

(** A requirement met by exactly one term is met. *)
Lemma one_is_some (f : QueryTerm -> bool) (q : list QueryTerm) :
  length (List.filter f q) = 1%nat -> existsb f q = true.
Proof.
  induction q as [|x q IH]; simpl; [discriminate|].
  destruct (f x); simpl; [reflexivity | exact IH].
Qed.

(** Two checks that never hold of the same term are counted apart. *)
Lemma count_disjoint (f g : QueryTerm -> bool) (q : list QueryTerm) :
  (forall x, f x && g x = false) ->
  length (List.filter (fun x => f x || g x) q)
  = (length (List.filter f q) + length (List.filter g q))%nat.
Proof.
  intros Hd. induction q as [|x q IH]; simpl; [reflexivity|].
  specialize (Hd x). destruct (f x), (g x); simpl in *;
    try discriminate; rewrite IH; lia.
Qed.

Lemma exactly_two (f g : QueryTerm -> bool) (q : list QueryTerm) :
  Exact.exactly [f; g] q = true ->
  length (List.filter f q) = 1%nat /\ length (List.filter g q) = 1%nat.
Proof.
  unfold Exact.exactly. simpl. rewrite !andb_true_iff, !Nat.eqb_eq. tauto.
Qed.

Lemma exactly_three (f g h : QueryTerm -> bool) (q : list QueryTerm) :
  Exact.exactly [f; g; h] q = true ->
  length (List.filter f q) = 1%nat /\ length (List.filter g q) = 1%nat
  /\ length (List.filter h q) = 1%nat.
Proof.
  unfold Exact.exactly. simpl. rewrite !andb_true_iff, !Nat.eqb_eq. tauto.
Qed.

End CollectionFacts.

Module Contract.

Import PredicateFacts CollectionFacts.

(** C4, as the code has it.  For every variant and every collection of
    query terms, in any order: a set-based predicate (Level-2B, Level-2,
    Level-3, Level-3-Merged) returns true exactly when each of its
    required kinds has at least one satisfying term in the collection,
    and the Level-0 predicate exactly when two terms pass one of its two
    checks.  A collection that holds exactly the required terms is
    accepted by its variant, and for Level-3 and Level-3-Merged so is
    every collection that extends an accepted one with further terms. *)
Theorem predicates_cover_requirements (query : list QueryTerm) :
  (EVEClient._can_handle_query query
   = Nat.eqb (length (List.filter
                        (fun x => Req.instrument_eve x || Req.level_0 x)
                        query)) 2
   /\ EVELevel2BClient._can_handle_query query
      = existsb Req.instrument_eve query && existsb Req.level_2b query
        && existsb (Req.time_end_from (datetime_ymd 2018 4 20)) query
   /\ EVELevel2Client._can_handle_query query
      = existsb Req.instrument_eve query && existsb Req.level_2 query
        && existsb (Req.time_start_before (datetime_ymd 2018 4 28)) query
   /\ EVELevel3Client._can_handle_query query
      = existsb Req.instrument_eve query && existsb Req.level_3 query
   /\ EVELevel3MergedClient._can_handle_query query
      = existsb Req.instrument_eve query && existsb Req.level_3m query)
  /\ (forall query' : list QueryTerm,
         Permutation query query' ->
         EVEClient._can_handle_query query
         = EVEClient._can_handle_query query'
         /\ EVELevel2BClient._can_handle_query query
            = EVELevel2BClient._can_handle_query query'
         /\ EVELevel2Client._can_handle_query query
            = EVELevel2Client._can_handle_query query'
         /\ EVELevel3Client._can_handle_query query
            = EVELevel3Client._can_handle_query query'
         /\ EVELevel3MergedClient._can_handle_query query
            = EVELevel3MergedClient._can_handle_query query')
  /\ ((Exact.exactly Exact.reqs_0 query = true ->
       EVEClient._can_handle_query query = true)
      /\ (Exact.exactly Exact.reqs_2b query = true ->
          EVELevel2BClient._can_handle_query query = true)
      /\ (Exact.exactly Exact.reqs_2 query = true ->
          EVELevel2Client._can_handle_query query = true)
      /\ (Exact.exactly Exact.reqs_3 query = true ->
          EVELevel3Client._can_handle_query query = true)
      /\ (Exact.exactly Exact.reqs_3m query = true ->
          EVELevel3MergedClient._can_handle_query query = true))
  /\ (forall extra : list QueryTerm,
         (EVELevel3Client._can_handle_query query = true ->
          EVELevel3Client._can_handle_query (query ++ extra) = true)
         /\ (EVELevel3MergedClient._can_handle_query query = true ->
             EVELevel3MergedClient._can_handle_query (query ++ extra) = true)).
Proof.
  split; [|split; [|split]].
  - rewrite can_handle_0, can_handle_2b, can_handle_2, can_handle_3,
      can_handle_3m.
    repeat split; reflexivity.
  - intros query' Hp.
    rewrite !can_handle_0, !can_handle_2b, !can_handle_2, !can_handle_3,
      !can_handle_3m.
    unfold Variant.count_0, Variant.covers_2b, Variant.covers_2,
      Variant.covers_3, Variant.covers_3m.
    rewrite (count_perm _ _ _ Hp).
    rewrite !(existsb_perm _ _ _ Hp).
    repeat split; reflexivity.
  - rewrite can_handle_0, can_handle_2b, can_handle_2, can_handle_3,
      can_handle_3m.
    unfold Exact.reqs_0, Exact.reqs_2b, Exact.reqs_2, Exact.reqs_3,
      Exact.reqs_3m.
    repeat split; intros H.
    + apply exactly_two in H as [H1 H2].
      unfold Variant.count_0, Variant.hit_0.
      rewrite count_disjoint, H1, H2; [reflexivity|].
      intros [?|[?|?]|? ?|?|?|?]; simpl; rewrite ?andb_false_r; reflexivity.
    + apply exactly_three in H as (H1 & H2 & H3). unfold Variant.covers_2b.
      rewrite !one_is_some by assumption. reflexivity.
    + apply exactly_three in H as (H1 & H2 & H3). unfold Variant.covers_2.
      rewrite !one_is_some by assumption. reflexivity.
    + apply exactly_two in H as [H1 H2]. unfold Variant.covers_3.
      rewrite !one_is_some by assumption. reflexivity.
    + apply exactly_two in H as [H1 H2]. unfold Variant.covers_3m.
      rewrite !one_is_some by assumption. reflexivity.
  - intros extra. rewrite !can_handle_3, !can_handle_3m.
    unfold Variant.covers_3, Variant.covers_3m.
    rewrite !andb_true_iff. split; intros [H1 H2];
      split; apply existsb_app_l; assumption.
Qed.

(** The query of the test suite for Level 3, which holds a [Time] term
    besides the two required ones, and the required terms on their own. *)
Lemma predicates_cover_requirements_witness :
  EVELevel3Client._can_handle_query
    ([Instrument "eve"; Level (VStr "3")]
     ++ [Time (datetime_ymd 2018 4 20) (datetime_ymd 2018 4 20)]) = true
  /\ EVELevel3Client._can_handle_query
       [Level (VStr "3"); Instrument "eve"] = true.
Proof.
  assert (E : Exact.exactly Exact.reqs_3 [Instrument "eve"; Level (VStr "3")]
              = true) by reflexivity.
  pose proof (predicates_cover_requirements
                [Instrument "eve"; Level (VStr "3")])
    as (_ & Hperm & (_ & _ & _ & H3 & _) & Hext).
  split.
  - apply (proj1 (Hext _)). exact (H3 E).
  - destruct (Hperm [Level (VStr "3"); Instrument "eve"]) as (_ & _ & _ & Hp & _).
    + apply perm_swap.
    + rewrite <- Hp. exact (H3 E).
Defined.

(** C4 as stated fails: the Level-3 predicate accepts the collection
    {Time, Instrument("eve"), Level("3")}, which holds a term beyond the
    required ones. *)
Lemma level3_accepts_extra_term :
  EVELevel3Client._can_handle_query
    [Time (datetime_ymd 2018 4 20) (datetime_ymd 2018 4 20);
     Instrument "eve"; Level (VStr "3")] = true
  /\ Exact.exactly Exact.reqs_3
       [Time (datetime_ymd 2018 4 20) (datetime_ymd 2018 4 20);
        Instrument "eve"; Level (VStr "3")] = false.
Proof. split; [rewrite can_handle_3|]; reflexivity. Qed.

(** C5.  For every window that starts on or after 2018-04-20 and ends on
    or before 2018-04-27, the Level-2 predicate, with Level(2) or
    Level("2"), and the Level-2B predicate, with Level("2b"), both accept
    the query made of Instrument("eve"), the [Level] term and the [Time]
    term of that window. *)
Theorem level2_level2b_overlap (t0 t1 : datetime) :
  DT.leb (datetime_ymd 2018 4 20) t0 = true ->
  DT.leb t0 t1 = true ->
  DT.ltb t1 (datetime_ymd 2018 4 28) = true ->
  EVELevel2Client._can_handle_query
    [Instrument "eve"; Level (VInt 2); Time t0 t1] = true
  /\ EVELevel2Client._can_handle_query
       [Instrument "eve"; Level (VStr "2"); Time t0 t1] = true
  /\ EVELevel2BClient._can_handle_query
       [Instrument "eve"; Level (VStr "2b"); Time t0 t1] = true.
Proof.
  intros Hfrom Hwin Hto.
  assert (Hs : DT.ltb t0 EVELevel2Client.cutover = true)
    by (eapply DTFacts.leb_ltb_trans; eassumption).
  assert (He : DT.leb EVELevel2BClient.cutover t1 = true)
    by (eapply DTFacts.leb_trans; eassumption).
  rewrite !can_handle_2, can_handle_2b.
  unfold Variant.covers_2, Variant.covers_2b. simpl.
  rewrite Hs, He. repeat split; reflexivity.
Qed.

Lemma level2_level2b_overlap_witness :
  EVELevel2Client._can_handle_query
    [Instrument "eve"; Level (VInt 2);
     Time (mkDatetime 2018 4 20 0 0 0 0) (mkDatetime 2018 4 27 23 59 59 999999)]
  = true
  /\ EVELevel2Client._can_handle_query
       [Instrument "eve"; Level (VStr "2");
        Time (mkDatetime 2018 4 20 0 0 0 0) (mkDatetime 2018 4 27 23 59 59 999999)]
     = true
  /\ EVELevel2BClient._can_handle_query
       [Instrument "eve"; Level (VStr "2b");
        Time (mkDatetime 2018 4 20 0 0 0 0) (mkDatetime 2018 4 27 23 59 59 999999)]
     = true.
Proof. apply level2_level2b_overlap; reflexivity. Defined.

(** C9.  The four set-based predicates are monotone: a query they accept
    is still accepted after any further term is appended.  The
    counter-based Level-0 predicate is not: it accepts
    {Instrument("eve"), Level(0)} and refuses it once a second
    Instrument("eve") is appended. *)
Theorem set_predicates_monotone (query : list QueryTerm) (x : QueryTerm) :
  (EVELevel2BClient._can_handle_query query = true ->
   EVELevel2BClient._can_handle_query (query ++ [x]) = true)
  /\ (EVELevel2Client._can_handle_query query = true ->
      EVELevel2Client._can_handle_query (query ++ [x]) = true)
  /\ (EVELevel3Client._can_handle_query query = true ->
      EVELevel3Client._can_handle_query (query ++ [x]) = true)
  /\ (EVELevel3MergedClient._can_handle_query query = true ->
      EVELevel3MergedClient._can_handle_query (query ++ [x]) = true)
  /\ EVEClient._can_handle_query [Instrument "eve"; Level (VInt 0)] = true
  /\ fold_left EVEClient.step
       ([Instrument "eve"; Level (VInt 0)] ++ [Instrument "eve"]) 0 = 3
  /\ EVEClient._can_handle_query
       ([Instrument "eve"; Level (VInt 0)] ++ [Instrument "eve"]) = false.
Proof.
  rewrite !can_handle_2b, !can_handle_2, !can_handle_3, !can_handle_3m.
  unfold Variant.covers_2b, Variant.covers_2, Variant.covers_3,
    Variant.covers_3m.
  rewrite !andb_true_iff.
  split; [|split; [|split; [|split; [|repeat split; reflexivity]]]].
  - intros [[H1 H2] H3]. repeat split; apply existsb_app_l; assumption.
  - intros [[H1 H2] H3]. repeat split; apply existsb_app_l; assumption.
  - intros [H1 H2]. split; apply existsb_app_l; assumption.
  - intros [H1 H2]. split; apply existsb_app_l; assumption.
Qed.

Lemma set_predicates_monotone_witness :
  EVELevel2BClient._can_handle_query
    ([Time (datetime_ymd 2018 4 20) (datetime_ymd 2018 4 20);
      Instrument "eve"; Level (VStr "2b")] ++ [Instrument "eve"]) = true.
Proof.
  apply (proj1 (set_predicates_monotone _ _)).
  rewrite can_handle_2b. reflexivity.
Defined.

End Contract.

(** ** Formatting a timestamp and reading it back *)

Module RoundTrip.

Import Strftime ParseTime.

Lemma digit_round_trip (d : Z) :
  0 <= d <= 9 -> digit_val (digit_char d) = Some d.
Proof.
  intros H.
  assert (E : d = 0 \/ d = 1 \/ d = 2 \/ d = 3 \/ d = 4 \/ d = 5 \/ d = 6
              \/ d = 7 \/ d = 8 \/ d = 9) by lia.
  repeat destruct E as [E|E]; subst d; reflexivity.
Qed.

Lemma number_pad2 (n : Z) : 0 <= n <= 99 -> number (pad2 n) = Some n.
Proof.
  intros H. unfold number, pad2. cbn [number_from].
  rewrite !digit_round_trip by (Z.div_mod_to_equations; lia).
  f_equal. Z.div_mod_to_equations. lia.
Qed.

Lemma year_text_four (n : Z) :
  1000 <= n ->
  year_text n
  = [digit_char (n / 1000 mod 10); digit_char (n / 100 mod 10);
     digit_char (n / 10 mod 10); digit_char (n mod 10)].
Proof.
  intros H. unfold year_text.
  destruct (Z.ltb_spec n 10); [lia|].
  destruct (Z.ltb_spec n 100); [lia|].
  destruct (Z.ltb_spec n 1000); [lia|]. reflexivity.
Qed.

Lemma number_year_text (n : Z) :
  1000 <= n <= 9999 -> number (year_text n) = Some n.
Proof.
  intros H. rewrite year_text_four by lia. unfold number.
  cbn [number_from].
  rewrite !digit_round_trip by (Z.div_mod_to_equations; lia).
  f_equal. Z.div_mod_to_equations. lia.
Qed.

(** The bounds that make up [DT.valid]. *)
Lemma valid_bounds (t : datetime) :
  DT.valid t = true ->
  1 <= year t <= 9999 /\ 1 <= month t <= 12
  /\ 1 <= day t <= DT.days_in_month (year t) (month t)
  /\ 0 <= hour t < 24 /\ 0 <= minute t < 60 /\ 0 <= second t < 60
  /\ 0 <= microsecond t < 1000000.
Proof.
  unfold DT.valid. rewrite !andb_true_iff, !Z.leb_le, !Z.ltb_lt. tauto.
Qed.

Lemma days_in_month_le (y m : Z) : DT.days_in_month y m <= 31.
Proof.
  unfold DT.days_in_month.
  destruct (m =? 2); [destruct (DT.is_leap y); lia|].
  destruct ((m =? 4) || (m =? 6) || (m =? 9) || (m =? 11)); lia.
Qed.

Lemma valid_floor_hour (t : datetime) :
  DT.valid t = true -> DT.valid (Granularity.floor_hour t) = true.
Proof.
  intros H. apply valid_bounds in H.
  unfold DT.valid, Granularity.floor_hour. simpl.
  rewrite !andb_true_iff, !Z.leb_le, !Z.ltb_lt. lia.
Qed.

Lemma valid_floor_day (t : datetime) :
  DT.valid t = true -> DT.valid (Granularity.floor_day t) = true.
Proof.
  intros H. apply valid_bounds in H.
  unfold DT.valid, Granularity.floor_day. simpl.
  rewrite !andb_true_iff, !Z.leb_le, !Z.ltb_lt. lia.
Qed.

Lemma parse_Y_m_d_cells (t : datetime) :
  1000 <= year t ->
  parse_time (format_Y_m_d t)
  = build (year_text (year t)) (pad2 (month t)) (pad2 (day t)) [] [].
Proof.
  intros Hy. unfold parse_time, format_Y_m_d.
  rewrite list_ascii_of_string_of_list_ascii, year_text_four by exact Hy.
  reflexivity.
Qed.

Lemma parse_Y_m_d_H00_cells (t : datetime) :
  1000 <= year t ->
  parse_time (format_Y_m_d_H00 t)
  = build (year_text (year t)) (pad2 (month t)) (pad2 (day t)) (pad2 (hour t))
          ["0"%char; "0"%char].
Proof.
  intros Hy. unfold parse_time, format_Y_m_d_H00.
  rewrite list_ascii_of_string_of_list_ascii, year_text_four by exact Hy.
  reflexivity.
Qed.

(** From the year 1000 on, ['{:%Y-%m-%d}'.format(t)] is read back as
    midnight of the day of [t]. *)
Lemma parse_format_Y_m_d (t : datetime) :
  DT.valid t = true ->
  1000 <= year t ->
  parse_time (format_Y_m_d t) = Some (Granularity.floor_day t).
Proof.
  intros Hv Hy. pose proof (valid_floor_day t Hv) as Hf.
  pose proof (days_in_month_le (year t) (month t)) as Hd.
  apply valid_bounds in Hv.
  rewrite parse_Y_m_d_cells by exact Hy. unfold build.
  rewrite number_year_text, !number_pad2 by lia. simpl.
  fold (Granularity.floor_day t). rewrite Hf. reflexivity.
Qed.

(** From the year 1000 on, ['{:%Y-%m-%d %H:00}'.format(t)] is read back
    as the top of the hour of [t]. *)
Lemma parse_format_Y_m_d_H00 (t : datetime) :
  DT.valid t = true ->
  1000 <= year t ->
  parse_time (format_Y_m_d_H00 t) = Some (Granularity.floor_hour t).
Proof.
  intros Hv Hy. pose proof (valid_floor_hour t Hv) as Hf.
  pose proof (days_in_month_le (year t) (month t)) as Hd.
  apply valid_bounds in Hv.
  rewrite parse_Y_m_d_H00_cells by exact Hy. unfold build.
  change (number ["0"%char; "0"%char]) with (Some 0).
  rewrite number_year_text, !number_pad2 by lia. simpl.
  fold (Granularity.floor_hour t). rewrite Hf. reflexivity.
Qed.

(** Before the year 1000 the text of the year is too short to be a
    timestamp, and it is refused. *)
Lemma parse_format_Y_m_d_short (t : datetime) :
  year t < 1000 -> parse_time (format_Y_m_d t) = None.
Proof.
  intros Hy. unfold parse_time, format_Y_m_d, year_text.
  rewrite list_ascii_of_string_of_list_ascii.
  destruct (year t <? 10); [reflexivity|].
  destruct (year t <? 100); [reflexivity|].
  destruct (Z.ltb_spec (year t) 1000); [reflexivity|lia].
Qed.

Lemma parse_format_Y_m_d_H00_short (t : datetime) :
  year t < 1000 -> parse_time (format_Y_m_d_H00 t) = None.
Proof.
  intros Hy. unfold parse_time, format_Y_m_d_H00, year_text.
  rewrite list_ascii_of_string_of_list_ascii.
  destruct (year t <? 10); [reflexivity|].
  destruct (year t <? 100); [reflexivity|].
  destruct (Z.ltb_spec (year t) 1000); [reflexivity|lia].
Qed.

End RoundTrip.

(** ** Rounding the start of a range down *)

Module NormalizerFacts.

Import Granularity.

Lemma floor_hour_le (t : datetime) :
  DT.valid t = true -> DT.leb (floor_hour t) t = true.
Proof.
  intros H. apply RoundTrip.valid_bounds in H.
  destruct t as [y m d h mi s us]. simpl in H.
  unfold DT.leb, DT.compare, floor_hour, DT.fields. simpl.
  rewrite !Z.compare_refl.
  destruct mi as [|?|?], s as [|?|?], us as [|?|?]; try reflexivity; lia.
Qed.

Lemma floor_day_le (t : datetime) :
  DT.valid t = true -> DT.leb (floor_day t) t = true.
Proof.
  intros H. apply RoundTrip.valid_bounds in H.
  destruct t as [y m d h mi s us]. simpl in H.
  unfold DT.leb, DT.compare, floor_day, DT.fields. simpl.
  rewrite !Z.compare_refl.
  destruct h as [|?|?], mi as [|?|?], s as [|?|?], us as [|?|?];
    try reflexivity; lia.
Qed.

(** A start on the boundary already is its own floor. *)
Lemma on_day_boundary (t : datetime) :
  time_ne t 0 0 = false -> floor_day t = t.
Proof.
  unfold time_ne, floor_day. destruct t as [y m d h mi s us]. simpl.
  rewrite negb_false_iff, !andb_true_iff, !Z.eqb_eq.
  intros [[[-> ->] ->] ->]. reflexivity.
Qed.

Lemma on_hour_boundary (t : datetime) :
  time_ne t (hour t) 0 = false -> floor_hour t = t.
Proof.
  unfold time_ne, floor_hour. destruct t as [y m d h mi s us]. simpl.
  rewrite negb_false_iff, !andb_true_iff, !Z.eqb_eq.
  intros [[[_ ->] ->] ->]. reflexivity.
Qed.

(** Endpoints given in order are kept in place. *)
Lemma of_datetimes_ordered (x y : datetime) :
  DT.leb x y = true -> TR.of_datetimes x y = mkTimeRange x y.
Proof.
  intros H. unfold TR.of_datetimes.
  destruct (DTFacts.leb_cases _ _ H) as [L| ->].
  - rewrite L. reflexivity.
  - destruct (DT.ltb y y); reflexivity.
Qed.

Lemma valid_range (r : TimeRange) :
  TR.valid r = true ->
  DT.valid (start r) = true /\ DT.valid (end_ r) = true
  /\ DT.leb (start r) (end_ r) = true.
Proof. unfold TR.valid. rewrite !andb_true_iff. tauto. Qed.

(** The statement the three daily clients share: what it gives for a
    start that is on the boundary or in the year 1000 or later. *)
Lemma daily (r : TimeRange) :
  TR.valid r = true ->
  time_ne (start r) 0 0 = false \/ 1000 <= year (start r) ->
  (if time_ne (start r) 0 0
   then TR.of_str (Strftime.format_Y_m_d (start r)) (end_ r)
   else Some r)
  = Some (mkTimeRange (floor_day (start r)) (end_ r)).
Proof.
  intros H Hy. apply valid_range in H as (Hs & He & Hle).
  destruct (time_ne (start r) 0 0) eqn:E.
  - destruct Hy as [Hy|Hy]; [discriminate|].
    unfold TR.of_str.
    rewrite RoundTrip.parse_format_Y_m_d by assumption. simpl.
    rewrite of_datetimes_ordered; [reflexivity|].
    eapply DTFacts.leb_trans; [apply floor_day_le, Hs | exact Hle].
  - rewrite (on_day_boundary _ E). destruct r; reflexivity.
Qed.

Lemma hourly (r : TimeRange) :
  TR.valid r = true ->
  time_ne (start r) (hour (start r)) 0 = false \/ 1000 <= year (start r) ->
  (if time_ne (start r) (hour (start r)) 0
   then TR.of_str (Strftime.format_Y_m_d_H00 (start r)) (end_ r)
   else Some r)
  = Some (mkTimeRange (floor_hour (start r)) (end_ r)).
Proof.
  intros H Hy. apply valid_range in H as (Hs & He & Hle).
  destruct (time_ne (start r) (hour (start r)) 0) eqn:E.
  - destruct Hy as [Hy|Hy]; [discriminate|].
    unfold TR.of_str.
    rewrite RoundTrip.parse_format_Y_m_d_H00 by assumption.
    simpl. rewrite of_datetimes_ordered; [reflexivity|].
    eapply DTFacts.leb_trans; [apply floor_hour_le, Hs | exact Hle].
  - rewrite (on_hour_boundary _ E). destruct r; reflexivity.
Qed.

(** Off the boundary and before the year 1000 the text of the start is
    refused, and the statement raises. *)
Lemma daily_raises (r : TimeRange) :
  time_ne (start r) 0 0 = true ->
  year (start r) < 1000 ->
  (if time_ne (start r) 0 0
   then TR.of_str (Strftime.format_Y_m_d (start r)) (end_ r)
   else Some r)
  = None.
Proof.
  intros E Hy. rewrite E. unfold TR.of_str.
  rewrite RoundTrip.parse_format_Y_m_d_short by exact Hy. reflexivity.
Qed.

Lemma hourly_raises (r : TimeRange) :
  time_ne (start r) (hour (start r)) 0 = true ->
  year (start r) < 1000 ->
  (if time_ne (start r) (hour (start r)) 0
   then TR.of_str (Strftime.format_Y_m_d_H00 (start r)) (end_ r)
   else Some r)
  = None.
Proof.
  intros E Hy. rewrite E. unfold TR.of_str.
  rewrite RoundTrip.parse_format_Y_m_d_H00_short by exact Hy. reflexivity.
Qed.

(** Whenever the statement does give a range, it is the rounded one. *)
Lemma daily_some (r r' : TimeRange) :
  TR.valid r = true ->
  (if time_ne (start r) 0 0
   then TR.of_str (Strftime.format_Y_m_d (start r)) (end_ r)
   else Some r)
  = Some r' ->
  r' = mkTimeRange (floor_day (start r)) (end_ r).
Proof.
  intros Hv H.
  destruct (time_ne (start r) 0 0) eqn:E;
    [destruct (Z.lt_ge_cases (year (start r)) 1000) as [Hy|Hy]|].
  - pose proof (daily_raises r E Hy) as Hn. rewrite E in Hn. congruence.
  - pose proof (daily r Hv (or_intror Hy)) as Hd. rewrite E in Hd. congruence.
  - pose proof (daily r Hv (or_introl E)) as Hd. rewrite E in Hd. congruence.
Qed.

Lemma hourly_some (r r' : TimeRange) :
  TR.valid r = true ->
  (if time_ne (start r) (hour (start r)) 0
   then TR.of_str (Strftime.format_Y_m_d_H00 (start r)) (end_ r)
   else Some r)
  = Some r' ->
  r' = mkTimeRange (floor_hour (start r)) (end_ r).
Proof.
  intros Hv H.
  destruct (time_ne (start r) (hour (start r)) 0) eqn:E;
    [destruct (Z.lt_ge_cases (year (start r)) 1000) as [Hy|Hy]|].
  - pose proof (hourly_raises r E Hy) as Hn. rewrite E in Hn. congruence.
  - pose proof (hourly r Hv (or_intror Hy)) as Hd. rewrite E in Hd. congruence.
  - pose proof (hourly r Hv (or_introl E)) as Hd. rewrite E in Hd. congruence.
Qed.

End NormalizerFacts.

(** ** Normalisation, enumeration and construction *)

Module Discovery.

Import Granularity NormalizerFacts.

(** C6.  The normalisation inside [_get_url_for_timerange], for a valid
    [TimeRange].  The daily clients (Level-0, Level-2B, Level-3) write the
    start as ['%Y-%m-%d'] and the hourly Level-2 client as
    ['%Y-%m-%d %H:00'], and build a new range from that text and the old
    end.
    - When the start is on the boundary already, or its year is 1000 or
      later, the end is kept and the start rounded down: the scraper is
      handed the range that starts at midnight of the start's day (daily)
      or at the top of the start's hour (hourly).
    - When the start is off the boundary and its year is below 1000, the
      text of the start has a year of fewer than four digits, [TimeRange]
      refuses it, and [_get_url_for_timerange] raises instead of rounding:
      the scraper is not reached.
    The rounded start is never after the old one. *)
Theorem normalization_rounds_or_raises {C : Collaborators} (self : Client)
    (timerange : TimeRange) :
  TR.valid timerange = true ->
  (time_ne (start timerange) 0 0 = false \/ 1000 <= year (start timerange) ->
   (EVEClient.normalized timerange
    = Some (mkTimeRange (floor_day (start timerange)) (end_ timerange))
    /\ EVELevel2BClient.normalized timerange
       = Some (mkTimeRange (floor_day (start timerange)) (end_ timerange))
    /\ EVELevel3Client.normalized timerange
       = Some (mkTimeRange (floor_day (start timerange)) (end_ timerange)))
   /\ EVEClient._get_url_for_timerange timerange
      = Some (filelist (Scraper_new EVEClient.BASEURL)
                (mkTimeRange (floor_day (start timerange)) (end_ timerange)))
   /\ EVELevel2BClient._get_url_for_timerange self timerange
      = Some (filelist (_scrapper self)
                (mkTimeRange (floor_day (start timerange)) (end_ timerange)))
   /\ EVELevel3Client._get_url_for_timerange self timerange
      = Some (filelist (_scrapper self)
                (mkTimeRange (floor_day (start timerange)) (end_ timerange))))
  /\ (time_ne (start timerange) (hour (start timerange)) 0 = false
      \/ 1000 <= year (start timerange) ->
      EVELevel2Client.normalized timerange
      = Some (mkTimeRange (floor_hour (start timerange)) (end_ timerange))
      /\ EVELevel2Client._get_url_for_timerange self timerange
         = Some (filelist (_scrapper self)
                   (mkTimeRange (floor_hour (start timerange)) (end_ timerange))))
  /\ (time_ne (start timerange) 0 0 = true ->
      year (start timerange) < 1000 ->
      (EVEClient.normalized timerange = None
       /\ EVELevel2BClient.normalized timerange = None
       /\ EVELevel3Client.normalized timerange = None)
      /\ EVEClient._get_url_for_timerange timerange = None
      /\ EVELevel2BClient._get_url_for_timerange self timerange = None
      /\ EVELevel3Client._get_url_for_timerange self timerange = None)
  /\ (time_ne (start timerange) (hour (start timerange)) 0 = true ->
      year (start timerange) < 1000 ->
      EVELevel2Client.normalized timerange = None
      /\ EVELevel2Client._get_url_for_timerange self timerange = None)
  /\ DT.leb (floor_day (start timerange)) (start timerange) = true
  /\ DT.leb (floor_hour (start timerange)) (start timerange) = true.
Proof.
  intros Hv.
  pose proof (daily timerange Hv) as Hd.
  pose proof (hourly timerange Hv) as Hh.
  pose proof (daily_raises timerange) as Nd.
  pose proof (hourly_raises timerange) as Nh.
  apply valid_range in Hv as (Hs & _ & _).
  unfold EVEClient._get_url_for_timerange,
    EVELevel2BClient._get_url_for_timerange,
    EVELevel3Client._get_url_for_timerange,
    EVELevel2Client._get_url_for_timerange,
    EVEClient.normalized, EVELevel2BClient.normalized,
    EVELevel3Client.normalized, EVELevel2Client.normalized.
  split; [|split; [|split; [|split; [|split]]]].
  - intros Hy. rewrite (Hd Hy). repeat split; reflexivity.
  - intros Hy. rewrite (Hh Hy). repeat split; reflexivity.
  - intros E Hy. rewrite (Nd E Hy). repeat split; reflexivity.
  - intros E Hy. rewrite (Nh E Hy). repeat split; reflexivity.
  - apply floor_day_le, Hs.
  - apply floor_hour_le, Hs.
Qed.

(** A request from 05:30 on 1 January 999 to midnight of the next day is
    a valid range, and all four clients raise on it; a request from
    14:30:15 to 16:00 on 2018-01-01 is rounded to 00:00 by the daily
    clients and to 14:00 by the hourly client. *)
Lemma normalization_rounds_or_raises_witness :
  TR.valid (mkTimeRange (mkDatetime 999 1 1 5 30 0 0) (mkDatetime 999 1 2 0 0 0 0))
  = true
  /\ Strftime.format_Y_m_d (mkDatetime 999 1 1 5 30 0 0) = "999-01-01"
  /\ Strftime.format_Y_m_d_H00 (mkDatetime 999 1 1 5 30 0 0) = "999-01-01 05:00"
  /\ EVEClient._get_url_for_timerange
       (C := {| Scraper_new := SpecScraper.perpetual;
                GenericClient_init := fun _ _ => inr ∅ |})
       (mkTimeRange (mkDatetime 999 1 1 5 30 0 0) (mkDatetime 999 1 2 0 0 0 0))
     = None
  /\ EVELevel2BClient._get_url_for_timerange
       {| map_ := ∅; _scrapper := SpecScraper.perpetual "" |}
       (mkTimeRange (mkDatetime 999 1 1 5 30 0 0) (mkDatetime 999 1 2 0 0 0 0))
     = None
  /\ EVELevel3Client._get_url_for_timerange
       {| map_ := ∅; _scrapper := SpecScraper.perpetual "" |}
       (mkTimeRange (mkDatetime 999 1 1 5 30 0 0) (mkDatetime 999 1 2 0 0 0 0))
     = None
  /\ EVELevel2Client._get_url_for_timerange
       {| map_ := ∅; _scrapper := SpecScraper.perpetual "" |}
       (mkTimeRange (mkDatetime 999 1 1 5 30 0 0) (mkDatetime 999 1 2 0 0 0 0))
     = None
  /\ EVEClient.normalized
       (mkTimeRange (mkDatetime 2018 1 1 14 30 15 0) (mkDatetime 2018 1 1 16 0 0 0))
     = Some (mkTimeRange (mkDatetime 2018 1 1 0 0 0 0) (mkDatetime 2018 1 1 16 0 0 0))
  /\ EVELevel2Client.normalized
       (mkTimeRange (mkDatetime 2018 1 1 14 30 15 0) (mkDatetime 2018 1 1 16 0 0 0))
     = Some (mkTimeRange (mkDatetime 2018 1 1 14 0 0 0) (mkDatetime 2018 1 1 16 0 0 0)).
Proof.
  pose proof (normalization_rounds_or_raises
                (C := {| Scraper_new := SpecScraper.perpetual;
                         GenericClient_init := fun _ _ => inr ∅ |})
                {| map_ := ∅; _scrapper := SpecScraper.perpetual "" |}
                (mkTimeRange (mkDatetime 999 1 1 5 30 0 0)
                             (mkDatetime 999 1 2 0 0 0 0))
                eq_refl) as (_ & _ & Hd & Hh & _).
  destruct (Hd eq_refl eq_refl) as (_ & H0 & H2b & H3).
  destruct (Hh eq_refl eq_refl) as (_ & H2).
  pose proof (normalization_rounds_or_raises
                (C := {| Scraper_new := SpecScraper.perpetual;
                         GenericClient_init := fun _ _ => inr ∅ |})
                {| map_ := ∅; _scrapper := SpecScraper.perpetual "" |}
                (mkTimeRange (mkDatetime 2018 1 1 14 30 15 0)
                             (mkDatetime 2018 1 1 16 0 0 0))
                eq_refl) as (Rd & Rh & _).
  assert (Hy : 1000 <= 2018) by lia.
  destruct (Rd (or_intror Hy)) as ((R0 & _) & _).
  destruct (Rh (or_intror Hy)) as (R2 & _).
  repeat split; try reflexivity; assumption.
Defined.

Lemma merged_full_range (today : date) :
  DT.leb SpecScraper.sentinel (ParseTime.of_date today) = true ->
  TR.of_str_date "1900/01/01" today
  = Some (mkTimeRange (datetime_ymd 1900 1 1) (ParseTime.of_date today)).
Proof.
  intros H. unfold TR.of_str_date, TR.of_str.
  change (ParseTime.parse_time "1900/01/01") with (Some (datetime_ymd 1900 1 1)).
  simpl. rewrite of_datetimes_ordered by exact H. reflexivity.
Qed.

Lemma merged_times_from (today : date) (full : TimeRange) (urls : list string)
    (acc : list TimeRange) :
  TR.of_str_date "1900/01/01" today = Some full ->
  fold_left
    (fun times (url : string) =>
       ts ← times;
       t ← TR.of_str_date "1900/01/01" today;
       Some (ts ++ [t])%list)
    urls (Some acc)
  = Some (acc ++ repeat full (length urls))%list.
Proof.
  intros Hf.
  match goal with |- fold_left ?f _ _ = _ => set (F := f) end.
  assert (HF : forall a u, F (Some a) u = Some (a ++ [full])%list).
  { intros a u. unfold F. cbn [mbind option_bind]. rewrite Hf. reflexivity. }
  clearbody F. revert acc.
  induction urls as [|u urls IH]; intros acc; cbn [fold_left length repeat].
  - rewrite app_nil_r. reflexivity.
  - rewrite HF, IH, <- app_assoc. reflexivity.
Qed.

(** C7.  The Level-3-Merged client, whatever the requested range: the
    scraper is asked for the fixed range from 1900-01-01 to today; with the
    scraper of the specification, built at construction from the bound
    pattern, that is exactly one URL, the merged file; and
    [_get_time_for_url] gives, for every URL of its input and whatever the
    URL is, the fixed range from 1900-01-01 to today. *)
Theorem merged_is_perpetual {C : Collaborators} (today : date)
    (timerange : TimeRange) (urls : list string) :
  DT.leb (datetime_ymd 1900 1 1) (ParseTime.of_date today) = true ->
  (forall self : Client,
      EVELevel3MergedClient._get_url_for_timerange self today timerange
      = Some (filelist (_scrapper self)
                (mkTimeRange (datetime_ymd 1900 1 1) (ParseTime.of_date today))))
  /\ (forall (args : list PyValue) (kwargs : gmap string PyValue) (self : Client),
         Scraper_new
           "http://lasp.colorado.edu/eve/data_access/evewebdataproducts/merged/latest_EVE_L3_merged.fit"
         = SpecScraper.perpetual
             "http://lasp.colorado.edu/eve/data_access/evewebdataproducts/merged/latest_EVE_L3_merged.fit" ->
         _BaseEVEClient.__init__ EVELevel3MergedClient.cls args kwargs = inr self ->
         EVELevel3MergedClient._get_url_for_timerange self today timerange
         = Some ["http://lasp.colorado.edu/eve/data_access/evewebdataproducts/merged/latest_EVE_L3_merged.fit"])
  /\ EVELevel3MergedClient._get_time_for_url today urls
     = Some (repeat (mkTimeRange (datetime_ymd 1900 1 1) (ParseTime.of_date today))
               (length urls)).
Proof.
  intros Ht. pose proof (merged_full_range today Ht) as Hf.
  assert (Hurl : forall self : Client,
      EVELevel3MergedClient._get_url_for_timerange self today timerange
      = Some (filelist (_scrapper self)
                (mkTimeRange (datetime_ymd 1900 1 1) (ParseTime.of_date today)))).
  { intros self. unfold EVELevel3MergedClient._get_url_for_timerange.
    rewrite Hf. reflexivity. }
  split; [exact Hurl|split].
  - intros args kwargs self Hnew Hinit. rewrite Hurl.
    unfold _BaseEVEClient.__init__ in Hinit.
    destruct (GenericClient_init args kwargs) as [e|m]; [discriminate|].
    change (inr {| map_ := m;
                   _scrapper := Scraper_new
                     "http://lasp.colorado.edu/eve/data_access/evewebdataproducts/merged/latest_EVE_L3_merged.fit" |}
            = inr (A := exn) self) in Hinit.
    injection Hinit as <-.
    cbn [_scrapper]. rewrite Hnew.
    unfold SpecScraper.perpetual, TR.contains. cbn [filelist start end_].
    rewrite DTFacts.leb_refl.
    change SpecScraper.sentinel with (datetime_ymd 1900 1 1).
    rewrite Ht. reflexivity.
  - unfold EVELevel3MergedClient._get_time_for_url.
    rewrite (merged_times_from today _ urls [] Hf). reflexivity.
Qed.

(** With the scraper of the specification the substitution matters: asked
    for the caller's own range, it would list nothing. *)
Example perpetual_needs_full_range :
  filelist (SpecScraper.perpetual "merged/latest_EVE_L3_merged.fit")
    (mkTimeRange (datetime_ymd 2018 4 20) (datetime_ymd 2018 4 20)) = [].
Proof. reflexivity. Qed.

Lemma merged_is_perpetual_witness :
  EVELevel3MergedClient._get_url_for_timerange
    {| map_ := ∅;
       _scrapper := SpecScraper.perpetual
         "http://lasp.colorado.edu/eve/data_access/evewebdataproducts/merged/latest_EVE_L3_merged.fit" |}
    (mkDate 2018 4 20)
    (mkTimeRange (datetime_ymd 2018 4 20) (datetime_ymd 2018 4 20))
  = Some ["http://lasp.colorado.edu/eve/data_access/evewebdataproducts/merged/latest_EVE_L3_merged.fit"]
  /\ EVELevel3MergedClient._get_time_for_url (mkDate 2018 4 20) ["a"; "b"]
     = Some [mkTimeRange (datetime_ymd 1900 1 1) (datetime_ymd 2018 4 20);
             mkTimeRange (datetime_ymd 1900 1 1) (datetime_ymd 2018 4 20)].
Proof.
  destruct (merged_is_perpetual
              (C := {| Scraper_new := SpecScraper.perpetual;
                       GenericClient_init := fun _ _ => inr ∅ |})
              (mkDate 2018 4 20)
              (mkTimeRange (datetime_ymd 2018 4 20) (datetime_ymd 2018 4 20))
              ["a"; "b"] eq_refl) as (_ & Hone & Htimes).
  split; [|exact Htimes].
  apply (Hone [] ∅); [reflexivity|]. vm_compute. reflexivity.
Defined.

(** C8.  Construction of a client whose URL pattern is unbound, as when
    [_BaseEVEClient] itself is instantiated, raises at once; when the base
    class constructor succeeds the error is [NotImplementedError], and each
    of the five concrete clients is constructed, the four level 2+ clients
    with the scraper of their bound pattern. *)
Theorem unbound_pattern_fails_at_construction {C : Collaborators}
    (args : list PyValue) (kwargs : gmap string PyValue) :
  (exists e : exn,
      _BaseEVEClient.__init__ _BaseEVEClient.cls args kwargs = inl e)
  /\ forall m : gmap string string,
      GenericClient_init args kwargs = inr m ->
      _BaseEVEClient.__init__ _BaseEVEClient.cls args kwargs
      = inl NotImplementedError
      /\ EVEClient.__init__ args kwargs = inr m
      /\ _BaseEVEClient.__init__ EVELevel2BClient.cls args kwargs
         = inr {| map_ := m;
                  _scrapper := Scraper_new
                    "http://lasp.colorado.edu/eve/data_access/evewebdataproducts/level2b/%Y/%j/EVS_L2B_%Y%j_006_02.fit.gz" |}
      /\ _BaseEVEClient.__init__ EVELevel2Client.cls args kwargs
         = inr {| map_ := m;
                  _scrapper := Scraper_new
                    "http://lasp.colorado.edu/eve/data_access/evewebdataproducts/level2/%Y/%j/EVS_L2_%Y%j_%H_006_02.fit.gz" |}
      /\ _BaseEVEClient.__init__ EVELevel3Client.cls args kwargs
         = inr {| map_ := m;
                  _scrapper := Scraper_new
                    "http://lasp.colorado.edu/eve/data_access/evewebdataproducts/level3/%Y/EVE_L3_%Y%j_006_02.fit" |}
      /\ _BaseEVEClient.__init__ EVELevel3MergedClient.cls args kwargs
         = inr {| map_ := m;
                  _scrapper := Scraper_new
                    "http://lasp.colorado.edu/eve/data_access/evewebdataproducts/merged/latest_EVE_L3_merged.fit" |}.
Proof.
  split.
  - unfold _BaseEVEClient.__init__.
    destruct (GenericClient_init args kwargs) as [e|m]; [exists e|exists NotImplementedError];
      reflexivity.
  - intros m Hm. unfold _BaseEVEClient.__init__, EVEClient.__init__.
    rewrite Hm. repeat split; vm_compute; reflexivity.
Qed.

Lemma unbound_pattern_fails_at_construction_witness :
  _BaseEVEClient.__init__
    (C := {| Scraper_new := SpecScraper.perpetual;
             GenericClient_init := fun _ _ => inr ∅ |})
    _BaseEVEClient.cls [] ∅
  = inl NotImplementedError.
Proof.
  apply (proj2 (unbound_pattern_fails_at_construction
                  (C := {| Scraper_new := SpecScraper.perpetual;
                           GenericClient_init := fun _ _ => inr ∅ |})
                  [] ∅) ∅).
  reflexivity.
Defined.

End Discovery.

(** ** The pattern of [EVEScanTimeSeries] and the texts it matches *)

Module ReFacts.

Import Re.

Lemma lower_ascii_newline (c : ascii) :
  Ascii.eqb (PyStr.lower_ascii c) newline = Ascii.eqb c newline.
Proof.
  destruct c as [[] [] [] [] [] [] [] []]; reflexivity.
Qed.

Lemma at_eol_lower (s : string) :
  at_eol s
  = String.eqb (PyStr.lower s) "" || String.eqb (PyStr.lower s) (String newline "").
Proof.
  destruct s as [|c [|d s]]; simpl; try reflexivity.
  - rewrite lower_ascii_newline. destruct (Ascii.eqb c newline); reflexivity.
  - destruct (Ascii.eqb (PyStr.lower_ascii c) newline); reflexivity.
Qed.

(** Searching texts that all begin with [p]. *)
Lemma existsb_head (a p : ascii) (u : string) (L : list string) :
  existsb (String.eqb (String a u)) (map (String p) L)
  = Ascii.eqb a p && existsb (String.eqb u) L.
Proof.
  induction L as [|x L IH]; cbn [map existsb].
  - rewrite andb_false_r. reflexivity.
  - rewrite IH. cbn [String.eqb]. destruct (Ascii.eqb a p); reflexivity.
Qed.

Lemma existsb_head_empty (p : ascii) (L : list string) :
  existsb (String.eqb "") (map (String p) L) = false.
Proof. induction L as [|x L IH]; simpl; [reflexivity | exact IH]. Qed.

(** With [re.I], the texts a pattern matches are read off its nodes: if
    the rest of the pattern matches the texts whose lower case is in [L],
    so does the pattern with one more node in front, for the list built
    from [L]. *)
Section Prefix.

Variable re : list node.
Variable L : list string.
Hypothesis rest :
  forall (pos : nat) (s : string),
    is_match (match_here true re pos s) = existsb (String.eqb (PyStr.lower s)) L.

Lemma one_chr (p : ascii) (pos : nat) (s : string) :
  is_match (match_here true (One (Chr p) :: re) pos s)
  = existsb (String.eqb (PyStr.lower s)) (map (String (PyStr.lower_ascii p)) L).
Proof.
  destruct s as [|c s]; cbn [match_here PyStr.lower atom_matches char_eq].
  - rewrite existsb_head_empty. reflexivity.
  - rewrite existsb_head.
    destruct (Ascii.eqb (PyStr.lower_ascii c) (PyStr.lower_ascii p));
      [apply rest | reflexivity].
Qed.

Lemma one_cls2 (p q : ascii) (pos : nat) (s : string) :
  is_match (match_here true (One (Cls [p; q]) :: re) pos s)
  = existsb (String.eqb (PyStr.lower s))
      (map (String (PyStr.lower_ascii p)) L ++ map (String (PyStr.lower_ascii q)) L).
Proof.
  rewrite existsb_app.
  destruct s as [|c s]; cbn [match_here PyStr.lower atom_matches char_eq existsb].
  - rewrite !existsb_head_empty. reflexivity.
  - rewrite !existsb_head, orb_false_r.
    destruct (Ascii.eqb (PyStr.lower_ascii c) (PyStr.lower_ascii p)),
      (Ascii.eqb (PyStr.lower_ascii c) (PyStr.lower_ascii q));
      cbn [orb andb]; rewrite ?rest, ?orb_diag, ?orb_false_r; reflexivity.
Qed.

Lemma opt_chr (p : ascii) (pos : nat) (s : string) :
  is_match (match_here true (Opt (Chr p) :: re) pos s)
  = existsb (String.eqb (PyStr.lower s))
      (map (String (PyStr.lower_ascii p)) L ++ L).
Proof.
  rewrite existsb_app.
  destruct s as [|c s]; cbn [match_here atom_matches char_eq].
  - rewrite rest. cbn [PyStr.lower]. rewrite existsb_head_empty. reflexivity.
  - rewrite <- (rest pos (String c s)). cbn [PyStr.lower].
    rewrite existsb_head, <- (rest (S pos) s).
    destruct (Ascii.eqb (PyStr.lower_ascii c) (PyStr.lower_ascii p));
      cbn [andb orb]; [|reflexivity].
    destruct (match_here true re (S pos) s); reflexivity.
Qed.

Lemma bol (s : string) :
  is_match (match_here true (Bol :: re) 0 s)
  = existsb (String.eqb (PyStr.lower s)) L.
Proof. cbn [match_here Nat.eqb]. apply rest. Qed.

End Prefix.

Lemma eol_only (pos : nat) (s : string) :
  is_match (match_here true [Eol] pos s)
  = existsb (String.eqb (PyStr.lower s)) [""; String newline ""].
Proof.
  cbn [match_here existsb]. rewrite orb_false_r, <- at_eol_lower.
  destruct (at_eol s); reflexivity.
Qed.

Lemma existsb_same_members (f : string -> bool) (L1 L2 : list string) :
  (forall x, In x L1 <-> In x L2) -> existsb f L1 = existsb f L2.
Proof.
  intros H. apply PredicateFacts.bool_iff. rewrite !existsb_exists.
  split; intros (x & Hx & Hf); exists x; (split; [apply H, Hx | exact Hf]).
Qed.

(** The texts [r'^eve[_ ]l2b?$'] matches under [re.I]. *)
Lemma source_pattern_texts (s : string) :
  is_match (match_ EVEScanTimeSeries.source_pattern s true)
  = SourceNames.accepted s.
Proof.
  pose proof eol_only as H0.
  pose proof (opt_chr _ _ H0 "b") as H1.
  pose proof (one_chr _ _ H1 "2") as H2.
  pose proof (one_chr _ _ H2 "l") as H3.
  pose proof (one_cls2 _ _ H3 "_" " ") as H4.
  pose proof (one_chr _ _ H4 "e") as H5.
  pose proof (one_chr _ _ H5 "v") as H6.
  pose proof (one_chr _ _ H6 "e") as H7.
  unfold match_, EVEScanTimeSeries.source_pattern.
  rewrite (bol _ _ H7 s). unfold SourceNames.accepted.
  apply existsb_same_members. intros x. vm_compute. tauto.
Qed.

End ReFacts.

(** ** [is_datasource_for] *)

Module DataSource.

Lemma nonempty_truthy (s : string) : s <> "" -> truthy (VStr s) = true.
Proof.
  intros H. simpl. destruct (String.eqb_spec s ""); [contradiction|reflexivity].
Qed.

(** C10.  When the keyword arguments hold no 'source', or hold the empty
    string, both [is_datasource_for] methods return [None], not [False];
    a [bool] comes back only for a non-empty source string.  For such a
    string [EVESpWxTimeSeries] compares its lower case with 'eve', and
    [EVEScanTimeSeries] returns the result of matching it against
    [^eve[_ ]l2b?$] without regard to case, which accepts 'eve_l2' and
    'eve l2b' as well as 'eve_l2b'. *)
Theorem is_datasource_for_source (kwargs : gmap string PyValue) :
  ((kwargs !! "source" = None \/ kwargs !! "source" = Some (VStr "")) ->
   EVESpWxTimeSeries.is_datasource_for kwargs = inr RNone
   /\ EVEScanTimeSeries.is_datasource_for kwargs = inr RNone)
  /\ (forall b : bool,
         EVESpWxTimeSeries.is_datasource_for kwargs = inr (RBool b)
         \/ EVEScanTimeSeries.is_datasource_for kwargs = inr (RBool b) ->
         exists s : string, kwargs !! "source" = Some (VStr s) /\ s <> "")
  /\ (forall s : string,
         kwargs !! "source" = Some (VStr s) -> s <> "" ->
         EVESpWxTimeSeries.is_datasource_for kwargs
         = inr (RBool (String.eqb (PyStr.lower s) "eve"))
         /\ EVEScanTimeSeries.is_datasource_for kwargs
            = inr (match Re.match_ EVEScanTimeSeries.source_pattern s true with
                   | Some e => RMatch e
                   | None => RNone
                   end)
         /\ Re.is_match (Re.match_ EVEScanTimeSeries.source_pattern s true)
            = SourceNames.accepted s)
  /\ EVEScanTimeSeries.is_datasource_for {[ "source" := VStr "eve_l2" ]}
     = inr (RMatch 6)
  /\ EVEScanTimeSeries.is_datasource_for {[ "source" := VStr "eve l2b" ]}
     = inr (RMatch 7)
  /\ EVEScanTimeSeries.is_datasource_for {[ "source" := VStr "eve_l2b" ]}
     = inr (RMatch 7).
Proof.
  unfold EVESpWxTimeSeries.is_datasource_for,
    EVEScanTimeSeries.is_datasource_for, kwargs_get.
  split; [|split; [|split; [|repeat split; reflexivity]]].
  - intros [E|E]; rewrite E; split; reflexivity.
  - intros b. destruct (kwargs !! "source") as [[n|s]|] eqn:E;
      unfold default; cbn [from_option id].
    + destruct (truthy (VInt n)); intros [H|H]; discriminate.
    + intros H. exists s. split; [reflexivity|]. intros ->.
      cbn in H. destruct H as [H|H]; discriminate.
    + cbn. intros [H|H]; discriminate.
  - intros s E Hs. rewrite E. unfold default. cbn [from_option id].
    rewrite (nonempty_truthy s Hs). split; [reflexivity|split].
    + destruct (Re.match_ EVEScanTimeSeries.source_pattern s true); reflexivity.
    + apply ReFacts.source_pattern_texts.
Qed.

Lemma is_datasource_for_source_witness :
  EVESpWxTimeSeries.is_datasource_for ∅ = inr RNone
  /\ EVEScanTimeSeries.is_datasource_for {[ "source" := VStr "" ]} = inr RNone
  /\ EVEScanTimeSeries.is_datasource_for {[ "source" := VStr "EVE L2" ]}
     = inr (RMatch 6).
Proof.
  split; [|split].
  - apply (proj1 (is_datasource_for_source ∅)). left. reflexivity.
  - apply (proj1 (is_datasource_for_source {[ "source" := VStr "" ]})).
    right. reflexivity.
  - apply (proj1 (proj2 (proj2 (is_datasource_for_source
                                  {[ "source" := VStr "EVE L2" ]}))) "EVE L2").
    + reflexivity.
    + discriminate.
Defined.

End DataSource.

(** ** Further properties of the predicates *)

Module Dispatch.

Import PredicateFacts ReqFacts.

Lemma existsb_without (f : QueryTerm -> bool) (q1 q2 : list QueryTerm)
    (x : QueryTerm) :
  f x = false -> existsb f (q1 ++ x :: q2) = existsb f (q1 ++ q2).
Proof.
  intros H. rewrite (existsb_app f q1 (x :: q2)), (existsb_app f q1 q2).
  simpl. rewrite H. reflexivity.
Qed.

Lemma count_without (f : QueryTerm -> bool) (q1 q2 : list QueryTerm)
    (x : QueryTerm) :
  f x = false ->
  length (List.filter f (q1 ++ x :: q2)) = length (List.filter f (q1 ++ q2)).
Proof.
  intros H. rewrite (List.filter_app f q1 (x :: q2)), (List.filter_app f q1 q2).
  simpl. rewrite H. reflexivity.
Qed.

(** X1.  Terms the predicates do not check are ignored: a term whose class
    is none of Instrument, Level and Time can be put into a query, or
    taken out of it, at any place without changing the answer of any of
    the five predicates; the same holds of a [Time] term for the three
    predicates without a time window (Level-0, Level-3, Level-3-Merged). *)
Theorem unchecked_terms_are_ignored (q1 q2 : list QueryTerm) (x : QueryTerm) :
  (class_name x <> "Instrument" -> class_name x <> "Level" ->
   class_name x <> "Time" ->
   EVEClient._can_handle_query (q1 ++ x :: q2)
   = EVEClient._can_handle_query (q1 ++ q2)
   /\ EVELevel2BClient._can_handle_query (q1 ++ x :: q2)
      = EVELevel2BClient._can_handle_query (q1 ++ q2)
   /\ EVELevel2Client._can_handle_query (q1 ++ x :: q2)
      = EVELevel2Client._can_handle_query (q1 ++ q2)
   /\ EVELevel3Client._can_handle_query (q1 ++ x :: q2)
      = EVELevel3Client._can_handle_query (q1 ++ q2)
   /\ EVELevel3MergedClient._can_handle_query (q1 ++ x :: q2)
      = EVELevel3MergedClient._can_handle_query (q1 ++ q2))
  /\ (class_name x = "Time" ->
      EVEClient._can_handle_query (q1 ++ x :: q2)
      = EVEClient._can_handle_query (q1 ++ q2)
      /\ EVELevel3Client._can_handle_query (q1 ++ x :: q2)
         = EVELevel3Client._can_handle_query (q1 ++ q2)
      /\ EVELevel3MergedClient._can_handle_query (q1 ++ x :: q2)
         = EVELevel3MergedClient._can_handle_query (q1 ++ q2)).
Proof.
  rewrite !can_handle_0, !can_handle_2b, !can_handle_2, !can_handle_3,
    !can_handle_3m.
  unfold Variant.count_0, Variant.covers_2b, Variant.covers_2,
    Variant.covers_3, Variant.covers_3m.
  split.
  - intros Hi Hl Ht.
    assert (Hx : forall f,
               In f [Variant.hit_0; Req.instrument_eve; Req.level_2b;
                     Req.level_2; Req.level_3; Req.level_3m;
                     Req.time_end_from EVELevel2BClient.cutover;
                     Req.time_start_before EVELevel2Client.cutover] ->
               f x = false).
    { intros f Hf. destruct x; try (exfalso; auto; fail);
        simpl in Hf; repeat destruct Hf as [<-|Hf]; try reflexivity;
        contradiction. }
    rewrite (count_without Variant.hit_0), !existsb_without
      by (apply Hx; simpl; auto 10).
    repeat split; reflexivity.
  - intros Ht. destruct x; try discriminate.
    rewrite (count_without Variant.hit_0), !existsb_without by reflexivity.
    repeat split; reflexivity.
Qed.

Lemma unchecked_terms_are_ignored_witness :
  EVELevel2BClient._can_handle_query
    ([Instrument "eve"] ++ Source "sdo"
       :: [Level (VStr "2b");
           Time (datetime_ymd 2018 4 20) (datetime_ymd 2018 4 20)])
  = EVELevel2BClient._can_handle_query
      ([Instrument "eve"]
         ++ [Level (VStr "2b");
             Time (datetime_ymd 2018 4 20) (datetime_ymd 2018 4 20)])
  /\ EVELevel3Client._can_handle_query
       ([] ++ Time (datetime_ymd 2018 4 20) (datetime_ymd 2018 4 20)
          :: [Instrument "eve"; Level (VInt 3)])
     = EVELevel3Client._can_handle_query
         ([] ++ [Instrument "eve"; Level (VInt 3)]).
Proof.
  pose proof (unchecked_terms_are_ignored
                [Instrument "eve"]
                [Level (VStr "2b");
                 Time (datetime_ymd 2018 4 20) (datetime_ymd 2018 4 20)]
                (Source "sdo")) as [H1 _].
  pose proof (unchecked_terms_are_ignored
                [] [Instrument "eve"; Level (VInt 3)]
                (Time (datetime_ymd 2018 4 20) (datetime_ymd 2018 4 20)))
    as [_ H2].
  split.
  - refine (proj1 (proj2 (H1 _ _ _))); discriminate.
  - exact (proj1 (proj2 (H2 eq_refl))).
Defined.

(** Two tests that look at [Level] terms only and never hold of the same
    value cannot both be met when all [Level] terms carry one value. *)
Lemma level_tests_exclude (f g : QueryTerm -> bool) (query : list QueryTerm) :
  (forall x, f x = true -> exists l, x = Level l) ->
  (forall x, g x = true -> exists l, x = Level l) ->
  (forall l, f (Level l) && g (Level l) = false) ->
  (forall l l', In (Level l) query -> In (Level l') query -> l = l') ->
  existsb f query && existsb g query = false.
Proof.
  intros Hf Hg Hfg Hone.
  destruct (existsb f query) eqn:Ef; [|reflexivity].
  destruct (existsb g query) eqn:Eg; [|reflexivity].
  apply existsb_exists in Ef as (x & Hx & Hfx).
  apply existsb_exists in Eg as (y & Hy & Hgy).
  destruct (Hf x Hfx) as (l & ->). destruct (Hg y Hgy) as (l' & ->).
  rewrite (Hone l l' Hx Hy) in Hfx. specialize (Hfg l').
  rewrite Hfx, Hgy in Hfg. discriminate.
Qed.

Ltac level_only :=
  let x := fresh "x" in
  intros x; destruct x as [?|[?|?]|? ?|?|?|?]; simpl; intros; try discriminate;
  eauto.

Ltac values_differ :=
  let l := fresh "l" in
  intros l; destruct l as [n|s]; simpl; try reflexivity;
  repeat match goal with
         | |- context [Z.eqb ?a ?b] => destruct (Z.eqb_spec a b)
         | |- context [String.eqb ?a ?b] => destruct (String.eqb_spec a b)
         end;
  simpl; try reflexivity; exfalso; subst;
  repeat match goal with
         | H : PyStr.lower _ = _ |- _ => vm_compute in H
         end;
  first [congruence | lia].

(** X2.  When all the [Level] terms of a query carry the same value, at
    most one of the four set-based predicates accepts the query. *)
Theorem one_level_one_client (query : list QueryTerm) :
  (forall l l', In (Level l) query -> In (Level l') query -> l = l') ->
  (length (List.filter (fun b : bool => b)
             [EVELevel2BClient._can_handle_query query;
              EVELevel2Client._can_handle_query query;
              EVELevel3Client._can_handle_query query;
              EVELevel3MergedClient._can_handle_query query]) <= 1)%nat.
Proof.
  intros Hone.
  rewrite can_handle_2b, can_handle_2, can_handle_3, can_handle_3m.
  unfold Variant.covers_2b, Variant.covers_2, Variant.covers_3,
    Variant.covers_3m.
  pose proof (level_tests_exclude Req.level_2b Req.level_2 query) as H1.
  pose proof (level_tests_exclude Req.level_2b Req.level_3 query) as H2.
  pose proof (level_tests_exclude Req.level_2b Req.level_3m query) as H3.
  pose proof (level_tests_exclude Req.level_2 Req.level_3 query) as H4.
  pose proof (level_tests_exclude Req.level_2 Req.level_3m query) as H5.
  pose proof (level_tests_exclude Req.level_3 Req.level_3m query) as H6.
  specialize (H1 ltac:(level_only) ltac:(level_only) ltac:(values_differ) Hone).
  specialize (H2 ltac:(level_only) ltac:(level_only) ltac:(values_differ) Hone).
  specialize (H3 ltac:(level_only) ltac:(level_only) ltac:(values_differ) Hone).
  specialize (H4 ltac:(level_only) ltac:(level_only) ltac:(values_differ) Hone).
  specialize (H5 ltac:(level_only) ltac:(level_only) ltac:(values_differ) Hone).
  specialize (H6 ltac:(level_only) ltac:(level_only) ltac:(values_differ) Hone).
  destruct (existsb Req.instrument_eve query),
    (existsb Req.level_2b query), (existsb Req.level_2 query),
    (existsb Req.level_3 query), (existsb Req.level_3m query),
    (existsb (Req.time_end_from EVELevel2BClient.cutover) query),
    (existsb (Req.time_start_before EVELevel2Client.cutover) query);
    simpl in *; try discriminate; lia.
Qed.

Lemma one_level_one_client_witness :
  (length (List.filter (fun b : bool => b)
             [EVELevel2BClient._can_handle_query
                [Instrument "eve"; Level (VStr "2");
                 Time (datetime_ymd 2018 4 21) (datetime_ymd 2018 4 22)];
              EVELevel2Client._can_handle_query
                [Instrument "eve"; Level (VStr "2");
                 Time (datetime_ymd 2018 4 21) (datetime_ymd 2018 4 22)];
              EVELevel3Client._can_handle_query
                [Instrument "eve"; Level (VStr "2");
                 Time (datetime_ymd 2018 4 21) (datetime_ymd 2018 4 22)];
              EVELevel3MergedClient._can_handle_query
                [Instrument "eve"; Level (VStr "2");
                 Time (datetime_ymd 2018 4 21) (datetime_ymd 2018 4 22)]])
   <= 1)%nat.
Proof.
  apply one_level_one_client.
  intros l l' [H|[H|[H|[]]]] [H'|[H'|[H'|[]]]]; try discriminate.
  congruence.
Defined.

(** X3.  The Level-2B predicate refuses every query none of whose [Time]
    terms ends on or after 2018-04-20; in particular it refuses, as the
    Level-2 predicate does, every query without a [Time] term. *)
Theorem level2b_needs_its_window (query : list QueryTerm) :
  ((forall t0 t1, In (Time t0 t1) query ->
                  DT.ltb t1 (datetime_ymd 2018 4 20) = true) ->
   EVELevel2BClient._can_handle_query query = false)
  /\ ((forall x, In x query -> class_name x <> "Time") ->
      EVELevel2BClient._can_handle_query query = false
      /\ EVELevel2Client._can_handle_query query = false).
Proof.
  rewrite can_handle_2b, can_handle_2.
  unfold Variant.covers_2b, Variant.covers_2.
  assert (Hno : forall f : QueryTerm -> bool,
             (forall x, f x = true -> class_name x = "Time") ->
             (forall x, In x query -> class_name x <> "Time") ->
             existsb f query = false).
  { intros f Hf Hq. destruct (existsb f query) eqn:E; [|reflexivity].
    apply existsb_exists in E as (x & Hx & Hfx).
    destruct (Hq x Hx (Hf x Hfx)). }
  split.
  - intros Hall.
    destruct (existsb (Req.time_end_from EVELevel2BClient.cutover) query)
      eqn:E; [|rewrite andb_false_r; reflexivity].
    apply has_time_end_from in E as (t0 & t1 & Hin & Hge).
    specialize (Hall t0 t1 Hin). unfold DT.geb in Hge.
    unfold EVELevel2BClient.cutover in Hge.
    rewrite DTFacts.ltb_negb_leb, Hge in Hall. discriminate.
  - intros Hq.
    assert (H1 : existsb (Req.time_end_from EVELevel2BClient.cutover) query
                 = false).
    { apply Hno; [|exact Hq].
      intros [| | | | |]; simpl; intros; try discriminate; reflexivity. }
    assert (H2 : existsb (Req.time_start_before EVELevel2Client.cutover) query
                 = false).
    { apply Hno; [|exact Hq].
      intros [| | | | |]; simpl; intros; try discriminate; reflexivity. }
    rewrite H1, H2, !andb_false_r. split; reflexivity.
Qed.

Lemma level2b_needs_its_window_witness :
  EVELevel2BClient._can_handle_query
    [Time (datetime_ymd 2018 3 19) (datetime_ymd 2018 3 19);
     Instrument "eve"; Level (VStr "2b")] = false
  /\ EVELevel2Client._can_handle_query [Instrument "eve"; Level (VInt 2)]
     = false.
Proof.
  split.
  - apply (proj1 (level2b_needs_its_window _)).
    intros t0 t1 [H|[H|[H|[]]]]; try discriminate.
    injection H as <- <-. reflexivity.
  - apply (proj2 (level2b_needs_its_window _)).
    intros x [<-|[<-|[]]]; discriminate.
Defined.

(** X4.  The windows of Level-2 and Level-2B leave no gap: for every
    [Time] term whose start is not after its end, the Level-2 predicate
    accepts it together with Instrument "eve" and Level(2), or the
    Level-2B predicate accepts it together with Instrument "eve" and
    Level("2b"). *)
Theorem level2_level2b_leave_no_gap (v : string) (t0 t1 : datetime) :
  PyStr.lower v = "eve" ->
  DT.leb t0 t1 = true ->
  EVELevel2Client._can_handle_query
    [Instrument v; Level (VInt 2); Time t0 t1] = true
  \/ EVELevel2BClient._can_handle_query
       [Instrument v; Level (VStr "2b"); Time t0 t1] = true.
Proof.
  intros Hv Hle. rewrite can_handle_2, can_handle_2b.
  unfold Variant.covers_2, Variant.covers_2b. simpl. rewrite Hv. simpl.
  destruct (DT.ltb t0 EVELevel2Client.cutover) eqn:E; [left; reflexivity|].
  right. rewrite DTFacts.ltb_negb_leb in E. apply negb_false_iff in E.
  assert (H : DT.leb EVELevel2BClient.cutover t1 = true).
  { eapply DTFacts.leb_trans; [|exact Hle].
    eapply DTFacts.leb_trans; [|exact E]. reflexivity. }
  rewrite H. reflexivity.
Qed.

Lemma level2_level2b_leave_no_gap_witness :
  EVELevel2Client._can_handle_query
    [Instrument "EVE"; Level (VInt 2);
     Time (datetime_ymd 2018 5 1) (datetime_ymd 2018 5 2)] = true
  \/ EVELevel2BClient._can_handle_query
       [Instrument "EVE"; Level (VStr "2b");
        Time (datetime_ymd 2018 5 1) (datetime_ymd 2018 5 2)] = true.
Proof. apply level2_level2b_leave_no_gap; reflexivity. Defined.

End Dispatch.

(** ** The spans of the files *)

Module SpanFacts.

Import Timedelta.

Lemma add_day_cases (t t' : datetime) :
  add_day t = Some t' ->
  hour t' = hour t /\ minute t' = minute t /\ second t' = second t
  /\ microsecond t' = microsecond t
  /\ ((year t = year t' /\ month t = month t' /\ day t < day t')
      \/ (year t = year t' /\ month t < month t')
      \/ year t < year t').
Proof.
  unfold add_day.
  destruct (Z.ltb_spec (day t) (DT.days_in_month (year t) (month t)));
    [|destruct (Z.ltb_spec (month t) 12);
      [|destruct (Z.ltb_spec (year t) 9999); [|discriminate]]];
    intros Hs; injection Hs as <-; simpl; repeat split; lia.
Qed.

Lemma lt_at_date (a b : datetime) :
  (year a = year b /\ month a = month b /\ day a < day b)
  \/ (year a = year b /\ month a < month b)
  \/ year a < year b ->
  DT.ltb a b = true.
Proof.
  destruct a as [y m d h mi s us], b as [y' m' d' h' mi' s' us'].
  unfold DT.ltb, DT.compare, DT.fields. cbn [year month day DT.lex_compare].
  intros [(-> & -> & H)|[(-> & H)|H]].
  - rewrite !Z.compare_refl. apply Z.compare_lt_iff in H. rewrite H. reflexivity.
  - rewrite Z.compare_refl. apply Z.compare_lt_iff in H. rewrite H. reflexivity.
  - apply Z.compare_lt_iff in H. rewrite H. reflexivity.
Qed.

Lemma add_day_later (t t' : datetime) :
  add_day t = Some t' -> DT.ltb t t' = true.
Proof. intros H. apply lt_at_date. apply add_day_cases in H. tauto. Qed.

Lemma add_hour_later (t t' : datetime) :
  add_hour t = Some t' -> DT.ltb t t' = true.
Proof.
  unfold add_hour. destruct (Z.ltb_spec (hour t) 23) as [Hh|Hh].
  - intros H. injection H as <-.
    destruct t as [y m d h mi s us]. simpl in Hh.
    unfold DT.ltb, DT.compare, DT.fields. cbn [year month day hour DT.lex_compare].
    rewrite !Z.compare_refl.
    assert (E : (h ?= h + 1) = Lt) by (apply Z.compare_lt_iff; lia).
    rewrite E. reflexivity.
  - destruct (add_day t) as [t1|] eqn:E; [|discriminate].
    cbn [mbind option_bind]. intros H. injection H as <-.
    apply lt_at_date. apply add_day_cases in E. simpl. tauto.
Qed.

(** The end of the day, or hour, that holds [t] is after [t]. *)
Lemma day_end_later (t e : datetime) :
  add_day (Granularity.floor_day t) = Some e -> DT.ltb t e = true.
Proof.
  intros H. apply lt_at_date. apply add_day_cases in H. simpl in H. tauto.
Qed.

Lemma hour_end_later (t e : datetime) :
  add_hour (Granularity.floor_hour t) = Some e -> DT.ltb t e = true.
Proof.
  unfold add_hour. cbn [hour Granularity.floor_hour].
  destruct (Z.ltb_spec (hour t) 23) as [Hh|Hh].
  - intros H. injection H as <-.
    destruct t as [y m d h mi s us]. simpl in Hh.
    unfold DT.ltb, DT.compare, DT.fields. cbn [year month day hour DT.lex_compare].
    rewrite !Z.compare_refl.
    assert (E : (h ?= h + 1) = Lt) by (apply Z.compare_lt_iff; lia).
    rewrite E. reflexivity.
  - destruct (add_day _) as [t1|] eqn:E; [|discriminate].
    cbn [mbind option_bind]. intros H. injection H as <-.
    apply lt_at_date. apply add_day_cases in E. simpl in *. tauto.
Qed.

(** The loop of [_get_time_for_url] as a map over the URLs. *)
Lemma spans_loop (g : string -> option TimeRange) (urls : list string)
    (acc : list TimeRange) :
  fold_left
    (fun times url => ts ← times; r ← g url; Some (ts ++ [r])%list)
    urls (Some acc)
  = (rs ← mapM g urls; Some (acc ++ rs)%list).
Proof.
  revert acc. induction urls as [|u urls IH]; intros acc;
    cbn [fold_left mapM mbind option_bind mret option_ret].
  - rewrite app_nil_r. reflexivity.
  - destruct (g u) as [r|] eqn:E; cbn [mbind option_bind].
    + rewrite IH. destruct (mapM g urls); cbn [mbind option_bind];
        [rewrite <- app_assoc|]; reflexivity.
    + clear IH. induction urls as [|u' urls IH]; [reflexivity|exact IH].
Qed.

Section OneSpan.

Variable scraper : Scraper.
Variable add : datetime -> option datetime.
Hypothesis add_later : forall t t', add t = Some t' -> DT.ltb t t' = true.

Let span : string -> option TimeRange := Spans.span scraper add.

Lemma span_spec (url : string) (r : TimeRange) :
  span url = Some r <->
  exists t0 t1, _extractDateURL scraper url = Some t0 /\ add t0 = Some t1
                /\ r = mkTimeRange t0 t1.
Proof.
  unfold span, Spans.span. split.
  - destruct (_extractDateURL scraper url) as [t0|]; [|discriminate].
    cbn [mbind option_bind].
    destruct (add t0) as [t1|] eqn:E; [|discriminate].
    cbn [mbind option_bind]. intros H. injection H as <-.
    exists t0, t1. repeat split; [exact E|].
    apply NormalizerFacts.of_datetimes_ordered, DTFacts.ltb_leb, add_later, E.
  - intros (t0 & t1 & -> & E & ->). cbn [mbind option_bind]. rewrite E.
    cbn [mbind option_bind]. f_equal.
    apply NormalizerFacts.of_datetimes_ordered, DTFacts.ltb_leb, add_later, E.
Qed.

Lemma spans_spec (urls : list string) (times : list TimeRange) :
  fold_left
    (fun times url =>
       ts ← times;
       t0 ← _extractDateURL scraper url;
       t1 ← add t0;
       Some (ts ++ [TR.of_datetimes t0 t1])%list)
    urls (Some [])
  = Some times
  <-> Forall2
        (fun url r =>
           exists t0 t1, _extractDateURL scraper url = Some t0
                         /\ add t0 = Some t1 /\ r = mkTimeRange t0 t1)
        urls times.
Proof.
  assert (E : fold_left
    (fun times url =>
       ts ← times;
       t0 ← _extractDateURL scraper url;
       t1 ← add t0;
       Some (ts ++ [TR.of_datetimes t0 t1])%list)
    urls (Some [])
    = mapM span urls).
  { transitivity
      (fold_left
         (fun times url => ts ← times; r ← span url; Some (ts ++ [r])%list)
         urls (Some [])).
    - apply PredicateFacts.fold_ext_gen. intros [ts|] url; [|reflexivity].
      unfold span, Spans.span. cbn [mbind option_bind].
      destruct (_extractDateURL scraper url) as [t0|]; [|reflexivity].
      cbn [mbind option_bind]. destruct (add t0); reflexivity.
    - rewrite spans_loop. destruct (mapM span urls); reflexivity. }
  rewrite E, mapM_Some. split; intros H.
  - eapply Forall2_impl; [exact H|]. intros url r. apply span_spec.
  - eapply Forall2_impl; [exact H|]. intros url r. apply span_spec.
Qed.

End OneSpan.

End SpanFacts.

Module Reconstruction.

Import SpanFacts NormalizerFacts Granularity.

Lemma spans_in_order (P : string -> TimeRange -> Prop) (urls : list string)
    (times : list TimeRange) :
  (forall url r, P url r -> DT.ltb (start r) (end_ r) = true) ->
  Forall2 P urls times ->
  length times = length urls
  /\ Forall (fun r => DT.ltb (start r) (end_ r) = true) times.
Proof.
  intros HP H. split.
  - symmetry. eapply Forall2_length, H.
  - induction H as [|url r urls times Hr _ IH]; constructor; eauto.
Qed.

Lemma spans_each (P : string -> TimeRange -> Prop) (urls : list string)
    (times : list TimeRange) (url : string) :
  Forall2 P urls times -> In url urls -> exists r, P url r.
Proof.
  induction 1 as [|u r urls times Hr _ IH]; intros Hin.
  - destruct Hin.
  - destruct Hin as [<-|Hin]; eauto.
Qed.

Lemma spans_fail (P : string -> TimeRange -> Prop) (scraper : Scraper)
    (urls : list string) (res : option (list TimeRange)) :
  (forall times, res = Some times <-> Forall2 P urls times) ->
  (forall url r, P url r -> _extractDateURL scraper url <> None) ->
  forall url, In url urls -> _extractDateURL scraper url = None -> res = None.
Proof.
  intros Hres HP url Hin Hnone. destruct res as [times|]; [|reflexivity].
  pose proof (proj1 (Hres times) eq_refl) as HF.
  destruct (spans_each P urls times url HF Hin) as (r & Hr).
  exfalso. exact (HP url r Hr Hnone).
Qed.

Lemma day_of_in_order (scraper : Scraper) (url : string) (r : TimeRange) :
  Spans.day_of scraper url r -> DT.ltb (start r) (end_ r) = true.
Proof. intros (t0 & t1 & _ & H & ->). apply add_day_later, H. Qed.

Lemma hour_of_in_order (scraper : Scraper) (url : string) (r : TimeRange) :
  Spans.hour_of scraper url r -> DT.ltb (start r) (end_ r) = true.
Proof. intros (t0 & t1 & _ & H & ->). apply add_hour_later, H. Qed.

Lemma day_of_reads (scraper : Scraper) (url : string) (r : TimeRange) :
  Spans.day_of scraper url r -> _extractDateURL scraper url <> None.
Proof. intros (t0 & t1 & H & _). congruence. Qed.

Lemma hour_of_reads (scraper : Scraper) (url : string) (r : TimeRange) :
  Spans.hour_of scraper url r -> _extractDateURL scraper url <> None.
Proof. intros (t0 & t1 & H & _). congruence. Qed.

(** X5.  [_get_time_for_url] of the daily clients (Level-0, Level-2B,
    Level-3) succeeds exactly when the date of every URL can be read and
    the day after it exists; the result then has one span per URL, in the
    order of the URLs, which starts at the date read from the URL, ends at
    the same time on the next day and has its start before its end.  One
    URL whose date cannot be read fails the whole call. *)
Theorem daily_spans {C : Collaborators} (self : Client) (urls : list string) :
  (forall times : list TimeRange,
      (EVEClient._get_time_for_url urls = Some times
       <-> Forall2 (Spans.day_of (Scraper_new EVEClient.BASEURL)) urls times)
      /\ (EVELevel2BClient._get_time_for_url self urls = Some times
          <-> Forall2 (Spans.day_of (_scrapper self)) urls times)
      /\ (EVELevel3Client._get_time_for_url self urls = Some times
          <-> Forall2 (Spans.day_of (_scrapper self)) urls times))
  /\ (forall (scraper : Scraper) (times : list TimeRange),
         Forall2 (Spans.day_of scraper) urls times ->
         length times = length urls
         /\ Forall (fun r => DT.ltb (start r) (end_ r) = true) times)
  /\ (forall url : string,
         In url urls ->
         (_extractDateURL (Scraper_new EVEClient.BASEURL) url = None ->
          EVEClient._get_time_for_url urls = None)
         /\ (_extractDateURL (_scrapper self) url = None ->
             EVELevel2BClient._get_time_for_url self urls = None
             /\ EVELevel3Client._get_time_for_url self urls = None)).
Proof.
  assert (H0 : forall times,
             EVEClient._get_time_for_url urls = Some times
             <-> Forall2 (Spans.day_of (Scraper_new EVEClient.BASEURL)) urls times).
  { intros times. apply (spans_spec _ _ add_day_later). }
  assert (H1 : forall times,
             EVELevel2BClient._get_time_for_url self urls = Some times
             <-> Forall2 (Spans.day_of (_scrapper self)) urls times).
  { intros times. apply (spans_spec _ _ add_day_later). }
  assert (H2 : forall times,
             EVELevel3Client._get_time_for_url self urls = Some times
             <-> Forall2 (Spans.day_of (_scrapper self)) urls times).
  { intros times. apply (spans_spec _ _ add_day_later). }
  split; [|split].
  - intros times. auto.
  - intros scraper times. apply spans_in_order, day_of_in_order.
  - intros url Hin. split; [|split].
    + eapply spans_fail; eauto using day_of_reads.
    + eapply spans_fail; eauto using day_of_reads.
    + eapply spans_fail; eauto using day_of_reads.
Qed.

Lemma daily_spans_witness :
  EVELevel2BClient._get_time_for_url
    {| map_ := ∅; _scrapper := SpecScraper.perpetual "" |} ["a"; "b"]
  = Some [mkTimeRange (datetime_ymd 1900 1 1) (datetime_ymd 1900 1 2);
          mkTimeRange (datetime_ymd 1900 1 1) (datetime_ymd 1900 1 2)].
Proof.
  apply (proj1 (proj2 (proj1
           (daily_spans
              (C := {| Scraper_new := SpecScraper.perpetual;
                       GenericClient_init := fun _ _ => inr ∅ |})
              {| map_ := ∅; _scrapper := SpecScraper.perpetual "" |}
              ["a"; "b"]) _))).
  repeat constructor;
    exists (datetime_ymd 1900 1 1), (datetime_ymd 1900 1 2);
    repeat split; reflexivity.
Defined.

(** X6.  [_get_time_for_url] of the hourly Level-2 client succeeds exactly
    when the date of every URL can be read and the hour after it exists;
    the result then has one span per URL, in the order of the URLs, which
    starts at the date read from the URL, ends one hour later and has its
    start before its end.  One URL whose date cannot be read fails the
    whole call. *)
Theorem hourly_spans (self : Client) (urls : list string) :
  (forall times : list TimeRange,
      EVELevel2Client._get_time_for_url self urls = Some times
      <-> Forall2 (Spans.hour_of (_scrapper self)) urls times)
  /\ (forall (scraper : Scraper) (times : list TimeRange),
         Forall2 (Spans.hour_of scraper) urls times ->
         length times = length urls
         /\ Forall (fun r => DT.ltb (start r) (end_ r) = true) times)
  /\ (forall url : string,
         In url urls ->
         _extractDateURL (_scrapper self) url = None ->
         EVELevel2Client._get_time_for_url self urls = None).
Proof.
  assert (H1 : forall times,
             EVELevel2Client._get_time_for_url self urls = Some times
             <-> Forall2 (Spans.hour_of (_scrapper self)) urls times).
  { intros times. apply (spans_spec _ _ add_hour_later). }
  split; [exact H1|split].
  - intros scraper times. apply spans_in_order, hour_of_in_order.
  - intros url Hin. eapply spans_fail; eauto using hour_of_reads.
Qed.

Lemma hourly_spans_witness :
  EVELevel2Client._get_time_for_url
    {| map_ := ∅;
       _scrapper :=
         {| pattern := "";
            filelist := fun _ => [];
            _extractDateURL := fun _ => Some (mkDatetime 2018 12 31 23 0 0 0) |} |}
    ["a"]
  = Some [mkTimeRange (mkDatetime 2018 12 31 23 0 0 0)
                      (mkDatetime 2019 1 1 0 0 0 0)].
Proof.
  apply (proj1 (hourly_spans _ ["a"])).
  repeat constructor.
  exists (mkDatetime 2018 12 31 23 0 0 0), (mkDatetime 2019 1 1 0 0 0 0).
  repeat split; reflexivity.
Defined.

Lemma next_day_exists (t : datetime) :
  year t < 9999 -> exists e, Timedelta.add_day t = Some e.
Proof.
  intros H. unfold Timedelta.add_day.
  destruct (day t <? DT.days_in_month (year t) (month t)); [eauto|].
  destruct (month t <? 12); [eauto|].
  destruct (Z.ltb_spec (year t) 9999); [eauto|lia].
Qed.

Lemma next_hour_exists (t : datetime) :
  year t < 9999 -> exists e, Timedelta.add_hour t = Some e.
Proof.
  intros H. unfold Timedelta.add_hour.
  destruct (hour t <? 23); [eauto|].
  destruct (next_day_exists t H) as (e & ->). cbn [mbind option_bind]. eauto.
Qed.

(** The span of the file that holds the rounded start. *)
Lemma covering_span (scraper : Scraper) (add : datetime -> option datetime)
    (floor : datetime -> datetime) (t : datetime) (url : string) :
  (forall a b, add a = Some b -> DT.ltb a b = true) ->
  (forall e, add (floor t) = Some e -> DT.ltb t e = true) ->
  DT.leb (floor t) t = true ->
  _extractDateURL scraper url = Some (floor t) ->
  (forall r,
      fold_left
        (fun times url =>
           ts ← times;
           t0 ← _extractDateURL scraper url;
           t1 ← add t0;
           Some (ts ++ [TR.of_datetimes t0 t1])%list)
        [url] (Some [])
      = Some [r] ->
      DT.leb (start r) t = true /\ DT.ltb t (end_ r) = true)
  /\ ((exists e, add (floor t) = Some e) ->
      exists r,
        fold_left
          (fun times url =>
             ts ← times;
             t0 ← _extractDateURL scraper url;
             t1 ← add t0;
             Some (ts ++ [TR.of_datetimes t0 t1])%list)
          [url] (Some [])
        = Some [r]).
Proof.
  intros Hadd Hend Hle Hurl. split.
  - intros r Hr. apply (spans_spec scraper add Hadd) in Hr.
    inversion Hr as [|? ? ? ? (t0 & t1 & H0 & H1 & ->) _]; subst.
    rewrite Hurl in H0. injection H0 as <-. simpl. auto.
  - intros (e & He). exists (mkTimeRange (floor t) e).
    apply (spans_spec scraper add Hadd). repeat constructor. eauto.
Qed.

(** X7.  Rounding and reconstruction fit together: for a valid requested
    range, when a URL is dated to the start of the normalised range, the
    span [_get_time_for_url] gives for that URL holds the start that was
    requested (span start <= requested start < span end); and such a span
    is given for every request before the year 9999.  This holds of the
    three daily clients and of the hourly client. *)
Theorem span_holds_requested_start {C : Collaborators} (self : Client)
    (timerange tr' : TimeRange) (url : string) :
  TR.valid timerange = true ->
  (EVEClient.normalized timerange = Some tr' ->
   _extractDateURL (Scraper_new EVEClient.BASEURL) url = Some (start tr') ->
   (forall r, EVEClient._get_time_for_url [url] = Some [r] ->
              DT.leb (start r) (start timerange) = true
              /\ DT.ltb (start timerange) (end_ r) = true)
   /\ (year (start timerange) < 9999 ->
       exists r, EVEClient._get_time_for_url [url] = Some [r]))
  /\ (EVELevel2BClient.normalized timerange = Some tr' ->
      _extractDateURL (_scrapper self) url = Some (start tr') ->
      (forall r, EVELevel2BClient._get_time_for_url self [url] = Some [r] ->
                 DT.leb (start r) (start timerange) = true
                 /\ DT.ltb (start timerange) (end_ r) = true)
      /\ (year (start timerange) < 9999 ->
          exists r, EVELevel2BClient._get_time_for_url self [url] = Some [r]))
  /\ (EVELevel3Client.normalized timerange = Some tr' ->
      _extractDateURL (_scrapper self) url = Some (start tr') ->
      (forall r, EVELevel3Client._get_time_for_url self [url] = Some [r] ->
                 DT.leb (start r) (start timerange) = true
                 /\ DT.ltb (start timerange) (end_ r) = true)
      /\ (year (start timerange) < 9999 ->
          exists r, EVELevel3Client._get_time_for_url self [url] = Some [r]))
  /\ (EVELevel2Client.normalized timerange = Some tr' ->
      _extractDateURL (_scrapper self) url = Some (start tr') ->
      (forall r, EVELevel2Client._get_time_for_url self [url] = Some [r] ->
                 DT.leb (start r) (start timerange) = true
                 /\ DT.ltb (start timerange) (end_ r) = true)
      /\ (year (start timerange) < 9999 ->
          exists r, EVELevel2Client._get_time_for_url self [url] = Some [r])).
Proof.
  intros Hv.
  pose proof (daily_some timerange tr' Hv) as Hd.
  pose proof (hourly_some timerange tr' Hv) as Hh.
  apply valid_range in Hv as (Hs & _ & _).
  assert (Day : forall scraper,
             _extractDateURL scraper url = Some (floor_day (start timerange)) ->
             (forall r,
                 fold_left
                   (fun times url =>
                      ts ← times;
                      t0 ← _extractDateURL scraper url;
                      t1 ← Timedelta.add_day t0;
                      Some (ts ++ [TR.of_datetimes t0 t1])%list)
                   [url] (Some [])
                 = Some [r] ->
                 DT.leb (start r) (start timerange) = true
                 /\ DT.ltb (start timerange) (end_ r) = true)
             /\ (year (start timerange) < 9999 ->
                 exists r,
                   fold_left
                     (fun times url =>
                        ts ← times;
                        t0 ← _extractDateURL scraper url;
                        t1 ← Timedelta.add_day t0;
                        Some (ts ++ [TR.of_datetimes t0 t1])%list)
                     [url] (Some [])
                   = Some [r])).
  { intros scraper Hu.
    destruct (covering_span scraper Timedelta.add_day floor_day
                (start timerange) url add_day_later
                (day_end_later (start timerange))
                (floor_day_le _ Hs) Hu) as [H1 H2].
    split; [exact H1|]. intros Hy. apply H2.
    apply (next_day_exists (floor_day (start timerange))). exact Hy. }
  assert (Hour : forall scraper,
             _extractDateURL scraper url = Some (floor_hour (start timerange)) ->
             (forall r,
                 fold_left
                   (fun times url =>
                      ts ← times;
                      t0 ← _extractDateURL scraper url;
                      t1 ← Timedelta.add_hour t0;
                      Some (ts ++ [TR.of_datetimes t0 t1])%list)
                   [url] (Some [])
                 = Some [r] ->
                 DT.leb (start r) (start timerange) = true
                 /\ DT.ltb (start timerange) (end_ r) = true)
             /\ (year (start timerange) < 9999 ->
                 exists r,
                   fold_left
                     (fun times url =>
                        ts ← times;
                        t0 ← _extractDateURL scraper url;
                        t1 ← Timedelta.add_hour t0;
                        Some (ts ++ [TR.of_datetimes t0 t1])%list)
                     [url] (Some [])
                   = Some [r])).
  { intros scraper Hu.
    destruct (covering_span scraper Timedelta.add_hour floor_hour
                (start timerange) url add_hour_later
                (hour_end_later (start timerange))
                (floor_hour_le _ Hs) Hu) as [H1 H2].
    split; [exact H1|]. intros Hy. apply H2.
    apply (next_hour_exists (floor_hour (start timerange))). exact Hy. }
  unfold EVEClient.normalized, EVELevel2BClient.normalized,
    EVELevel3Client.normalized, EVELevel2Client.normalized.
  split; [|split; [|split]]; intros Hn Hu;
    [apply Hd in Hn|apply Hd in Hn|apply Hd in Hn|apply Hh in Hn];
    rewrite Hn in Hu; cbn [start] in Hu.
  - apply (Day _ Hu).
  - apply (Day _ Hu).
  - apply (Day _ Hu).
  - apply (Hour _ Hu).
Qed.

Lemma span_holds_requested_start_witness :
  DT.leb (mkDatetime 2018 1 1 14 0 0 0) (mkDatetime 2018 1 1 14 30 15 0) = true
  /\ DT.ltb (mkDatetime 2018 1 1 14 30 15 0) (mkDatetime 2018 1 1 15 0 0 0)
     = true.
Proof.
  pose proof (span_holds_requested_start
                (C := {| Scraper_new := SpecScraper.perpetual;
                         GenericClient_init := fun _ _ => inr ∅ |})
                {| map_ := ∅;
                   _scrapper :=
                     {| pattern := "";
                        filelist := fun _ => [];
                        _extractDateURL :=
                          fun _ => Some (mkDatetime 2018 1 1 14 0 0 0) |} |}
                (mkTimeRange (mkDatetime 2018 1 1 14 30 15 0)
                             (mkDatetime 2018 1 1 16 0 0 0))
                (mkTimeRange (mkDatetime 2018 1 1 14 0 0 0)
                             (mkDatetime 2018 1 1 16 0 0 0))
                "u" eq_refl) as (_ & _ & _ & H).
  destruct (H eq_refl eq_refl) as [Hcov _].
  exact (Hcov (mkTimeRange (mkDatetime 2018 1 1 14 0 0 0)
                           (mkDatetime 2018 1 1 15 0 0 0)) eq_refl).
Defined.

(** X8.  The normalisation is idempotent and keeps ranges valid: for a
    valid range, normalising the normalised range gives it back unchanged,
    the normalised range is valid again, and the start the daily clients
    round to is not after the start the hourly client rounds to. *)
Theorem normalization_is_idempotent (timerange tr' : TimeRange) :
  TR.valid timerange = true ->
  (EVEClient.normalized timerange = Some tr' ->
   EVEClient.normalized tr' = Some tr' /\ TR.valid tr' = true)
  /\ (EVELevel2BClient.normalized timerange = Some tr' ->
      EVELevel2BClient.normalized tr' = Some tr' /\ TR.valid tr' = true)
  /\ (EVELevel3Client.normalized timerange = Some tr' ->
      EVELevel3Client.normalized tr' = Some tr' /\ TR.valid tr' = true)
  /\ (EVELevel2Client.normalized timerange = Some tr' ->
      EVELevel2Client.normalized tr' = Some tr' /\ TR.valid tr' = true)
  /\ DT.leb (floor_day (start timerange)) (floor_hour (start timerange)) = true.
Proof.
  intros Hv.
  pose proof (daily_some timerange tr' Hv) as Hd.
  pose proof (hourly_some timerange tr' Hv) as Hh.
  apply valid_range in Hv as (Hs & He & Hle).
  assert (Vd : TR.valid (mkTimeRange (floor_day (start timerange))
                                     (end_ timerange)) = true).
  { unfold TR.valid. cbn [start end_].
    rewrite (RoundTrip.valid_floor_day _ Hs), He. simpl.
    eapply DTFacts.leb_trans; [apply floor_day_le, Hs | exact Hle]. }
  assert (Vh : TR.valid (mkTimeRange (floor_hour (start timerange))
                                     (end_ timerange)) = true).
  { unfold TR.valid. cbn [start end_].
    rewrite (RoundTrip.valid_floor_hour _ Hs), He. simpl.
    eapply DTFacts.leb_trans; [apply floor_hour_le, Hs | exact Hle]. }
  unfold EVEClient.normalized, EVELevel2BClient.normalized,
    EVELevel3Client.normalized, EVELevel2Client.normalized.
  split; [|split; [|split; [|split]]];
    try (intros Hn; apply Hd in Hn; rewrite Hn;
         split; [reflexivity|assumption]).
  - intros Hn. apply Hh in Hn. rewrite Hn. split; [|assumption].
    unfold time_ne, floor_hour. cbn [start hour minute second microsecond].
    rewrite Z.eqb_refl. reflexivity.
  - apply RoundTrip.valid_bounds in Hs.
    destruct (start timerange) as [y m d h mi s us]. simpl in Hs.
    unfold DT.leb, DT.compare, floor_day, floor_hour, DT.fields. simpl.
    rewrite !Z.compare_refl.
    destruct h as [|?|?]; try reflexivity; lia.
Qed.

Lemma normalization_is_idempotent_witness :
  EVELevel2Client.normalized
    (mkTimeRange (mkDatetime 2018 1 1 14 0 0 0) (mkDatetime 2018 1 1 16 0 0 0))
  = Some (mkTimeRange (mkDatetime 2018 1 1 14 0 0 0)
                      (mkDatetime 2018 1 1 16 0 0 0)).
Proof.
  pose proof (normalization_is_idempotent
                (mkTimeRange (mkDatetime 2018 1 1 14 30 15 0)
                             (mkDatetime 2018 1 1 16 0 0 0))
                (mkTimeRange (mkDatetime 2018 1 1 14 0 0 0)
                             (mkDatetime 2018 1 1 16 0 0 0))
                eq_refl) as (_ & _ & _ & H & _).
  exact (proj1 (H eq_refl)).
Defined.

End Reconstruction.

(** ** [_makeimap] *)

Module MakeimapFacts.

Lemma entries_over (level : string) (m : gmap string string) :
  <[ "level" := level ]>
  (<[ "physobs" := "irradiance" ]>
  (<[ "instrument" := "eve" ]>
  (<[ "provider" := "LASP" ]>
  (<[ "source" := "SDO" ]> m))))
  = Imap.entries level ∪ m.
Proof.
  unfold Imap.entries.
  rewrite <- !insert_union_l, (left_id_L ∅ (∪)). reflexivity.
Qed.

Lemma entries_twice (level : string) (m : gmap string string) :
  Imap.entries level ∪ (Imap.entries level ∪ m) = Imap.entries level ∪ m.
Proof. rewrite (assoc_L (∪)), (idemp_L (∪)). reflexivity. Qed.

(** X9.  [_makeimap] of each of the five clients leaves [map_] with the
    five entries source SDO, provider LASP, instrument eve, physobs
    irradiance and the level of the client, whatever [map_] held under
    those keys, and with every other key as it was; a second call changes
    nothing, and the level entries of the five clients are all
    different. *)
Theorem makeimap_entries (map_ : gmap string string) :
  (EVEClient._makeimap map_ = Imap.entries "L0CS" ∪ map_
   /\ EVELevel2BClient._makeimap map_ = Imap.entries "L2B" ∪ map_
   /\ EVELevel2Client._makeimap map_ = Imap.entries "L2" ∪ map_
   /\ EVELevel3Client._makeimap map_ = Imap.entries "L3" ∪ map_
   /\ EVELevel3MergedClient._makeimap map_ = Imap.entries "L3Merged" ∪ map_)
  /\ (EVEClient._makeimap (EVEClient._makeimap map_)
      = EVEClient._makeimap map_
      /\ EVELevel2BClient._makeimap (EVELevel2BClient._makeimap map_)
         = EVELevel2BClient._makeimap map_
      /\ EVELevel2Client._makeimap (EVELevel2Client._makeimap map_)
         = EVELevel2Client._makeimap map_
      /\ EVELevel3Client._makeimap (EVELevel3Client._makeimap map_)
         = EVELevel3Client._makeimap map_
      /\ EVELevel3MergedClient._makeimap (EVELevel3MergedClient._makeimap map_)
         = EVELevel3MergedClient._makeimap map_)
  /\ (forall key : string,
         key <> "source" -> key <> "provider" -> key <> "instrument" ->
         key <> "physobs" -> key <> "level" ->
         EVEClient._makeimap map_ !! key = map_ !! key
         /\ EVELevel2BClient._makeimap map_ !! key = map_ !! key
         /\ EVELevel2Client._makeimap map_ !! key = map_ !! key
         /\ EVELevel3Client._makeimap map_ !! key = map_ !! key
         /\ EVELevel3MergedClient._makeimap map_ !! key = map_ !! key)
  /\ NoDup [EVEClient._makeimap map_ !! "level";
            EVELevel2BClient._makeimap map_ !! "level";
            EVELevel2Client._makeimap map_ !! "level";
            EVELevel3Client._makeimap map_ !! "level";
            EVELevel3MergedClient._makeimap map_ !! "level"].
Proof.
  assert (E : forall m,
             EVEClient._makeimap m = Imap.entries "L0CS" ∪ m
             /\ EVELevel2BClient._makeimap m = Imap.entries "L2B" ∪ m
             /\ EVELevel2Client._makeimap m = Imap.entries "L2" ∪ m
             /\ EVELevel3Client._makeimap m = Imap.entries "L3" ∪ m
             /\ EVELevel3MergedClient._makeimap m = Imap.entries "L3Merged" ∪ m).
  { intros m. repeat split; apply entries_over. }
  split; [apply E|split; [|split]].
  - destruct (E map_) as (E0 & E1 & E2 & E3 & E4).
    destruct (E (EVEClient._makeimap map_)) as (F0 & _).
    destruct (E (EVELevel2BClient._makeimap map_)) as (_ & F1 & _).
    destruct (E (EVELevel2Client._makeimap map_)) as (_ & _ & F2 & _).
    destruct (E (EVELevel3Client._makeimap map_)) as (_ & _ & _ & F3 & _).
    destruct (E (EVELevel3MergedClient._makeimap map_)) as (_ & _ & _ & _ & F4).
    rewrite F0, F1, F2, F3, F4, E0, E1, E2, E3, E4, !entries_twice.
    repeat split; reflexivity.
  - intros key H1 H2 H3 H4 H5.
    unfold EVEClient._makeimap, EVELevel2BClient._makeimap,
      EVELevel2Client._makeimap, EVELevel3Client._makeimap,
      EVELevel3MergedClient._makeimap, _BaseEVEClient._makeimap.
    rewrite !lookup_insert_ne by congruence. repeat split; reflexivity.
  - unfold EVEClient._makeimap, EVELevel2BClient._makeimap,
      EVELevel2Client._makeimap, EVELevel3Client._makeimap,
      EVELevel3MergedClient._makeimap.
    rewrite !lookup_insert_eq.
    repeat (constructor; [rewrite ?elem_of_cons, elem_of_nil; intuition discriminate|]).
    constructor.
Qed.

Lemma makeimap_entries_witness :
  EVELevel2BClient._makeimap {[ "wavelength" := "nan" ]} !! "wavelength"
  = Some "nan".
Proof.
  pose proof (makeimap_entries {[ "wavelength" := "nan" ]})
    as (_ & _ & H & _).
  refine (eq_trans (proj1 (proj2 (H "wavelength" _ _ _ _ _))) _);
    [discriminate .. | reflexivity].
Defined.

End MakeimapFacts.

(** ** Further properties of [is_datasource_for] *)

Module DataSourceFacts.

Import Re.

Lemma lower_empty (s : string) : PyStr.lower s = "" <-> s = "".
Proof. destruct s; simpl; split; intros H; congruence. Qed.

Lemma truthy_lower (s s' : string) :
  PyStr.lower s = PyStr.lower s' -> truthy (VStr s) = truthy (VStr s').
Proof.
  intros H. destruct s as [|c s], s' as [|c' s']; try reflexivity;
    discriminate.
Qed.

Lemma at_eol_same (s s' : string) :
  PyStr.lower s = PyStr.lower s' -> at_eol s = at_eol s'.
Proof. intros H. rewrite !ReFacts.at_eol_lower, H. reflexivity. Qed.

(** With [re.I] a match looks at the lower case of the text only. *)
Lemma match_here_lower (re : list node) (pos : nat) (s s' : string) :
  PyStr.lower s = PyStr.lower s' ->
  match_here true re pos s = match_here true re pos s'.
Proof.
  revert pos s s'.
  induction re as [|n re IH]; intros pos s s' H; [reflexivity|].
  destruct n as [| |a|a]; cbn [match_here].
  - destruct (Nat.eqb pos 0); [apply IH, H|reflexivity].
  - rewrite (at_eol_same s s' H). destruct (at_eol s'); [apply IH, H|reflexivity].
  - destruct s as [|c s], s' as [|c' s']; try discriminate; [reflexivity|].
    cbn [PyStr.lower] in H. injection H as Hc Hs.
    assert (E : atom_matches true a c = atom_matches true a c').
    { destruct a; cbn [atom_matches char_eq]; rewrite Hc; reflexivity. }
    rewrite E. destruct (atom_matches true a c'); [apply IH, Hs|reflexivity].
  - destruct s as [|c s], s' as [|c' s']; try discriminate.
    + apply IH. reflexivity.
    + pose proof H as H'. cbn [PyStr.lower] in H'. injection H' as Hc Hs.
      assert (E : atom_matches true a c = atom_matches true a c').
      { destruct a; cbn [atom_matches char_eq]; rewrite Hc; reflexivity. }
      rewrite E, (IH (S pos) s s' Hs), (IH pos _ _ H). reflexivity.
Qed.

(** X10.  No keyword arguments are taken by both time series classes:
    where [EVESpWxTimeSeries.is_datasource_for] returns [True],
    [EVEScanTimeSeries.is_datasource_for] returns [None], and where the
    latter returns a match the former returns [False]. *)
Theorem sources_do_not_overlap (kwargs : gmap string PyValue) :
  (EVESpWxTimeSeries.is_datasource_for kwargs = inr (RBool true) ->
   EVEScanTimeSeries.is_datasource_for kwargs = inr RNone)
  /\ (forall e : nat,
         EVEScanTimeSeries.is_datasource_for kwargs = inr (RMatch e) ->
         EVESpWxTimeSeries.is_datasource_for kwargs = inr (RBool false)).
Proof.
  unfold EVESpWxTimeSeries.is_datasource_for,
    EVEScanTimeSeries.is_datasource_for, kwargs_get, default.
  destruct (kwargs !! "source") as [[n|s]|]; cbn [from_option id].
  - destruct (truthy (VInt n)); split; intros; discriminate.
  - destruct (truthy (VStr s)); [|split; intros; discriminate].
    pose proof (ReFacts.source_pattern_texts s) as Hm.
    unfold SourceNames.accepted in Hm.
    destruct (String.eqb_spec (PyStr.lower s) EVESpWxTimeSeries._source)
      as [E|E].
    + rewrite E in Hm.
      destruct (match_ EVEScanTimeSeries.source_pattern s true);
        [discriminate Hm|].
      split; [reflexivity | intros; discriminate].
    + split; [intros; discriminate | reflexivity].
  - split; intros; discriminate.
Qed.

Lemma sources_do_not_overlap_witness :
  EVEScanTimeSeries.is_datasource_for {[ "source" := VStr "EVE" ]} = inr RNone
  /\ EVESpWxTimeSeries.is_datasource_for {[ "source" := VStr "eve_l2b" ]}
     = inr (RBool false).
Proof.
  split.
  - apply (proj1 (sources_do_not_overlap {[ "source" := VStr "EVE" ]})).
    reflexivity.
  - apply (proj2 (sources_do_not_overlap {[ "source" := VStr "eve_l2b" ]}) 7%nat).
    reflexivity.
Defined.

(** X11.  Both [is_datasource_for] methods disregard the case of the
    source: two source texts with the same lower case get the same answer,
    whatever the other keyword arguments are. *)
Theorem is_datasource_for_ignores_case (kwargs : gmap string PyValue)
    (s s' : string) :
  PyStr.lower s = PyStr.lower s' ->
  EVESpWxTimeSeries.is_datasource_for (<[ "source" := VStr s ]> kwargs)
  = EVESpWxTimeSeries.is_datasource_for (<[ "source" := VStr s' ]> kwargs)
  /\ EVEScanTimeSeries.is_datasource_for (<[ "source" := VStr s ]> kwargs)
     = EVEScanTimeSeries.is_datasource_for (<[ "source" := VStr s' ]> kwargs).
Proof.
  intros H.
  unfold EVESpWxTimeSeries.is_datasource_for,
    EVEScanTimeSeries.is_datasource_for, kwargs_get, default.
  rewrite !lookup_insert_eq. cbn [from_option id].
  rewrite (truthy_lower s s' H), H.
  unfold match_. rewrite (match_here_lower _ 0 s s' H).
  split; reflexivity.
Qed.

Lemma is_datasource_for_ignores_case_witness :
  EVEScanTimeSeries.is_datasource_for (<[ "source" := VStr "EVE_L2B" ]> ∅)
  = EVEScanTimeSeries.is_datasource_for (<[ "source" := VStr "eve_l2b" ]> ∅).
Proof.
  exact (proj2 (is_datasource_for_ignores_case ∅ "EVE_L2B" "eve_l2b" eq_refl)).
Defined.

End DataSourceFacts.

(** ** Python string operations *)

Module PyStrFacts.

Import PyStr.

Lemma prefix_chars (p s : string) (c : ascii) :
  String.prefix p s = true -> In c (list_ascii_of_string p) -> In c (list_ascii_of_string s).
Proof.
  revert s. induction p as [|a p IH]; intros [|b s]; simpl;
    try discriminate; try tauto.
  destruct (Ascii.ascii_dec a b) as [->|]; [|discriminate].
  intros H [->|Hin]; [left; reflexivity | right; apply IH; assumption].
Qed.

Lemma contains_chars (sub s : string) (c : ascii) :
  contains sub s = true -> In c (list_ascii_of_string sub) -> In c (list_ascii_of_string s).
Proof.
  induction s as [|b s IH]; cbn [contains]; rewrite orb_true_iff.
  - intros [H|H]; [apply prefix_chars, H | discriminate].
  - intros [H|H] Hin; [eapply prefix_chars; eassumption|].
    simpl. right. apply IH; assumption.
Qed.

Lemma split_first (sep : ascii) (s : string) :
  exists k, split sep s !! 0%nat = Some k.
Proof.
  destruct s as [|c s]; cbn [split]; [eauto|].
  destruct (Ascii.eqb c sep); [eauto|].
  destruct (split sep s); eauto.
Qed.

Lemma split1_first (sep : ascii) (s : string) :
  exists k, split1 sep s !! 0%nat = Some k.
Proof.
  destruct s as [|c s]; cbn [split1]; [eauto|].
  destruct (Ascii.eqb c sep); [eauto|].
  destruct (split1 sep s); eauto.
Qed.

Lemma split_second (sep : ascii) (s : string) :
  In sep (list_ascii_of_string s) -> exists v, split sep s !! 1%nat = Some v.
Proof.
  induction s as [|c s IH]; [intros []|]. cbn [split].
  destruct (Ascii.eqb_spec c sep) as [->|Hne].
  - intros _. destruct (split_first sep s) as (k & Hk).
    exists k. exact Hk.
  - intros [H|H]; [contradiction|]. destruct (IH H) as (v & Hv).
    destruct (split sep s) as [|piece pieces]; [discriminate|].
    exists v. exact Hv.
Qed.

Lemma split1_second (sep : ascii) (s : string) :
  (exists v, split1 sep s !! 1%nat = Some v) <-> In sep (list_ascii_of_string s).
Proof.
  induction s as [|c s IH]; cbn [split1].
  - split; [intros (v & H); discriminate | intros []].
  - destruct (Ascii.eqb_spec c sep) as [->|Hne].
    + split; [intros _; left; reflexivity | intros _; eauto].
    + split.
      * intros (v & Hv). right. apply IH.
        destruct (split1 sep s) as [|piece pieces]; [discriminate|eauto].
      * intros [H|H]; [contradiction|]. apply IH in H as (v & Hv).
        destruct (split1 sep s) as [|piece pieces]; [discriminate|eauto].
Qed.

Lemma replace_char_gone (a b : ascii) (s : string) :
  a <> b -> ~ In a (list_ascii_of_string (replace_char a b s)).
Proof.
  intros Hab. induction s as [|c s IH]; simpl; [tauto|].
  intros [H|H]; [|exact (IH H)].
  destruct (Ascii.eqb_spec c a); congruence.
Qed.

Lemma lstrip_chars (s : string) (c : ascii) :
  In c (list_ascii_of_string (lstrip s)) -> In c (list_ascii_of_string s).
Proof.
  induction s as [|b s IH]; cbn [lstrip]; [tauto|].
  destruct (is_space b); [intros H; right; apply IH, H | tauto].
Qed.

Lemma rstrip_chars (s : string) (c : ascii) :
  In c (list_ascii_of_string (rstrip s)) -> In c (list_ascii_of_string s).
Proof.
  induction s as [|b s IH]; cbn [rstrip]; [tauto|].
  destruct (rstrip s) as [|d r].
  - destruct (is_space b); simpl; tauto.
  - simpl in *. tauto.
Qed.

Lemma strip_chars (s : string) (c : ascii) :
  In c (list_ascii_of_string (strip s)) -> In c (list_ascii_of_string s).
Proof. intros H. apply rstrip_chars, lstrip_chars, H. Qed.

Lemma lstrip_idem (s : string) : lstrip (lstrip s) = lstrip s.
Proof.
  induction s as [|b s IH]; cbn [lstrip]; [reflexivity|].
  destruct (is_space b) eqn:E; [exact IH|]. cbn [lstrip]. rewrite E.
  reflexivity.
Qed.

Lemma rstrip_idem (s : string) : rstrip (rstrip s) = rstrip s.
Proof.
  induction s as [|b s IH]; cbn [rstrip]; [reflexivity|].
  destruct (rstrip s) as [|d r] eqn:Er.
  - destruct (is_space b) eqn:E; cbn [rstrip]; [reflexivity|].
    rewrite E. reflexivity.
  - change (rstrip (String b (String d r))) with
      (match rstrip (String d r) with
       | EmptyString => if is_space b then EmptyString else String b EmptyString
       | String x y => String b (String x y)
       end).
    rewrite IH. reflexivity.
Qed.

(** Dropping leading blanks does not uncover trailing ones. *)
Lemma rstrip_lstrip (r : string) : rstrip r = r -> rstrip (lstrip r) = lstrip r.
Proof.
  induction r as [|c r IH]; [reflexivity|]. intros H. cbn [lstrip].
  destruct (is_space c) eqn:E; [|exact H].
  apply IH. cbn [rstrip] in H. rewrite E in H.
  destruct (rstrip r) as [|d x]; [discriminate|]. congruence.
Qed.

Lemma strip_idem (s : string) : strip (strip s) = strip s.
Proof.
  unfold strip.
  rewrite (rstrip_lstrip (rstrip s) (rstrip_idem s)). apply lstrip_idem.
Qed.

End PyStrFacts.

(** ** The header of a level 0CS file *)

Module HeaderFacts.

Import EVESpWxTimeSeries PyStrFacts.

Lemma missing_has_value (l : string) :
  PyStr.contains "; Missing data:" l = true ->
  exists v, PyStr.split ":" l !! 1%nat = Some v.
Proof.
  intros H. apply split_second. apply (contains_chars _ _ _ H).
  simpl. repeat (first [left; reflexivity | right]).
Qed.

(** What the first loop has done when it stops, from any state in which
    [fp_rest] is the rest of the file. *)
Lemma header_loop_spec (fp : list string) (st : HeaderRead) :
  fp_rest st = fp ->
  exists (h : HeaderRead) (taken : list string),
    header_loop fp st = Some h
    /\ header h = (header st ++ taken)%list
    /\ Forall (fun l => PyStr.startswith l ";" = true) taken
    /\ PyStr.startswith (line h) ";" = false
    /\ (line st :: fp = (taken ++ line h :: fp_rest h)%list
        \/ (line st :: fp = taken /\ line h = "" /\ fp_rest h = []))
    /\ is_missing_data h
       = is_missing_data st
         || existsb (PyStr.contains "; Missing data:") taken
    /\ (if existsb (PyStr.contains "; Missing data:") taken
        then exists l v,
            In l taken /\ PyStr.contains "; Missing data:" l = true
            /\ PyStr.split ":" l !! 1%nat = Some v
            /\ missing_data_val h = Some (PyStr.strip v)
        else missing_data_val h = missing_data_val st).
Proof.
  revert st. induction fp as [|l fp IH]; intros st Hfp; cbn [header_loop];
    destruct (PyStr.startswith (line st) ";") eqn:Es;
    try (exists st, []; rewrite app_nil_r, orb_false_r; cbn [existsb app];
         rewrite Hfp; repeat split; auto; fail).
  - (* the last line of the file is a header line *)
    destruct (PyStr.contains "; Missing data:" (line st)) eqn:Em.
    + destruct (missing_has_value _ Em) as (v & Hv). rewrite Hv.
      cbn [mbind option_bind fst snd].
      exists (mkHeaderRead true (Some (PyStr.strip v))
                (header st ++ [line st]) "" []), [line st].
      cbn [header line fp_rest is_missing_data missing_data_val existsb].
      rewrite Em. cbn [orb].
      split; [reflexivity|]. split; [reflexivity|].
      split; [repeat constructor; exact Es|]. split; [reflexivity|].
      split; [right; auto|]. split; [rewrite orb_true_r; reflexivity|].
      exists (line st), v. simpl. auto.
    + cbn [mbind option_bind fst snd].
      exists (mkHeaderRead (is_missing_data st) (missing_data_val st)
                (header st ++ [line st]) "" []), [line st].
      cbn [header line fp_rest is_missing_data missing_data_val existsb].
      rewrite Em. cbn [orb].
      split; [reflexivity|]. split; [reflexivity|].
      split; [repeat constructor; exact Es|]. split; [reflexivity|].
      split; [right; auto|]. split; [rewrite orb_false_r; reflexivity|].
      reflexivity.
  - (* a header line followed by the line [l] *)
    destruct (PyStr.contains "; Missing data:" (line st)) eqn:Em.
    + destruct (missing_has_value _ Em) as (v & Hv). rewrite Hv.
      cbn [mbind option_bind fst snd].
      destruct (IH (mkHeaderRead true (Some (PyStr.strip v))
                      (header st ++ [line st]) l fp) eq_refl)
        as (h & taken & Hh & Hhd & Hall & Hline & Hsplit & Hflag & Hval).
      cbn [header line fp_rest is_missing_data missing_data_val] in *.
      exists h, (line st :: taken). cbn [existsb]. rewrite Em. cbn [orb].
      split; [exact Hh|]. split; [rewrite Hhd, <- app_assoc; reflexivity|].
      split; [constructor; assumption|]. split; [exact Hline|].
      split.
      { destruct Hsplit as [->|(-> & H1 & H2)]; [left; reflexivity|].
        right. auto. }
      split; [rewrite Hflag, orb_true_r; reflexivity|].
      destruct (existsb _ taken).
      * destruct Hval as (l' & v' & Hin & H'). exists l', v'.
        split; [right; exact Hin | exact H'].
      * exists (line st), v. split; [left; reflexivity | auto].
    + cbn [mbind option_bind fst snd].
      destruct (IH (mkHeaderRead (is_missing_data st) (missing_data_val st)
                      (header st ++ [line st]) l fp) eq_refl)
        as (h & taken & Hh & Hhd & Hall & Hline & Hsplit & Hflag & Hval).
      cbn [header line fp_rest is_missing_data missing_data_val] in *.
      exists h, (line st :: taken). cbn [existsb]. rewrite Em. cbn [orb].
      split; [exact Hh|]. split; [rewrite Hhd, <- app_assoc; reflexivity|].
      split; [constructor; assumption|]. split; [exact Hline|].
      split.
      { destruct Hsplit as [->|(-> & H1 & H2)]; [left; reflexivity|].
        right. auto. }
      split; [exact Hflag|].
      destruct (existsb _ taken).
      * destruct Hval as (l' & v' & Hin & H'). exists l', v'.
        split; [right; exact Hin | exact H'].
      * exact Hval.
Qed.

Lemma starts_date_not_comment (l : string) :
  PyStr.startswith l "Date" = true -> PyStr.startswith l ";" = false.
Proof.
  unfold PyStr.startswith. destruct l as [|c l]; [discriminate|].
  cbn [String.prefix].
  destruct (Ascii.ascii_dec "D" c) as [<-|]; [|discriminate].
  intros _. reflexivity.
Qed.

(** X12.  The first loop of [_parse_level_0cs] never raises and reads
    exactly the leading block of lines that start with ";": the header is
    that block, the line it stops at does not start with ";" (it is the
    empty text when the file ends with the header), nothing of the file
    is lost, and the missing-data flag is set exactly when a header line
    holds "; Missing data:", the value being the stripped text between
    the first and the second colon of such a line. *)
Theorem header_is_the_leading_comment_block (fp : list string) :
  exists h : HeaderRead,
    read_header fp = Some h
    /\ Forall (fun l => PyStr.startswith l ";" = true) (header h)
    /\ PyStr.startswith (line h) ";" = false
    /\ (fp = (header h ++ line h :: fp_rest h)%list
        \/ (fp = header h /\ line h = "" /\ fp_rest h = []))
    /\ is_missing_data h
       = existsb (PyStr.contains "; Missing data:") (header h)
    /\ (if is_missing_data h
        then exists l v,
            In l (header h) /\ PyStr.contains "; Missing data:" l = true
            /\ PyStr.split ":" l !! 1%nat = Some v
            /\ missing_data_val h = Some (PyStr.strip v)
        else missing_data_val h = None).
Proof.
  destruct fp as [|l fp].
  - exists (mkHeaderRead false None [] "" []). cbn.
    repeat split; auto.
  - unfold read_header, readline.
    destruct (header_loop_spec fp (mkHeaderRead false None [] l fp) eq_refl)
      as (h & taken & Hh & Hhd & Hall & Hline & Hsplit & Hflag & Hval).
    cbn [header line fp_rest is_missing_data missing_data_val app orb] in *.
    exists h. rewrite Hhd, Hflag.
    repeat (split; [assumption|]). split; [reflexivity|].
    destruct (existsb _ taken); exact Hval.
Qed.

(** X13.  [_parse_file] looks at the first line only, and its choice
    agrees with what the header loop would read: the file goes to
    [_parse_level_0cs] exactly when the header read from it is not empty;
    otherwise it goes to [_parse_average_csv] when its first line starts
    with "Date", and else [_parse_file] returns [None] - as it does for
    an empty file. *)
Theorem parse_file_dispatch (fp : list string) :
  exists h : HeaderRead,
    read_header fp = Some h
    /\ _parse_file fp
       = match header h with
         | _ :: _ => ParseLevel0cs
         | [] => if PyStr.startswith (line h) "Date" then ParseAverageCsv
                 else ParseNothing
         end.
Proof.
  destruct fp as [|l fp].
  - exists (mkHeaderRead false None [] "" []). split; reflexivity.
  - unfold _parse_file, read_header, readline. cbn [fst].
    destruct (header_loop_spec fp (mkHeaderRead false None [] l fp) eq_refl)
      as (h & taken & Hh & Hhd & Hall & Hline & Hsplit & _).
    cbn [header line fp_rest app] in *.
    exists h. split; [exact Hh|]. rewrite Hhd.
    destruct taken as [|t taken].
    + destruct Hsplit as [H|(H & _)]; [|discriminate].
      injection H as -> _. rewrite Hline.
      destruct (PyStr.startswith (line h) "Date"); reflexivity.
    + assert (Ht : t = l).
      { destruct Hsplit as [H|(H & _)]; injection H; auto. }
      subst t. inversion Hall as [|? ? Hl _]; subst.
      destruct (PyStr.startswith l "Date") eqn:Ed.
      * rewrite (starts_date_not_comment l Ed) in Hl. discriminate.
      * rewrite Hl. reflexivity.
Qed.

Lemma contains_single (c : ascii) (s : string) :
  PyStr.contains (String c "") s = true <-> In c (list_ascii_of_string s).
Proof.
  induction s as [|b s IH]; cbn [PyStr.contains String.prefix].
  - split; [discriminate | intros []].
  - simpl. rewrite orb_true_iff, IH.
    destruct (Ascii.ascii_dec c b) as [->|Hne].
    + destruct s; tauto.
    + split; [intros [H|H]; [discriminate|auto] | intros [H|H]; [congruence|auto]].
Qed.

Lemma clean_name (k : string) :
  Level0cs.clean (PyStr.strip (PyStr.replace_char ";" " " k)).
Proof.
  split; [apply strip_idem|].
  intros H. apply strip_chars in H.
  apply replace_char_gone in H; [exact H | discriminate].
Qed.

Lemma meta_entry_none (hline : string) :
  meta_entry hline = None <-> Level0cs.colonless hline = true.
Proof.
  unfold meta_entry, Level0cs.colonless.
  destruct (String.eqb hline ("; Format:" ++ nl)); [split; discriminate|].
  destruct (String.eqb hline ("; Column descriptions:" ++ nl));
    [split; discriminate|].
  cbn [orb negb andb].
  destruct (PyStr.contains "Created" hline || PyStr.contains "Source" hline).
  - cbn [andb]. destruct (split1_first ":" hline) as (k & ->).
    destruct (PyStr.contains ":" hline) eqn:Ec.
    + apply contains_single, split1_second in Ec as (v & ->).
      split; discriminate.
    + destruct (PyStr.split1 ":" hline !! 1%nat) as [v|] eqn:Ev.
      * assert (H : PyStr.contains ":" hline = true)
          by (apply contains_single, split1_second; eauto).
        congruence.
      * split; reflexivity.
  - cbn [andb]. destruct (PyStr.contains ":" hline) eqn:Ec;
      [|split; discriminate].
    apply contains_single, split_second in Ec as (v & ->).
    destruct (split_first ":" hline) as (k & ->). split; discriminate.
Qed.

Lemma meta_entry_clean (hline k v : string) :
  meta_entry hline = Some (Some (k, v)) ->
  Level0cs.clean k /\ PyStr.strip v = v.
Proof.
  unfold meta_entry.
  destruct (_ || _); [discriminate|].
  destruct (_ || _).
  - destruct (PyStr.split1 ":" hline !! 1%nat) as [v0|]; [|discriminate].
    destruct (PyStr.split1 ":" hline !! 0%nat) as [k0|]; [|discriminate].
    intros H. injection H as <- <-. split; [apply clean_name|apply strip_idem].
  - destruct (PyStr.contains ":" hline); [|discriminate].
    destruct (PyStr.split ":" hline !! 1%nat) as [v0|]; [|discriminate].
    destruct (PyStr.split ":" hline !! 0%nat) as [k0|]; [|discriminate].
    intros H. injection H as <- <-. split; [apply clean_name|apply strip_idem].
Qed.

Lemma meta_loop_none (header : list string) :
  fold_left
    (fun meta hline =>
       m ← meta;
       e ← meta_entry hline;
       Some (match e with
             | Some kv => (m ++ [kv])%list
             | None => m
             end))
    header None
  = None.
Proof. induction header as [|hl header IH]; [reflexivity|exact IH]. Qed.

Lemma meta_loop_spec (header : list string) (acc : list (string * string)) :
  match
    fold_left
      (fun meta hline =>
         m ← meta;
         e ← meta_entry hline;
         Some (match e with
               | Some kv => (m ++ [kv])%list
               | None => m
               end))
      header (Some acc)
  with
  | None => existsb Level0cs.colonless header = true
  | Some meta =>
      existsb Level0cs.colonless header = false
      /\ (length meta <= length acc + length header)%nat
      /\ (Forall (fun kv => Level0cs.clean (fst kv)
                            /\ PyStr.strip (snd kv) = snd kv) acc ->
          Forall (fun kv => Level0cs.clean (fst kv)
                            /\ PyStr.strip (snd kv) = snd kv) meta)
  end.
Proof.
  revert acc. induction header as [|hl header IH]; intros acc;
    cbn [fold_left existsb length].
  - split; [reflexivity|]. split; [lia|auto].
  - cbn [mbind option_bind].
    destruct (meta_entry hl) as [e|] eqn:E; cbn [mbind option_bind].
    + assert (Hc : Level0cs.colonless hl = false).
      { destruct (Level0cs.colonless hl) eqn:Hc; [|reflexivity].
        apply meta_entry_none in Hc. congruence. }
      rewrite Hc. cbn [orb].
      specialize (IH (match e with
                      | Some kv => (acc ++ [kv])%list
                      | None => acc
                      end)).
      destruct (fold_left _ header _) as [meta|]; [|exact IH].
      destruct IH as (H1 & H2 & H3). split; [exact H1|]. split.
      * destruct e; [rewrite length_app in H2; simpl in H2|]; lia.
      * intros Hacc. apply H3. destruct e as [[k v]|]; [|exact Hacc].
        apply Forall_app. split; [exact Hacc|].
        constructor; [|constructor]. apply (meta_entry_clean hl k v E).
    + rewrite meta_loop_none. apply meta_entry_none in E. rewrite E.
      reflexivity.
Qed.

(** X14.  The loop that fills [meta] raises exactly when a header line
    that is not a section title mentions Created or Source without
    holding a colon.  When it does not raise it makes at most one
    assignment per header line, every key it assigns is stripped and free
    of semicolons, and every value is stripped. *)
Theorem meta_raises_on_colonless_line (header : list string) :
  (header_meta header = None <-> existsb Level0cs.colonless header = true)
  /\ (forall meta : list (string * string),
         header_meta header = Some meta ->
         (length meta <= length header)%nat
         /\ Forall (fun kv => Level0cs.clean (fst kv)
                              /\ PyStr.strip (snd kv) = snd kv) meta).
Proof.
  unfold header_meta. pose proof (meta_loop_spec header []) as H.
  destruct (fold_left _ header (Some [])) as [meta|].
  - destruct H as (H1 & H2 & H3). split.
    + rewrite H1. split; discriminate.
    + intros meta' Hm. injection Hm as <-. split; [exact H2|].
      apply H3. constructor.
  - split; [tauto|]. intros meta Hm. discriminate.
Qed.

Lemma meta_raises_on_colonless_line_witness :
  header_meta ["; Source data" ++ nl] = None
  /\ Forall (fun kv => Level0cs.clean (fst kv) /\ PyStr.strip (snd kv) = snd kv)
       [("Missing data", "-1.00e+00")].
Proof.
  split.
  - apply (proj1 (meta_raises_on_colonless_line _)). reflexivity.
  - apply (proj2 (meta_raises_on_colonless_line
                    ["; Missing data: -1.00e+00" ++ nl])).
    reflexivity.
Defined.

Lemma fields_step_spec (b : bool) (fs : list string) (hline : string) :
  fields_step (b, fs) hline
  = Some (if Level0cs.opens_columns hline then true
          else if Level0cs.opens_format hline then false else b,
          if (if Level0cs.opens_format hline then false else b)
          then (fs ++ [Level0cs.name_of hline])%list else fs).
Proof.
  unfold fields_step, Level0cs.opens_columns, Level0cs.opens_format,
    Level0cs.name_of.
  destruct (split_first ":" hline) as (k & Hk). rewrite Hk.
  assert (Hhd : hd "" (PyStr.split ":" hline) = k).
  { destruct (PyStr.split ":" hline); [discriminate|].
    injection Hk as ->. reflexivity. }
  rewrite Hhd.
  destruct (PyStr.startswith hline "; Format:"), b; reflexivity.
Qed.

Lemma format_not_columns (hline : string) :
  Level0cs.opens_format hline = true -> Level0cs.opens_columns hline = false.
Proof.
  unfold Level0cs.opens_format, Level0cs.opens_columns, PyStr.startswith.
  intros H.
  destruct hline as [|a [|b [|c hline]]]; cbn [String.prefix] in *;
    try discriminate H;
    repeat match goal with
           | H : context [Ascii.ascii_dec ?x ?y] |- _ =>
               destruct (Ascii.ascii_dec x y);
               [subst|discriminate H]
           end;
    try discriminate H;
    repeat match goal with
           | |- context [Ascii.ascii_dec ?x ?y] =>
               let E := fresh "E" in
               destruct (Ascii.ascii_dec x y) as [E|E];
               [try discriminate E|try reflexivity]
           end; try reflexivity.
Qed.

(** The loop over the column names, from any state. *)
Lemma fields_loop_spec (header : list string) (b : bool) (fs : list string) :
  exists (b' : bool) (fs' : list string),
    fold_left (fun st hline => s ← st; fields_step s hline)
      header (Some (b, fs))
    = Some (b', fs')
    /\ (length fs' <= length fs + length header)%nat
    /\ (Forall Level0cs.clean fs -> Forall Level0cs.clean fs')
    /\ (b = false -> existsb Level0cs.opens_columns header = false ->
        b' = false /\ fs' = fs).
Proof.
  revert b fs. induction header as [|hl header IH]; intros b fs;
    cbn [fold_left existsb length].
  - exists b, fs. repeat split; auto. lia.
  - cbn [mbind option_bind]. rewrite fields_step_spec.
    destruct (IH (if Level0cs.opens_columns hl then true
                  else if Level0cs.opens_format hl then false else b)
                 (if (if Level0cs.opens_format hl then false else b)
                  then (fs ++ [Level0cs.name_of hl])%list else fs))
      as (b' & fs' & Hf & Hlen & Hclean & Hidle).
    exists b', fs'. split; [exact Hf|]. split; [|split].
    + destruct (if Level0cs.opens_format hl then false else b);
        [rewrite length_app in Hlen; simpl in Hlen|]; lia.
    + intros Hfs. apply Hclean.
      destruct (if Level0cs.opens_format hl then false else b); [|exact Hfs].
      apply Forall_app. split; [exact Hfs|].
      constructor; [apply clean_name|constructor].
    + intros -> Hno. apply orb_false_iff in Hno as [Hhl Hno].
      rewrite Hhl in Hidle.
      destruct (Level0cs.opens_format hl); apply Hidle; auto.
Qed.

(** X15.  The loop that collects the column names never raises; it gives
    at most one name per header line, every name is stripped and free of
    semicolons, and without a line that starts with
    "; Column descriptions:" it gives no name at all. *)
Theorem fields_are_clean (header : list string) :
  exists fields : list string,
    header_fields header = Some fields
    /\ (length fields <= length header)%nat
    /\ Forall Level0cs.clean fields
    /\ (if existsb Level0cs.opens_columns header then True else fields = []).
Proof.
  unfold header_fields.
  destruct (fields_loop_spec header false [])
    as (b' & fs' & Hf & Hlen & Hclean & Hidle).
  rewrite Hf. cbn [mbind option_bind snd]. exists fs'.
  split; [reflexivity|]. split; [exact Hlen|]. split; [apply Hclean; constructor|].
  destruct (existsb Level0cs.opens_columns header); [exact I|].
  apply Hidle; reflexivity.
Qed.

Lemma fields_idle (lines : list string) (fs : list string) :
  existsb Level0cs.opens_columns lines = false ->
  fold_left (fun st hline => s ← st; fields_step s hline)
    lines (Some (false, fs))
  = Some (false, fs).
Proof.
  intros H. destruct (fields_loop_spec lines false fs)
    as (b' & fs' & Hf & _ & _ & Hidle).
  destruct (Hidle eq_refl H) as [-> ->]. exact Hf.
Qed.

Lemma fields_collect (cols : list string) (fs : list string) :
  existsb Level0cs.opens_columns cols = false ->
  existsb Level0cs.opens_format cols = false ->
  fold_left (fun st hline => s ← st; fields_step s hline)
    cols (Some (true, fs))
  = Some (true, (fs ++ map Level0cs.name_of cols)%list).
Proof.
  revert fs. induction cols as [|c cols IH]; intros fs Hc Hf;
    cbn [fold_left existsb map] in *.
  - rewrite app_nil_r. reflexivity.
  - apply orb_false_iff in Hc as [Hc1 Hc2].
    apply orb_false_iff in Hf as [Hf1 Hf2].
    cbn [mbind option_bind]. rewrite fields_step_spec, Hc1, Hf1.
    rewrite (IH _ Hc2 Hf2), <- app_assoc. reflexivity.
Qed.

(** X16.  For a header laid out as the files are - lines, then a line
    that starts with "; Column descriptions:", then description lines,
    then a line that starts with "; Format:", then further lines - the
    column names are the names of the description lines, in their order,
    and of nothing else. *)
Theorem fields_are_the_described_columns
    (pre cols post : list string) (cd fmt : string) :
  existsb Level0cs.opens_columns pre = false ->
  Level0cs.opens_columns cd = true ->
  existsb Level0cs.opens_columns cols = false ->
  existsb Level0cs.opens_format cols = false ->
  Level0cs.opens_format fmt = true ->
  existsb Level0cs.opens_columns post = false ->
  header_fields (pre ++ cd :: cols ++ fmt :: post)
  = Some (map Level0cs.name_of cols).
Proof.
  intros Hpre Hcd Hc1 Hc2 Hfmt Hpost. unfold header_fields.
  rewrite fold_left_app, (fields_idle pre [] Hpre).
  cbn [fold_left mbind option_bind]. rewrite fields_step_spec, Hcd.
  assert (E : (if (if Level0cs.opens_format cd then false else false)
               then ([] ++ [Level0cs.name_of cd])%list else [])
              = ([] : list string))
    by (destruct (Level0cs.opens_format cd); reflexivity).
  rewrite E, fold_left_app, (fields_collect cols [] Hc1 Hc2).
  cbn [fold_left mbind option_bind app].
  rewrite fields_step_spec, Hfmt, (format_not_columns fmt Hfmt).
  rewrite (fields_idle post _ Hpost). reflexivity.
Qed.

Lemma fields_are_the_described_columns_witness :
  header_fields
    (["; EVE L0CS-SDO" ++ nl; "; Missing data: -1.00e+00" ++ nl]
       ++ ("; Column descriptions:" ++ nl)
       :: [";    HHMM: hour and minute in UT" ++ nl;
           ";    XRS-B proxy: a model" ++ nl]
       ++ ("; Format:" ++ nl) :: ["; Created: today" ++ nl])
  = Some ["HHMM"; "XRS-B proxy"].
Proof.
  apply (fields_are_the_described_columns
           ["; EVE L0CS-SDO" ++ nl; "; Missing data: -1.00e+00" ++ nl]
           [";    HHMM: hour and minute in UT" ++ nl;
            ";    XRS-B proxy: a model" ++ nl]
           ["; Created: today" ++ nl]);
    reflexivity.
Defined.

End HeaderFacts.

(** ** The added operations on sample values *)

Module MoreSamples.

Import EVESpWxTimeSeries.

Example split_keeps_empty_pieces :
  PyStr.split ":" "a:b::c" = ["a"; "b"; ""; "c"].
Proof. reflexivity. Qed.

Example split_once : PyStr.split1 ":" "a:b::c" = ["a"; "b::c"].
Proof. reflexivity. Qed.

Example split_of_empty : PyStr.split ":" "" = [""].
Proof. reflexivity. Qed.

Example strip_both_ends : PyStr.strip ("  a b " ++ nl) = "a b".
Proof. reflexivity. Qed.

Example day_after_february_2016 :
  Timedelta.add_day (mkDatetime 2016 2 28 1 2 3 4)
  = Some (mkDatetime 2016 2 29 1 2 3 4).
Proof. reflexivity. Qed.

Example hour_after_last_hour_of_2018 :
  Timedelta.add_hour (mkDatetime 2018 12 31 23 2 3 4)
  = Some (mkDatetime 2019 1 1 0 2 3 4).
Proof. reflexivity. Qed.

Example no_day_after_the_last :
  Timedelta.add_day (mkDatetime 9999 12 31 0 0 0 0) = None.
Proof. reflexivity. Qed.

Example sample_header :
  (h ← read_header
         ["; EVE L0CS-SDO" ++ nl;
          "; Source: MEGS-P, ESP" ++ nl;
          "; Missing data: -1.00e+00" ++ nl;
          "; Column descriptions:" ++ nl;
          ";    HHMM: hour and minute in UT" ++ nl;
          "; Format:" ++ nl;
          "2012 112 04 21" ++ nl;
          "0000  1.0" ++ nl];
   m ← header_meta (header h);
   f ← header_fields (header h);
   Some (length (header h), line h, missing_data_val h, m, f))
  = Some (6%nat, "2012 112 04 21" ++ nl, Some "-1.00e+00",
          [("Source", "MEGS-P, ESP"); ("Missing data", "-1.00e+00");
           ("HHMM", "hour and minute in UT")],
          ["HHMM"]).
Proof. reflexivity. Qed.

Example only_a_header :
  (h ← read_header ["; EVE" ++ nl]; Some (header h, line h, fp_rest h))
  = Some (["; EVE" ++ nl], "", []).
Proof. reflexivity. Qed.

End MoreSamples.
